(** * NarumateAI: mood statistics, streaks, title derivation and chat routing

    A shallow embedding of the logic of the NarumateAI front end
    (lib/moodService.ts, lib/huggingface.ts, lib/supabase.ts,
    components/MoodDashboard.tsx, components/MoodSelector.tsx,
    components/ConversationSidebar.tsx and components/ChatInterface.tsx),
    followed by the properties proved about it.

    Conventions of the embedding.
    - A JavaScript string is a Rocq [string]; one character stands for one
      UTF-16 code unit in the ASCII range.
    - A JavaScript number holding an integer (counts, intensities, epoch
      milliseconds) is a [Z] or a [nat]; a number obtained by division is an
      exact rational [Q].
    - A calendar date ["YYYY-MM-DD"] is the number of days since the epoch;
      [new Date(d).getTime()] of such a date is UTC midnight of that day.
    - React state is a record; a handler reads the snapshot of the render it
      was created in and returns the state after its setters have run.
    - The hosted database is an in-memory store threaded through the calls;
      the text generation endpoint and [Math.random] are inputs. *)

From Stdlib Require Import ZArith QArith Qround Lqa Lia.
From Stdlib Require Import List Bool Ascii String.
From Stdlib Require Import Permutation Sorted.
From Stdlib Require PrimFloat Uint63.
Import ListNotations.

Local Open Scope string_scope.
Local Open Scope list_scope.
Local Open Scope Z_scope.

(** ** JavaScript primitives used by the sources *)
Module Js.

(** [String.prototype.toLowerCase] on ASCII letters. *)
Definition lower_ascii (c : ascii) : ascii :=
  let n := nat_of_ascii c in
  if (Nat.leb 65 n && Nat.leb n 90)%bool then ascii_of_nat (n + 32) else c.

Fixpoint toLowerCase (s : string) : string :=
  match s with
  | EmptyString => EmptyString
  | String c s' => String (lower_ascii c) (toLowerCase s')
  end.

(** [s.includes(sub)]: [sub] occurs in [s] as a contiguous substring. *)
Fixpoint includes (s sub : string) : bool :=
  if String.prefix sub s then true
  else match s with
       | EmptyString => false
       | String _ s' => includes s' sub
       end.

(** White space removed by [String.prototype.trim] (ASCII part):
    tab, line feed, vertical tab, form feed, carriage return, space. *)
Definition is_white_space (c : ascii) : bool :=
  let n := nat_of_ascii c in
  ((Nat.leb 9 n && Nat.leb n 13) || Nat.eqb n 32)%bool.

Fixpoint trimStart (s : string) : string :=
  match s with
  | EmptyString => EmptyString
  | String c s' => if is_white_space c then trimStart s' else s
  end.

Fixpoint trimEnd (s : string) : string :=
  match s with
  | EmptyString => EmptyString
  | String c s' =>
      let t := trimEnd s' in
      if (is_white_space c && String.eqb t EmptyString)%bool
      then EmptyString else String c t
  end.

Definition trim (s : string) : string := trimEnd (trimStart s).

(** Truthiness of a string: every string but the empty one. *)
Definition truthy (s : string) : bool := negb (String.eqb s EmptyString).

(** [s.substring(a, b)]: the code units from [min a b] up to, not
    including, [max a b], both clamped to the length. *)
Definition substring (s : string) (a b : nat) : string :=
  String.substring (Nat.min a b) (Nat.max a b - Nat.min a b) s.

(** [Math.round]: nearest integer, a tie going towards plus infinity. *)
Definition Math_round (x : Q) : Z := Qfloor (x + (1 # 2)).

(** [Math.floor]. *)
Definition Math_floor (x : Q) : Z := Qfloor x.

(** [Array.prototype.sort(cmp)]: the sort is stable, so for a consistent
    comparator the result is the one obtained by inserting each element,
    from the last to the first, before the first element it does not
    compare greater than. *)
Section Sort.
Context {A : Type} (cmp : A -> A -> Z).

Fixpoint insert (x : A) (l : list A) : list A :=
  match l with
  | [] => [x]
  | y :: l' => if cmp x y >? 0 then y :: insert x l' else x :: l
  end.

Definition sort (l : list A) : list A := fold_right insert [] l.
End Sort.

(** A plain object used as a map from string keys to numbers,
    [Record<string, number>].  Own properties are kept in creation order,
    which is the order [Object.entries] lists them in when no key is an
    array index, and a lookup sees only own properties when no key names a
    member of [Object.prototype]. *)
Definition Obj := list (string * Z).

Fixpoint get (o : Obj) (k : string) : option Z :=
  match o with
  | [] => None
  | (k', v) :: o' => if String.eqb k' k then Some v else get o' k
  end.

Fixpoint set (o : Obj) (k : string) (v : Z) : Obj :=
  match o with
  | [] => [(k, v)]
  | (k', v') :: o' =>
      if String.eqb k' k then (k', v) :: o' else (k', v') :: set o' k v
  end.

(** [x || 0] for a number or [undefined]. *)
Definition or_zero (x : option Z) : Z :=
  match x with
  | Some v => if v =? 0 then 0 else v
  | None => 0
  end.

Definition Object_entries (o : Obj) : list (string * Z) := o.

(** Names a lookup on a plain object finds on [Object.prototype]. *)
Definition Object_prototype_names : list string :=
  [ "constructor"; "__proto__"; "hasOwnProperty"; "isPrototypeOf";
    "propertyIsEnumerable"; "toLocaleString"; "toString"; "valueOf";
    "__defineGetter__"; "__defineSetter__"; "__lookupGetter__";
    "__lookupSetter__" ].

Definition is_digit (c : ascii) : bool :=
  let n := nat_of_ascii c in (Nat.leb 48 n && Nat.leb n 57)%bool.

(** A key that can be an array index starts with a digit. *)
Definition starts_with_digit (k : string) : bool :=
  match k with
  | EmptyString => false
  | String c _ => is_digit c
  end.

End Js.

(** Milliseconds in a day, [1000 * 60 * 60 * 24]. *)
Definition msPerDay : Z := 1000 * 60 * 60 * 24.

(** [new Date(d).getTime()] for a calendar date [d]. *)
Definition getTime (d : Z) : Z := d * msPerDay.

(** [new Date(ms).toISOString().split('T')[0]]: the UTC date of an instant. *)
Definition isoDate (ms : Z) : Z := ms / msPerDay.

(** The instants a [Date] can hold: 100,000,000 days either side of the
    epoch.  [new Date(ms)] is an invalid date outside of them, and
    [toISOString] of an invalid date throws a [RangeError]. *)
Definition isTimeValue (ms : Z) : bool :=
  (- 8640000000000000 <=? ms) && (ms <=? 8640000000000000).

(** ** lib/supabase.ts: rows, store, conversation and message services *)
Module Supabase.

Inductive Role := user | assistant.

Definition Role_eqb (a b : Role) : bool :=
  match a, b with
  | user, user | assistant, assistant => true
  | _, _ => false
  end.

Module Conversation.
Record t := mk
  { id : nat; title : string; created_at : Z; updated_at : Z;
    user_id : string }.
End Conversation.

Module Message.
Record t := mk
  { id : nat; conversation_id : nat; role : Role; content : string;
    timestamp : Z; created_at : Z }.
End Message.

Module MoodEntry.
Record t := mk
  { id : nat; user_id : string; mood_type : string;
    secondary_moods : list string; intensity : Z; notes : option string;
    triggers : list string; created_at : Z; date : Z }.
End MoodEntry.

(** The hosted database.  [online = false] stands for an unreachable or
    failing persistence tier: every request then reports an error.
    [clock] is the server's [now()], [next_id] the next generated key. *)
Record Db := mkDb
  { online : bool;
    conversations : list Conversation.t;
    messages : list Message.t;
    mood_entries : list MoodEntry.t;
    next_id : nat;
    clock : Z }.

Definition has_conversation (db : Db) (cid : nat) : bool :=
  existsb (fun c => Nat.eqb (Conversation.id c) cid) (conversations db).

(** [conversationService.createConversation(title = 'New Conversation')]. *)
Definition createConversation (db : Db) (title : option string)
  : Db * option Conversation.t :=
  if online db then
    let c := Conversation.mk (next_id db)
               (match title with Some t => t | None => "New Conversation" end)
               (clock db) (clock db) "anonymous" in
    (mkDb (online db) (conversations db ++ [c]) (messages db)
          (mood_entries db) (S (next_id db)) (clock db), Some c)
  else (db, None).

(** [update conversations set ... where id = cid]; the table's trigger sets
    [updated_at] to the server time on every update. *)
Definition update_conversation (f : Conversation.t -> Conversation.t)
    (db : Db) (cid : nat) : Db :=
  mkDb (online db)
       (map (fun c =>
               if Nat.eqb (Conversation.id c) cid then
                 let c' := f c in
                 Conversation.mk (Conversation.id c') (Conversation.title c')
                   (Conversation.created_at c') (clock db)
                   (Conversation.user_id c')
               else c)
            (conversations db))
       (messages db) (mood_entries db) (next_id db) (clock db).

(** [conversationService.updateConversationTitle(id, title)]. *)
Definition updateConversationTitle (db : Db) (cid : nat) (title : string)
  : Db * bool :=
  if online db then
    (update_conversation
       (fun c => Conversation.mk (Conversation.id c) title
                   (Conversation.created_at c) (Conversation.updated_at c)
                   (Conversation.user_id c)) db cid, true)
  else (db, false).

(** [messageService.addMessage(conversationId, role, content)]: the insert
    is refused when the conversation does not exist (foreign key); on
    success the conversation's [updated_at] is bumped. *)
Definition addMessage (db : Db) (cid : nat) (role : Role) (content : string)
    (now : Z) : Db * option Message.t :=
  if (online db && has_conversation db cid)%bool then
    let m := Message.mk (next_id db) cid role content now (clock db) in
    let db1 := mkDb (online db) (conversations db) (messages db ++ [m])
                 (mood_entries db) (S (next_id db)) (clock db) in
    (update_conversation
       (fun c => Conversation.mk (Conversation.id c) (Conversation.title c)
                   (Conversation.created_at c) now (Conversation.user_id c))
       db1 cid, Some m)
  else (db, None).

(** The title stored for a conversation. *)
Definition title_of (db : Db) (cid : nat) : option string :=
  option_map Conversation.title
    (find (fun c => Nat.eqb (Conversation.id c) cid) (conversations db)).

End Supabase.

(** ** lib/moodService.ts *)
Module MoodService.
Import Supabase.

(** The keys of [MOOD_TYPES], in declaration order. *)
Definition MOOD_TYPES : list string :=
  [ "happy"; "excited"; "grateful"; "calm"; "content"; "sad"; "anxious";
    "stressed"; "angry"; "frustrated"; "confused"; "tired"; "lonely";
    "hopeful"; "motivated"; "peaceful" ].

(** [MoodType = keyof typeof MOOD_TYPES]: the mood categories. *)
Definition is_MoodType (m : string) : bool :=
  existsb (String.eqb m) MOOD_TYPES.

Module TrendPoint.
Record t := mk { date : Z; mood : string; intensity : Z }.
End TrendPoint.

Module MoodStats.
Record t := mk
  { totalEntries : Z;
    averageIntensity : Q;
    mostCommonMood : string;
    moodDistribution : Js.Obj;
    weeklyTrend : list TrendPoint.t }.
End MoodStats.

(** [select * from mood_entries where user_id = userId and date >= startDate
    and date <= endDate order by created_at desc]; an error yields [[]]. *)
Definition getMoodEntriesInRange (db : Db) (userId : string)
    (startDate endDate : Z) : list MoodEntry.t :=
  if online db then
    Js.sort (fun a b => MoodEntry.created_at b - MoodEntry.created_at a)
      (filter (fun e =>
                 (String.eqb (MoodEntry.user_id e) userId
                  && (startDate <=? MoodEntry.date e)
                  && (MoodEntry.date e <=? endDate))%bool)
              (mood_entries db))
  else [].

(** [getTodaysMoodEntry(userId)]: the most recently created entry dated
    today, or [null]. *)
Definition getTodaysMoodEntry (db : Db) (userId : string) (now : Z)
  : option MoodEntry.t :=
  let today := isoDate now in
  if online db then
    match
      firstn 1
        (Js.sort (fun a b => MoodEntry.created_at b - MoodEntry.created_at a)
           (filter (fun e =>
                      (String.eqb (MoodEntry.user_id e) userId
                       && (MoodEntry.date e =? today))%bool)
                   (mood_entries db)))
    with
    | e :: _ => Some e
    | [] => None
    end
  else None.

(** The distribution loop of [getMoodStats]:
    [moodDistribution[k] = (moodDistribution[k] || 0) + 1]. *)
Definition countMood (o : Js.Obj) (entry : MoodEntry.t) : Js.Obj :=
  let k := MoodEntry.mood_type entry in
  Js.set o k (Js.or_zero (Js.get o k) + 1).

(** The body of [getMoodStats] once the entries of the range are fetched. *)
Definition statsOfEntries (entries : list MoodEntry.t) : MoodStats.t :=
  match entries with
  | [] => MoodStats.mk 0 0 "" [] []
  | _ :: _ =>
      let totalEntries := Z.of_nat (List.length entries) in
      let total :=
        fold_left (fun sum entry => sum + MoodEntry.intensity entry) entries 0 in
      let averageIntensity := (inject_Z total / inject_Z totalEntries)%Q in
      let moodDistribution := fold_left countMood entries [] in
      let mostCommonMood :=
        match Js.sort (fun a b => snd b - snd a)
                      (Js.Object_entries moodDistribution) with
        | (k, _) :: _ => k
        | [] => ""
        end in
      let weeklyTrend :=
        map (fun entry =>
               TrendPoint.mk (MoodEntry.date entry) (MoodEntry.mood_type entry)
                 (MoodEntry.intensity entry))
            (firstn 7 entries) in
      MoodStats.mk totalEntries
        (inject_Z (Js.Math_round (averageIntensity * 10)) / 10)%Q
        mostCommonMood moodDistribution weeklyTrend
  end.

(** [getMoodStats(userId, days = 30)].  [now] is [Date.now()], always an
    instant a [Date] holds.  The start of the range is computed inside the
    [try]: when [Date.now() - days * 24 * 60 * 60 * 1000] is no such instant,
    [toISOString] throws and the [catch] returns the zero statistics without
    reading any entry. *)
Definition getMoodStats (db : Db) (userId : string) (days : Z) (now : Z)
  : MoodStats.t :=
  let endDate := isoDate now in
  let start := now - days * 24 * 60 * 60 * 1000 in
  if isTimeValue start then
    let startDate := isoDate start in
    statsOfEntries (getMoodEntriesInRange db userId startDate endDate)
  else MoodStats.mk 0 0 "" [] [].

End MoodService.

(** ** components/MoodDashboard.tsx *)
Module MoodDashboard.
Import Supabase.

(** The loop of [getStreakCount]: [streak] and [currentDate] are the loop
    variables, leaving the list early is the [break]. *)
Fixpoint countConsecutive (sortedEntries : list MoodEntry.t)
    (streak : nat) (currentDate : Z) : nat :=
  match sortedEntries with
  | [] => streak
  | entry :: rest =>
      let entryDate := MoodEntry.date entry in
      let diff := (getTime currentDate - getTime entryDate) / msPerDay in
      if diff <=? 1 then countConsecutive rest (S streak) entryDate
      else streak
  end.

(** [getStreakCount()], with the component's [moodEntries] and the UTC date
    of the call as arguments. *)
Definition getStreakCount (today : Z) (moodEntries : list MoodEntry.t) : nat :=
  match moodEntries with
  | [] => 0%nat
  | _ :: _ =>
      let sortedEntries :=
        Js.sort (fun a b => getTime (MoodEntry.date b) - getTime (MoodEntry.date a))
                moodEntries in
      match sortedEntries with
      | [] => 0%nat
      | latestEntry :: _ =>
          let daysDiff :=
            (getTime today - getTime (MoodEntry.date latestEntry)) / msPerDay in
          if daysDiff >? 1 then 0%nat
          else countConsecutive sortedEntries 0 (MoodEntry.date latestEntry)
      end
  end.

(** The calendar days that have at least one entry. *)
Definition distinctDays (moodEntries : list MoodEntry.t) : list Z :=
  nodup Z.eq_dec (map MoodEntry.date moodEntries).

End MoodDashboard.

(** ** lib/huggingface.ts *)
Module HuggingFace.

(** The keys of [HF_MODELS]. *)
Inductive Model := CHAT | CONVERSATIONAL | SUPPORTIVE | CREATIVE.

Inductive ContentType := story | script | narration.

Module ChatMessage.
Record t := mk { role : Supabase.Role; content : string }.
End ChatMessage.

(** The three generation methods of [HuggingFaceService], as requests. *)
Inductive Call :=
| generateChatResponse (messages : list ChatMessage.t) (model : Model)
    (temperature : Q) (maxLength : Z)
| generateSupportiveResponse (userMessage : string) (mood : string)
    (intensity : Z)
| generateCreativeContent (prompt : string) (type : ContentType).

(** The JSON body of a reply: an array of generation objects, or one object
    with an optional [generated_text] and an optional
    [conversation.generated_responses]. *)
Inductive Body :=
| Generations (items : list (option string))
| Single (generated_text : option string)
         (generated_responses : option (list string)).

(** What [fetch] and [response.json()] give for a request: a rejected
    promise, or a reply with its [ok] flag and body. *)
Inductive HttpOutcome :=
| FetchFailed
| Reply (ok : bool) (body : Body).

(** A call of a generation method returns a string or throws. *)
Inductive Result := Returned (text : string) | Threw.

(** [a || b] on possibly undefined strings. *)
Definition or_else (a : option string) (b : string) : string :=
  match a with
  | Some s => if Js.truthy s then s else b
  | None => b
  end.

(** The text each method extracts from a reply body. *)
Definition extractText (c : Call) (body : Body) : string :=
  match c with
  | generateChatResponse _ CHAT _ _
  | generateChatResponse _ SUPPORTIVE _ _ =>
      match body with
      | Single generated_text generated_responses =>
          or_else generated_text
            (or_else (match generated_responses with
                      | Some (r :: _) => Some r
                      | _ => None
                      end) "")
      | Generations _ => ""
      end
  | _ =>
      match body with
      | Generations (item :: _) => or_else item ""
      | Generations [] => ""
      | Single generated_text _ => or_else generated_text ""
      end
  end.

(** A generation method run against the endpoint: [makeRequest] throws when
    [fetch] fails or the reply is not [ok]; every method rethrows. *)
Definition perform (endpoint : Call -> HttpOutcome) (c : Call) : Result :=
  match endpoint c with
  | FetchFailed => Threw
  | Reply false _ => Threw
  | Reply true body => Returned (extractText c body)
  end.

Definition moodResponses : list string :=
  [ "I understand you're sharing your feelings with me. It's important to acknowledge and process our emotions. Would you like to talk more about what's affecting your mood today?";
    "Thank you for opening up about how you're feeling. Emotions are a natural part of the human experience. What do you think might be contributing to these feelings?";
    "I appreciate you sharing your emotional state. Sometimes talking through our feelings can help us understand them better. Is there anything specific that's been on your mind?";
    "It sounds like you're experiencing some strong emotions. Remember that it's okay to feel whatever you're feeling. Would you like to explore what might be behind these feelings?";
    "Your feelings are valid and important. Sometimes our moods can tell us a lot about what we need. Have you noticed any patterns in what affects your emotional state?" ].

Definition storyResponses : list string :=
  [ "Great storytelling starts with a compelling hook! Consider opening with conflict, mystery, or an intriguing character moment. What genre or theme are you exploring?";
    "Every good narrative needs three key elements: engaging characters, a clear conflict, and emotional stakes. What's the central tension in your story?";
    "For narrative structure, try the three-act format: Setup (25%), Confrontation (50%), and Resolution (25%). What's your story's main turning point?";
    "Character development drives great narration. Give your characters clear motivations, flaws, and growth arcs. Who is your protagonist and what do they want?" ].

Definition voiceResponses : list string :=
  [ "For effective voice-over scripts, write conversationally and include natural pauses. Read your script aloud to test its flow. What type of content are you creating?";
    "Voice narration works best with clear, concise language. Avoid complex sentences and use active voice. Are you writing for educational, marketing, or entertainment content?";
    "Consider your audience when crafting narration. Formal tone for business, casual for social media, warm for educational content. What's your target audience?";
    "Good narration pacing includes strategic pauses, emphasis on key points, and varied sentence lengths. What's the main message you want to convey?" ].

Definition contentResponses : list string :=
  [ "Content creation starts with understanding your audience's needs and interests. What problem are you solving or what value are you providing?";
    "Effective content follows the AIDA framework: Attention, Interest, Desire, Action. How can you grab attention in your opening?";
    "For engaging content, use storytelling techniques: relatable characters, conflict, and resolution. What story can you tell to illustrate your point?";
    "Content that resonates combines useful information with emotional connection. What emotions do you want your audience to feel?" ].

(** The single help text; its line breaks and bullets are written as they
    are, a bullet taking three bytes in place of one code unit. *)
Definition helpResponse : string :=
  "I'm NarumateAI, your AI assistant for creating engaging narrated content and supporting your emotional well-being! I can help you with:

• Storytelling techniques and narrative structure
• Script writing for voice-overs
• Content creation strategies
• Processing feelings and emotions
• Mood tracking and self-reflection
• Character development
• Dialogue writing

What specific aspect would you like to explore?".

Definition generalResponses : list string :=
  [ "That's an interesting point! I'm here to help with both your creative projects and emotional well-being. How would you like to develop this idea further?";
    "I'd love to help you explore that concept. Whether it's for content creation or personal reflection, what specific aspect would you like to focus on?";
    "Great question! I can assist with narration, storytelling, and also provide a supportive space to discuss your feelings. What's your main goal today?";
    "That sounds like it could make for compelling content or meaningful self-reflection! How are you planning to approach this?" ].

(** [responses[Math.floor(Math.random() * responses.length)]], with the
    value [random] of [Math.random()]; an index outside the array reads
    [undefined], written here as the empty string. *)
Definition pick (random : Q) (responses : list string) : string :=
  let i := Js.Math_floor (random * inject_Z (Z.of_nat (List.length responses))) in
  if i <? 0 then "" else nth (Z.to_nat i) responses "".

(** Truthiness of the optional [mood] argument. *)
Definition mood_given (mood : option string) : bool :=
  match mood with
  | Some m => Js.truthy m
  | None => false
  end.

(** [generateFallbackResponse(userInput, mood?)]. *)
Definition generateFallbackResponse (userInput : string) (mood : option string)
    (random : Q) : string :=
  let input := Js.toLowerCase userInput in
  if (Js.includes input "feel" || Js.includes input "mood"
      || Js.includes input "emotion" || mood_given mood)%bool
  then pick random moodResponses
  else if (Js.includes input "story" || Js.includes input "narrative"
           || Js.includes input "plot")%bool
  then pick random storyResponses
  else if (Js.includes input "voice" || Js.includes input "narration"
           || Js.includes input "script")%bool
  then pick random voiceResponses
  else if (Js.includes input "content" || Js.includes input "create"
           || Js.includes input "write")%bool
  then pick random contentResponses
  else if (Js.includes input "help" || Js.includes input "how"
           || Js.includes input "what")%bool
  then helpResponse
  else pick random generalResponses.

(** Every text the fallback can produce, by topic bucket. *)
Definition fallbackTexts : list string :=
  moodResponses ++ storyResponses ++ voiceResponses ++ contentResponses
  ++ [helpResponse] ++ generalResponses.

End HuggingFace.

(** ** components/ChatInterface.tsx *)
Module ChatInterface.
Import Supabase HuggingFace.

Module Message.
Record t := mk
  { id : Z; role : Role; content : string; timestamp : Z }.
End Message.

(** The component's state, as seen by the handlers of one render. *)
Record State := mkState
  { messages : list Message.t;
    input : string;
    isLoading : bool;
    currentConversationId : option nat;
    isSupabaseConnected : bool;
    userId : string;
    aiModel : Model;
    useAdvancedMode : bool }.

(** What a turn reads from outside the component: the clock
    ([Date.now()]), the generation endpoint and [Math.random()]. *)
Record World := mkWorld
  { now : Z;
    endpoint : Call -> HttpOutcome;
    random : Q }.

(** [saveMessageToDb(role, content)]; [currentConversationId] and
    [messages] are those of the render the handler belongs to. *)
Definition saveMessageToDb (st : State) (db : Db) (now : Z)
    (role : Role) (content : string) : Db :=
  match isSupabaseConnected st, currentConversationId st with
  | true, Some cid =>
      let db1 := fst (addMessage db cid role content now) in
      if (Role_eqb role user && Nat.eqb (List.length (messages st)) 0)%bool
      then
        let title :=
          if Nat.ltb 50 (String.length content)
          then (Js.substring content 0 50 ++ "...")%string
          else content in
        fst (updateConversationTitle db1 cid title)
      else db1
  | _, _ => db
  end.

(** The generation request of a turn (the [if] cascade of [sendMessage]). *)
Definition generationCall (st : State) (db : Db) (now : Z)
    (currentInput : string) (chatMessages : list ChatMessage.t) : Call :=
  if useAdvancedMode st then
    let todaysMood :=
      if isSupabaseConnected st
      then MoodService.getTodaysMoodEntry db (userId st) now else None in
    let lower := Js.toLowerCase currentInput in
    let otherwise :=
      if (Js.includes lower "story" || Js.includes lower "script"
          || Js.includes lower "narrat")%bool
      then
        let contentType :=
          if Js.includes lower "script" then script
          else if Js.includes lower "narrat" then narration else story in
        generateCreativeContent currentInput contentType
      else generateChatResponse chatMessages (aiModel st) (8 # 10) 1000 in
    match todaysMood with
    | Some m =>
        if (Js.includes lower "feel" || Js.includes lower "mood")%bool
        then generateSupportiveResponse currentInput
               (MoodEntry.mood_type m) (MoodEntry.intensity m)
        else otherwise
    | None => otherwise
    end
  else generateChatResponse chatMessages CHAT (7 # 10) 1000.

(** The result of a turn: the state after the setters have run, the
    database, and the generation request that was made, if any. *)
Record Turn := mkTurn
  { state : State;
    database : Db;
    requested : option Call }.

(** [sendMessage()]. *)
Definition sendMessage (st : State) (db : Db) (w : World) : Turn :=
  if (negb (Js.truthy (Js.trim (input st))) || isLoading st)%bool
  then mkTurn st db None
  else
    let userMessage :=
      Message.mk (now w) user (Js.trim (input st)) (now w) in
    let currentInput := Js.trim (input st) in
    (* create a conversation if none exists *)
    let '(db1, conversationId) :=
      match currentConversationId st with
      | Some cid => (db, Some cid)
      | None =>
          if isSupabaseConnected st then
            match createConversation db None with
            | (db', Some conversation) =>
                (db', Some (Conversation.id conversation))
            | (db', None) => (db', None)
            end
          else (db, None)
      end in
    let persisted :=
      (isSupabaseConnected st
       && match conversationId with Some _ => true | None => false end)%bool in
    let db2 :=
      if persisted then saveMessageToDb st db1 (now w) user currentInput
      else db1 in
    let chatMessages :=
      map (fun m => ChatMessage.mk (Message.role m) (Message.content m))
          (messages st)
      ++ [ChatMessage.mk user currentInput] in
    let call := generationCall st db2 (now w) currentInput chatMessages in
    let assistantContent :=
      match perform (endpoint w) call with
      | Returned text =>
          let trimmed := Js.trim text in
          if Js.truthy trimmed then trimmed
          else generateFallbackResponse currentInput None (random w)
      | Threw =>
          let todaysMood :=
            if isSupabaseConnected st
            then MoodService.getTodaysMoodEntry db2 (userId st) (now w)
            else None in
          generateFallbackResponse currentInput
            (option_map MoodEntry.mood_type todaysMood) (random w)
      end in
    let assistantMessage :=
      Message.mk (now w + 1) assistant assistantContent (now w) in
    let db3 :=
      if persisted
      then saveMessageToDb st db2 (now w) assistant assistantContent
      else db2 in
    mkTurn
      (mkState (messages st ++ [userMessage; assistantMessage]) ""
         false conversationId (isSupabaseConnected st) (userId st)
         (aiModel st) (useAdvancedMode st))
      db3 (Some call).

(** The assistant message a turn appended, if it appended one. *)
Definition assistantReply (st : State) (t : Turn) : option Message.t :=
  match skipn (List.length (messages st)) (messages (state t)) with
  | [_; a] => Some a
  | _ => None
  end.

End ChatInterface.

(** ** Notions the properties are stated with *)
Module Spec.
Import Supabase.

(** The sum of the intensities of a list of entries. *)
Definition totalIntensity (entries : list MoodEntry.t) : Z :=
  fold_right Z.add 0 (map MoodEntry.intensity entries).

(** The arithmetic mean of the intensities. *)
Definition arithmeticMean (entries : list MoodEntry.t) : Q :=
  (inject_Z (totalIntensity entries)
   / inject_Z (Z.of_nat (List.length entries)))%Q.

(** [r] is [m] rounded to one decimal place, a tie going up: [r] is a whole
    number of tenths and [m] lies in the half-open interval of width one
    tenth around it, [r - 1/20 <= m < r + 1/20]. *)
Definition roundedHalfUp1 (m r : Q) : Prop :=
  exists k : Z,
    (r == inject_Z k / 10 /\ r - (1 # 20) <= m /\ m < r + (1 # 20))%Q.

(** The primary moods of the entries, in the order of the list. *)
Definition moods (entries : list MoodEntry.t) : list string :=
  map MoodEntry.mood_type entries.

(** How many entries have primary mood [m]. *)
Definition occurrences (m : string) (entries : list MoodEntry.t) : Z :=
  Z.of_nat (count_occ string_dec (moods entries) m).

(** The position of the first entry with primary mood [m] (the length of
    the list when there is none). *)
Fixpoint firstIndex (m : string) (ms : list string) : nat :=
  match ms with
  | [] => 0%nat
  | m' :: ms' => if String.eqb m' m then 0%nat else S (firstIndex m ms')
  end.

(** The distinct moods of a list, each at the place of its first
    occurrence. *)
Fixpoint firstSeen (ms : list string) : list string :=
  match ms with
  | [] => []
  | m :: ms' => m :: filter (fun k => negb (String.eqb m k)) (firstSeen ms')
  end.

(** A key for which the plain-object model of a distribution is exact: not
    an array index and not a member of [Object.prototype]. *)
Definition plainKey (k : string) : bool :=
  (negb (Js.starts_with_digit k)
   && negb (existsb (String.eqb k) Js.Object_prototype_names))%bool.

(** The sum of the counts held by a distribution. *)
Definition sumCounts (o : Js.Obj) : Z := fold_right Z.add 0 (map snd o).

(** Every entry carries a mood category. *)
Definition moodCategories (entries : list MoodEntry.t) : Prop :=
  Forall (fun e => MoodService.is_MoodType (MoodEntry.mood_type e) = true)
         entries.

(** One of the keywords occurs in the lower-cased input. *)
Definition mentions (lower : string) (keywords : list string) : bool :=
  existsb (Js.includes lower) keywords.

(** The topic bucket that keyword matching selects for a lower-cased input,
    in the order the specification lists the buckets: mood and feelings
    (also whenever a mood is known), then story, narration and voice,
    content creation, help, and the general bucket when no keyword occurs.
    The keywords of a bucket are those the source looks for. *)
Definition topicBucket (lower : string) (moodKnown : bool) : list string :=
  if (mentions lower ["feel"; "mood"; "emotion"] || moodKnown)%bool
  then HuggingFace.moodResponses
  else if mentions lower ["story"; "narrative"; "plot"]
  then HuggingFace.storyResponses
  else if mentions lower ["voice"; "narration"; "script"]
  then HuggingFace.voiceResponses
  else if mentions lower ["content"; "create"; "write"]
  then HuggingFace.contentResponses
  else if mentions lower ["help"; "how"; "what"]
  then [HuggingFace.helpResponse]
  else HuggingFace.generalResponses.

End Spec.

(** ** The average in binary64 arithmetic *)
Module Binary64.

(** The double holding a small integer. *)
Definition of_Z (z : Z) : PrimFloat.float :=
  PrimFloat.of_uint63 (Uint63.of_Z z).

Definition half : PrimFloat.float := PrimFloat.div (of_Z 1) (of_Z 2).

(** [Math.round(p) === k] for a double [p]: [k - 0.5 <= p < k + 0.5], the
    bounds being doubles themselves. *)
Definition rounds_to (p : PrimFloat.float) (k : Z) : bool :=
  (PrimFloat.leb (PrimFloat.sub (of_Z k) half) p
   && PrimFloat.ltb p (PrimFloat.add (of_Z k) half))%bool.

(** [(total / n) * 10] as [getMoodStats] evaluates it on doubles. *)
Definition tenths (total n : Z) : PrimFloat.float :=
  PrimFloat.mul (PrimFloat.div (of_Z total) (of_Z n)) (of_Z 10).

(** On doubles [Math.round] gives the integer the exact computation gives. *)
Definition agrees (total n : Z) : bool :=
  rounds_to (tenths total n)
            (Js.Math_round (inject_Z total / inject_Z n * 10)).

Definition range (lo : Z) (len : nat) : list Z :=
  map (fun i => lo + Z.of_nat i) (seq 0 len).

(** Agreement for every list of at most [N] entries with intensities in
    [1, 5]: every length [n] and every total from [n] to [5 * n]. *)
Definition agrees_upto (N : nat) : bool :=
  forallb (fun n =>
             forallb (fun total => agrees total n)
                     (range n (Z.to_nat (4 * n + 1))))
          (range 1 N).

End Binary64.

(** The generation path of a turn failed: [fetch] was rejected, the reply
    was not [ok], or the text extracted from it is empty once trimmed. *)
Definition generationFailed (endpoint : HuggingFace.Call -> HuggingFace.HttpOutcome)
    (call : HuggingFace.Call) : Prop :=
  match endpoint call with
  | HuggingFace.FetchFailed => True
  | HuggingFace.Reply false _ => True
  | HuggingFace.Reply true body =>
      Js.trim (HuggingFace.extractText call body) = ""
  end.

(** ** Sample data *)
Module Sample.
Import Supabase.

(** A store holding one conversation, with key 1, and one mood entry of the
    anonymous user dated day 20268. *)
Definition db : Db :=
  mkDb true [Conversation.mk 1 "New Conversation" 0 0 "anonymous"] []
       [MoodEntry.mk 2 "anonymous" "anxious" [] 4 None [] 1751155200000 20268]
       3 1751155200000.

(** An instant of day 20268. *)
Definition now : Z := 1751190000000.

(** The chat component showing conversation 1, nothing sent yet. *)
Definition state (input : string) (advanced : bool) : ChatInterface.State :=
  ChatInterface.mkState [] input false (Some 1%nat) true "anonymous"
    HuggingFace.CHAT advanced.

(** A first message of 80 characters. *)
Definition message80 : string :=
  "0123456789012345678901234567890123456789012345678901234567890123456789abcdefghij".

(** An endpoint that is down. *)
Definition endpointDown (_ : HuggingFace.Call) : HuggingFace.HttpOutcome :=
  HuggingFace.FetchFailed.

End Sample.

(** ** The streak computation on the dates alone *)
Module DatesOnly.

(** The comparator of [getStreakCount] on two dates given as day numbers. *)
Definition later_first (a b : Z) : Z := b - a.

(** The loop of [getStreakCount] on day numbers. *)
Fixpoint countDays (ds : list Z) (streak : nat) (currentDate : Z) : nat :=
  match ds with
  | [] => streak
  | d :: rest =>
      if currentDate - d <=? 1 then countDays rest (S streak) d else streak
  end.

(** [getStreakCount] on the dates, already sorted latest first. *)
Definition streakOfSorted (today : Z) (ds : list Z) : nat :=
  match ds with
  | [] => 0%nat
  | latest :: _ => if today - latest >? 1 then 0%nat else countDays ds 0 latest
  end.

End DatesOnly.

(** ** lib/supabase.ts: listing and deleting *)
Module ConversationService.
Import Supabase.

(** [getConversations()]: every conversation, latest update first; an
    error yields [[]]. *)
Definition getConversations (db : Db) : list Conversation.t :=
  if online db then
    Js.sort (fun a b => Conversation.updated_at b - Conversation.updated_at a)
      (conversations db)
  else [].

(** [deleteConversation(id)]: the row is deleted and, by the foreign key of
    [messages] ([ON DELETE CASCADE]), so are the messages of the
    conversation; the call succeeds whether or not a row matched. *)
Definition deleteConversation (db : Db) (cid : nat) : Db * bool :=
  if online db then
    (mkDb (online db)
       (filter (fun c => negb (Nat.eqb (Conversation.id c) cid))
               (conversations db))
       (filter (fun m => negb (Nat.eqb (Message.conversation_id m) cid))
               (messages db))
       (mood_entries db) (next_id db) (clock db), true)
  else (db, false).

End ConversationService.

Module MessageService.
Import Supabase.

(** [getMessages(conversationId)]: the messages of the conversation by
    ascending [timestamp]; an error yields [[]]. *)
Definition getMessages (db : Db) (cid : nat) : list Message.t :=
  if online db then
    Js.sort (fun a b => Message.timestamp a - Message.timestamp b)
      (filter (fun m => Nat.eqb (Message.conversation_id m) cid)
              (messages db))
  else [].

(** [deleteMessage(id)]. *)
Definition deleteMessage (db : Db) (mid : nat) : Db * bool :=
  if online db then
    (mkDb (online db) (conversations db)
       (filter (fun m => negb (Nat.eqb (Message.id m) mid)) (messages db))
       (mood_entries db) (next_id db) (clock db), true)
  else (db, false).

End MessageService.

(** ** lib/moodService.ts: recording, listing and deleting entries *)
Module MoodEntries.
Import Supabase.

(** The [options] argument of [addMoodEntry]. *)
Record Options := mkOptions
  { secondaryMoods : option (list string);
    notes : option string;
    triggers : option (list string) }.

(** [x || []] for an optional array (an array is always truthy). *)
Definition or_empty (x : option (list string)) : list string :=
  match x with
  | Some l => l
  | None => []
  end.

(** [addMoodEntry(userId, moodType, intensity, options = {})]: the insert is
    refused unless the intensity is between 1 and 5 (check constraint of
    the table); [created_at] and [date] take the server's time and date. *)
Definition addMoodEntry (db : Db) (userId moodType : string) (intensity : Z)
    (options : Options) : Db * option MoodEntry.t :=
  if (online db && (1 <=? intensity) && (intensity <=? 5))%bool then
    let e := MoodEntry.mk (next_id db) userId moodType
               (or_empty (secondaryMoods options)) intensity (notes options)
               (or_empty (triggers options)) (clock db) (isoDate (clock db)) in
    (mkDb (online db) (conversations db) (messages db)
          (mood_entries db ++ [e]) (S (next_id db)) (clock db), Some e)
  else (db, None).

(** [getMoodEntries(userId, limit = 50)]: the [limit] most recently created
    entries of the user. *)
Definition getMoodEntries (db : Db) (userId : string) (limit : nat)
  : list MoodEntry.t :=
  if online db then
    firstn limit
      (Js.sort (fun a b => MoodEntry.created_at b - MoodEntry.created_at a)
         (filter (fun e => String.eqb (MoodEntry.user_id e) userId)
                 (mood_entries db)))
  else [].

(** [deleteMoodEntry(id)]. *)
Definition deleteMoodEntry (db : Db) (eid : nat) : Db * bool :=
  if online db then
    (mkDb (online db) (conversations db) (messages db)
       (filter (fun e => negb (Nat.eqb (MoodEntry.id e) eid)) (mood_entries db))
       (next_id db) (clock db), true)
  else (db, false).

End MoodEntries.

(** ** components/MoodSelector.tsx *)
Module MoodSelector.

(** [toggleTrigger(trigger)] as a function of the previous selection:
    [prev.includes(t) ? prev.filter(x => x !== t) : [...prev, t]]. *)
Definition toggleTrigger (trigger : string) (prev : list string)
  : list string :=
  if existsb (String.eqb trigger) prev
  then filter (fun t => negb (String.eqb t trigger)) prev
  else prev ++ [trigger].

(** [toggleSecondaryMood(mood)], the same update on the secondary moods. *)
Definition toggleSecondaryMood (mood : string) (prev : list string)
  : list string :=
  if existsb (String.eqb mood) prev
  then filter (fun m => negb (String.eqb m mood)) prev
  else prev ++ [mood].

(** [getIntensityLabel(level)]: [labels[level - 1]], [undefined] outside
    the array. *)
Definition getIntensityLabel (level : Z) : option string :=
  if level - 1 <? 0 then None
  else nth_error ["Very Low"; "Low"; "Moderate"; "High"; "Very High"]
                 (Z.to_nat (level - 1)).

End MoodSelector.

(** ** components/ConversationSidebar.tsx *)
Module ConversationSidebar.
Import Supabase.

Record State := mkState
  { conversations : list Conversation.t;
    editingId : option nat;
    editTitle : string;
    loading : bool }.

(** [loadConversations()]. *)
Definition loadConversations (st : State) (db : Db) : State :=
  mkState (ConversationService.getConversations db) (editingId st)
          (editTitle st) false.

(** [handleDeleteConversation(id)]: [confirmed] is the answer to
    [window.confirm]; [currentConversationId] and [onNewConversation] are
    the props of the component.  The callback works on the state of the
    parent and on the store; it is called when the conversation deleted is
    the current one, and the handler is modelled with the call completed. *)
Definition handleDeleteConversation {Parent : Type}
    (currentConversationId : option nat)
    (onNewConversation : Parent -> Db -> Parent * Db)
    (st : State) (parent : Parent) (db : Db) (confirmed : bool) (cid : nat)
  : State * Parent * Db :=
  if confirmed then
    let '(db', success) := ConversationService.deleteConversation db cid in
    if success then
      let st' :=
        mkState
          (filter (fun conv => negb (Nat.eqb (Conversation.id conv) cid))
                  (conversations st))
          (editingId st) (editTitle st) (loading st) in
      if match currentConversationId with
         | Some current => Nat.eqb current cid
         | None => false
         end
      then
        let '(parent', db'') := onNewConversation parent db' in
        (st', parent', db'')
      else (st', parent, db')
    else (st, parent, db')
  else (st, parent, db).

(** [startEditing(conversation)]. *)
Definition startEditing (st : State) (conversation : Conversation.t) : State :=
  mkState (conversations st) (Some (Conversation.id conversation))
          (Conversation.title conversation) (loading st).

(** [saveEdit()]. *)
Definition saveEdit (st : State) (db : Db) : State * Db :=
  match editingId st with
  | Some eid =>
      if Js.truthy (Js.trim (editTitle st)) then
        let '(db', success) :=
          updateConversationTitle db eid (Js.trim (editTitle st)) in
        if success then
          (mkState
             (map (fun conv =>
                     if Nat.eqb (Conversation.id conv) eid
                     then Conversation.mk (Conversation.id conv)
                            (Js.trim (editTitle st))
                            (Conversation.created_at conv)
                            (Conversation.updated_at conv)
                            (Conversation.user_id conv)
                     else conv)
                  (conversations st))
             None "" (loading st), db')
        else (mkState (conversations st) None "" (loading st), db')
      else (mkState (conversations st) None "" (loading st), db)
  | None => (mkState (conversations st) None "" (loading st), db)
  end.

(** [cancelEdit()]. *)
Definition cancelEdit (st : State) : State :=
  mkState (conversations st) None "" (loading st).

End ConversationSidebar.

(** ** components/ChatInterface.tsx: opening conversations *)
Module ChatActions.
Import Supabase ChatInterface.

(** [createNewConversation()]. *)
Definition createNewConversation (st : State) (db : Db) : State * Db :=
  if negb (isSupabaseConnected st) then
    (mkState [] (input st) (isLoading st) None (isSupabaseConnected st)
       (userId st) (aiModel st) (useAdvancedMode st), db)
  else
    match createConversation db None with
    | (db', Some conversation) =>
        (mkState [] (input st) (isLoading st)
           (Some (Conversation.id conversation)) (isSupabaseConnected st)
           (userId st) (aiModel st) (useAdvancedMode st), db')
    | (db', None) => (st, db')
    end.

(** [setInput(e.target.value)], the text box being edited. *)
Definition setInput (st : State) (value : string) : State :=
  mkState (messages st) value (isLoading st) (currentConversationId st)
    (isSupabaseConnected st) (userId st) (aiModel st) (useAdvancedMode st).

(** [loadConversation(conversationId)]. *)
Definition loadConversation (st : State) (db : Db) (conversationId : nat)
  : State :=
  if negb (isSupabaseConnected st) then st
  else
    mkState
      (map (fun msg =>
              ChatInterface.Message.mk (Z.of_nat (Supabase.Message.id msg))
                (Supabase.Message.role msg) (Supabase.Message.content msg)
                (Supabase.Message.timestamp msg))
           (MessageService.getMessages db conversationId))
      (input st) (isLoading st) (Some conversationId)
      (isSupabaseConnected st) (userId st) (aiModel st) (useAdvancedMode st).

End ChatActions.

(** ** components/ChatInterface.tsx: the sidebar as it is rendered *)
Module ChatSidebar.
Import Supabase.

(** The sidebar is rendered, when the component is connected, with
    [currentConversationId={currentConversationId}] and
    [onNewConversation={createNewConversation}]: deleting a conversation
    there runs [handleDeleteConversation] with these. *)
Definition handleDeleteConversation (chat : ChatInterface.State)
    (st : ConversationSidebar.State) (db : Db) (confirmed : bool) (cid : nat)
  : ConversationSidebar.State * ChatInterface.State * Db :=
  ConversationSidebar.handleDeleteConversation
    (ChatInterface.currentConversationId chat)
    ChatActions.createNewConversation st chat db confirmed cid.

End ChatSidebar.

(** ** components/MoodDashboard.tsx: loading the data *)
Module DashboardData.
Import Supabase.

(** The time ranges the dashboard offers, ['7' | '30' | '90']. *)
Inductive TimeRange := days7 | days30 | days90.

(** [parseInt(timeRange)]. *)
Definition parseInt (r : TimeRange) : Z :=
  match r with
  | days7 => 7
  | days30 => 30
  | days90 => 90
  end.

(** What [loadMoodData()] stores: [moodEntries] and [moodStats]. *)
Definition loadMoodData (db : Db) (userId : string) (timeRange : TimeRange)
    (now : Z) : list MoodEntry.t * MoodService.MoodStats.t :=
  (MoodEntries.getMoodEntries db userId 50,
   MoodService.getMoodStats db userId (parseInt timeRange) now).

(** [streakCount], the streak shown once the data is loaded. *)
Definition streakCount (db : Db) (userId : string) (timeRange : TimeRange)
    (now : Z) : nat :=
  MoodDashboard.getStreakCount (isoDate now)
    (fst (loadMoodData db userId timeRange now)).

End DashboardData.

(** ** Consistency of the store *)
Module Store.
Import Supabase.

(** Every message belongs to a conversation of the store (the foreign key
    of [messages]). *)
Definition messagesOwned (db : Db) : Prop :=
  Forall (fun m => has_conversation db (Message.conversation_id m) = true)
         (messages db).

(** Every mood entry has an intensity from 1 to 5 (the check constraint of
    [mood_entries]). *)
Definition intensitiesChecked (db : Db) : Prop :=
  Forall (fun e => 1 <= MoodEntry.intensity e <= 5) (mood_entries db).

(** The keys in use are below the next generated key. *)
Definition keysFresh (db : Db) : Prop :=
  Forall (fun c => (Conversation.id c < next_id db)%nat) (conversations db)
  /\ Forall (fun m => (Message.id m < next_id db)%nat) (messages db)
  /\ Forall (fun e => (MoodEntry.id e < next_id db)%nat) (mood_entries db).

(** The three constraints together. *)
Definition consistent (db : Db) : Prop :=
  messagesOwned db /\ intensitiesChecked db /\ keysFresh db.

(** The messages stored for a conversation, in insertion order. *)
Definition messagesOf (db : Db) (cid : nat) : list Message.t :=
  filter (fun m => Nat.eqb (Message.conversation_id m) cid) (messages db).

End Store.

(** The [k] calendar days that end with day [d], latest first. *)
Fixpoint daysEnding (d : Z) (k : nat) : list Z :=
  match k with
  | O => []
  | S k' => d :: daysEnding (d - 1) k'
  end.

(** * Properties *)

Import Supabase.

(** ** Statistics of an empty range *)

(** C5: for an empty list of entries the statistics are the zero-valued
    result: no entries, average 0, the empty string as most common mood, an
    empty distribution and an empty trend.  The computation is a total
    function, so this is a result and not a failure; it is also what
    [getMoodStats] returns on a store holding no mood entry. *)
Theorem getMoodStats_empty :
  MoodService.statsOfEntries [] = MoodService.MoodStats.mk 0 0 "" [] []
  /\ forall on cs ms nid clk userId days now,
       MoodService.getMoodStats (mkDb on cs ms [] nid clk) userId days now
       = MoodService.MoodStats.mk 0 0 "" [] [].
Proof.
  split; [reflexivity|].
  intros on cs ms nid clk userId days now.
  unfold MoodService.getMoodStats, MoodService.getMoodEntriesInRange.
  destruct (isTimeValue _); [|reflexivity].
  simpl. destruct on; reflexivity.
Qed.

(** ** Average intensity *)

Section Average.

Lemma fold_left_intensity (entries : list MoodEntry.t) (a : Z) :
  fold_left (fun sum entry => sum + MoodEntry.intensity entry) entries a
  = a + Spec.totalIntensity entries.
Proof.
  revert a; induction entries as [|e es IH]; intro a; simpl.
  - unfold Spec.totalIntensity; simpl; lia.
  - rewrite IH. unfold Spec.totalIntensity; simpl; lia.
Qed.

Lemma totalIntensity_bounds (entries : list MoodEntry.t) :
  Forall (fun e => 1 <= MoodEntry.intensity e <= 5) entries ->
  Z.of_nat (List.length entries) <= Spec.totalIntensity entries
  <= 5 * Z.of_nat (List.length entries).
Proof.
  induction 1 as [|e es He _ IH]; unfold Spec.totalIntensity in *; simpl.
  - lia.
  - rewrite Zpos_P_of_succ_nat. lia.
Qed.

(** The mean of [n > 0] values between 1 and 5 is between 1 and 5. *)
Lemma mean_bounds (s n : Z) :
  0 < n -> n <= s <= 5 * n -> (1 <= inject_Z s / inject_Z n <= 5)%Q.
Proof.
  intros Hn [Hlo Hhi].
  assert (Hq : (0 < inject_Z n)%Q) by (change 0%Q with (inject_Z 0); rewrite <- Zlt_Qlt; exact Hn).
  split.
  - apply Qle_shift_div_l; [exact Hq|].
    rewrite Qmult_1_l. rewrite <- Zle_Qle. exact Hlo.
  - apply Qle_shift_div_r; [exact Hq|].
    change 5%Q with (inject_Z 5). rewrite <- inject_Z_mult, <- Zle_Qle.
    exact Hhi.
Qed.

(** Rounding [m * 10] with [Math.round] and dividing by 10 rounds [m] to
    one decimal place, a tie going up, and keeps it within [1, 5]. *)
Lemma round_tenths (m : Q) :
  (1 <= m <= 5)%Q ->
  let r := (inject_Z (Js.Math_round (m * 10)) / 10)%Q in
  Spec.roundedHalfUp1 m r /\ (1 <= r <= 5)%Q.
Proof.
  intros [Hlo Hhi] r. subst r. unfold Js.Math_round.
  set (x := (m * 10 + (1 # 2))%Q).
  assert (Hx : (x == m * 10 + (1 # 2))%Q) by reflexivity.
  clearbody x.
  pose proof (Qfloor_le x) as Hfl.
  pose proof (Qlt_floor x) as Hfu.
  rewrite inject_Z_plus in Hfu. change (inject_Z 1) with 1%Q in Hfu.
  assert (H10 : 10 <= Qfloor x).
  { rewrite <- (Qfloor_Z 10). apply Qfloor_resp_le.
    change (inject_Z 10) with 10%Q. lra. }
  assert (H50 : Qfloor x <= 50).
  { apply Z.lt_succ_r. rewrite (Zlt_Qlt (Qfloor x) (Z.succ 50)).
    change (inject_Z (Z.succ 50)) with 51%Q.
    apply Qle_lt_trans with x; [exact Hfl | lra]. }
  rewrite (Zle_Qle 10 (Qfloor x)) in H10.
  rewrite (Zle_Qle (Qfloor x) 50) in H50.
  change (inject_Z 10) with 10%Q in H10.
  change (inject_Z 50) with 50%Q in H50.
  assert (Hk : exists k : Q, (k == inject_Z (Qfloor x))%Q
                             /\ (k <= x /\ x < k + 1 /\ 10 <= k <= 50)%Q).
  { exists (inject_Z (Qfloor x)). repeat split; auto; reflexivity. }
  destruct Hk as (k & Hk & Hk1 & Hk2 & Hk3 & Hk4).
  assert (Hr : (inject_Z (Qfloor x) / 10 == k * (1 # 10))%Q)
    by (rewrite Hk; reflexivity).
  split.
  - exists (Qfloor x). split; [reflexivity|].
    rewrite Hr. split; lra.
  - rewrite Hr. split; lra.
Qed.

(** Evaluated on binary64 numbers, as JavaScript does, the rounding of the
    average gives the same integer number of tenths as the exact computation,
    for every list of at most 128 entries with intensities in [1, 5]; among
    them are all the means that fall on a tie. *)
Lemma binary64_average_agrees : Binary64.agrees_upto 128 = true.
Proof. vm_compute. reflexivity. Qed.

End Average.

(** C1: for a non-empty list of entries whose intensities lie in [1, 5],
    the [averageIntensity] of the statistics is the arithmetic mean of the
    intensities rounded to one decimal place with a tie going up, and it
    lies in [1, 5]. *)
Theorem averageIntensity_rounded_mean (entries : list MoodEntry.t) :
  entries <> [] ->
  Forall (fun e => 1 <= MoodEntry.intensity e <= 5) entries ->
  let avg :=
    MoodService.MoodStats.averageIntensity
      (MoodService.statsOfEntries entries) in
  Spec.roundedHalfUp1 (Spec.arithmeticMean entries) avg /\ (1 <= avg <= 5)%Q.
Proof.
  intros Hne Hrange.
  destruct entries as [|e es]; [congruence|].
  cbv zeta. unfold MoodService.statsOfEntries.
  cbv beta iota zeta. unfold MoodService.MoodStats.averageIntensity.
  rewrite fold_left_intensity, Z.add_0_l.
  apply round_tenths. unfold Spec.arithmeticMean.
  apply mean_bounds.
  - simpl List.length. lia.
  - apply totalIntensity_bounds. exact Hrange.
Qed.

Lemma averageIntensity_rounded_mean_witness :
  let entries :=
    [ MoodEntry.mk 1 "anonymous" "happy" [] 4 None [] 20 3;
      MoodEntry.mk 2 "anonymous" "calm" [] 3 None [] 10 2;
      MoodEntry.mk 3 "anonymous" "happy" [] 2 None [] 5 1;
      MoodEntry.mk 4 "anonymous" "sad" [] 2 None [] 1 1 ] in
  entries <> []
  /\ Forall (fun e => 1 <= MoodEntry.intensity e <= 5) entries
  /\ Spec.roundedHalfUp1 (Spec.arithmeticMean entries)
       (MoodService.MoodStats.averageIntensity
          (MoodService.statsOfEntries entries))
  /\ (MoodService.MoodStats.averageIntensity
        (MoodService.statsOfEntries entries) == 28 # 10)%Q.
Proof.
  intro entries.
  assert (Hne : entries <> []) by (subst entries; discriminate).
  assert (Hr : Forall (fun e => 1 <= MoodEntry.intensity e <= 5) entries).
  { subst entries. repeat constructor; simpl; lia. }
  split; [exact Hne|]. split; [exact Hr|].
  split.
  - exact (proj1 (averageIntensity_rounded_mean entries Hne Hr)).
  - vm_compute. reflexivity.
Defined.

(** ** Sorting *)

Section SortFacts.
Context {A : Type} (cmp : A -> A -> Z).

Lemma insert_perm (x : A) (l : list A) :
  Permutation (Js.insert cmp x l) (x :: l).
Proof.
  induction l as [|y l IH]; simpl; [reflexivity|].
  destruct (cmp x y >? 0); [|reflexivity].
  rewrite IH. apply perm_swap.
Qed.

Lemma sort_perm (l : list A) : Permutation (Js.sort cmp l) l.
Proof.
  induction l as [|x l IH]; simpl; [reflexivity|].
  rewrite insert_perm. now constructor.
Qed.

Lemma sort_length (l : list A) :
  List.length (Js.sort cmp l) = List.length l.
Proof. apply Permutation_length, sort_perm. Qed.

(** Sorting commutes with a projection the comparator factors through. *)
Lemma insert_map {B : Type} (f : A -> B) (cmpB : B -> B -> Z) :
  (forall a b, (cmp a b >? 0) = (cmpB (f a) (f b) >? 0)) ->
  forall x l, map f (Js.insert cmp x l) = Js.insert cmpB (f x) (map f l).
Proof.
  intros Hc x l; induction l as [|y l IH]; simpl; [reflexivity|].
  rewrite <- Hc. destruct (cmp x y >? 0); simpl; [now rewrite IH|reflexivity].
Qed.

Lemma sort_map {B : Type} (f : A -> B) (cmpB : B -> B -> Z) :
  (forall a b, (cmp a b >? 0) = (cmpB (f a) (f b) >? 0)) ->
  forall l, map f (Js.sort cmp l) = Js.sort cmpB (map f l).
Proof.
  intros Hc l; induction l as [|x l IH]; simpl; [reflexivity|].
  rewrite (insert_map f cmpB Hc), IH. reflexivity.
Qed.
End SortFacts.

(** ** Streaks *)

Section Streak.
Import MoodDashboard DatesOnly.

Lemma getTime_diff_days (a b : Z) : (getTime a - getTime b) / msPerDay = a - b.
Proof.
  unfold getTime. rewrite <- Z.mul_sub_distr_r.
  apply Z.div_mul. unfold msPerDay; lia.
Qed.

Lemma getTime_diff_pos (a b : Z) :
  (getTime b - getTime a >? 0) = (later_first a b >? 0).
Proof.
  unfold getTime, later_first, msPerDay.
  destruct (Z.gtb_spec (b - a) 0), (Z.gtb_spec (b * (1000*60*60*24) - a * (1000*60*60*24)) 0);
    try reflexivity; lia.
Qed.

Lemma countConsecutive_dates (es : list MoodEntry.t) (streak : nat) (cur : Z) :
  countConsecutive es streak cur = countDays (map MoodEntry.date es) streak cur.
Proof.
  revert streak cur; induction es as [|e es IH]; intros streak cur; simpl.
  - reflexivity.
  - rewrite getTime_diff_days. destruct (cur - MoodEntry.date e <=? 1); auto.
Qed.

(** The streak is a function of the dates sorted latest first. *)
Lemma getStreakCount_dates (today : Z) (entries : list MoodEntry.t) :
  getStreakCount today entries
  = streakOfSorted today (Js.sort later_first (map MoodEntry.date entries)).
Proof.
  unfold getStreakCount.
  rewrite <- (sort_map
                (fun a b => getTime (MoodEntry.date b) - getTime (MoodEntry.date a))
                MoodEntry.date later_first)
    by (intros; apply getTime_diff_pos).
  destruct entries as [|e es]; [reflexivity|].
  set (sorted := Js.sort _ (e :: es)).
  destruct sorted as [|latest rest]; [reflexivity|].
  unfold streakOfSorted. cbn [map].
  rewrite getTime_diff_days.
  destruct (today - MoodEntry.date latest >? 1); [reflexivity|].
  apply (countConsecutive_dates (latest :: rest)).
Qed.

Lemma insert_later_first_sorted (x : Z) (l : list Z) :
  StronglySorted Z.ge l -> StronglySorted Z.ge (Js.insert later_first x l).
Proof.
  induction 1 as [|y l Hs IH Hy]; simpl.
  - repeat constructor.
  - unfold later_first at 1.
    destruct (Z.gtb_spec (y - x) 0) as [Hgt|Hle].
    + constructor; [exact IH|].
      rewrite Forall_forall in *. intros z Hz.
      apply (Permutation_in _ (insert_perm later_first x l)) in Hz.
      destruct Hz as [<-|Hz]; [lia|auto].
    + constructor; [now constructor|].
      constructor; [lia|].
      rewrite Forall_forall in *. intros z Hz. specialize (Hy z Hz). lia.
Qed.

Lemma sort_later_first_sorted (l : list Z) :
  StronglySorted Z.ge (Js.sort later_first l).
Proof.
  induction l as [|x l IH]; simpl; [constructor|].
  now apply insert_later_first_sorted.
Qed.

(** Two lists sorted latest first with the same elements are equal. *)
Lemma sorted_ge_unique (l1 l2 : list Z) :
  StronglySorted Z.ge l1 -> StronglySorted Z.ge l2 ->
  Permutation l1 l2 -> l1 = l2.
Proof.
  intros H1; revert l2; induction H1 as [|a l1 Hs1 IH Ha]; intros l2 H2 Hp.
  - apply Permutation_nil in Hp. now subst.
  - destruct H2 as [|b l2 Hs2 Hb].
    + apply Permutation_sym, Permutation_nil in Hp. discriminate.
    + assert (a = b).
      { rewrite Forall_forall in Ha, Hb.
        assert (Hin1 : In b (a :: l1))
          by (apply (Permutation_in _ (Permutation_sym Hp)); now left).
        assert (Hin2 : In a (b :: l2))
          by (apply (Permutation_in _ Hp); now left).
        destruct Hin1 as [->|Hin1]; [reflexivity|].
        destruct Hin2 as [->|Hin2]; [reflexivity|].
        specialize (Ha _ Hin1). specialize (Hb _ Hin2). lia. }
      subst b. f_equal. apply IH; [exact Hs2|].
      now apply Permutation_cons_inv with a.
Qed.

(** Sorting a list of dates whose elements are those of an already sorted
    list gives that list. *)
Lemma sort_dates_of_perm (ds target : list Z) :
  Permutation ds target -> StronglySorted Z.ge target ->
  Js.sort later_first ds = target.
Proof.
  intros Hp Hs. apply sorted_ge_unique.
  - apply sort_later_first_sorted.
  - exact Hs.
  - rewrite sort_perm. exact Hp.
Qed.

End Streak.

(** C2: with one entry per day, in whatever order the entries are held,
    entries dated today, yesterday and the day before give a streak of 3; a
    single entry dated two days ago gives 0, the latest entry being more
    than one day before today; and entries dated today, yesterday and three
    days ago give 2, the walk stopping at the first gap of more than one
    day. *)
Theorem getStreakCount_scenarios (today : Z) (entries : list MoodEntry.t) :
  (Permutation (map MoodEntry.date entries) [today; today - 1; today - 2] ->
   MoodDashboard.getStreakCount today entries = 3%nat)
  /\ (map MoodEntry.date entries = [today - 2] ->
      MoodDashboard.getStreakCount today entries = 0%nat)
  /\ (Permutation (map MoodEntry.date entries) [today; today - 1; today - 3] ->
      MoodDashboard.getStreakCount today entries = 2%nat).
Proof.
  rewrite getStreakCount_dates.
  split; [|split].
  - intro Hp. rewrite (sort_dates_of_perm _ _ Hp).
    + unfold DatesOnly.streakOfSorted, DatesOnly.countDays.
      replace (today - today) with 0 by lia.
      replace (today - (today - 1)) with 1 by lia.
      replace (today - 1 - (today - 2)) with 1 by lia.
      reflexivity.
    + repeat constructor; lia.
  - intros ->. cbn.
    replace (today - (today - 2)) with 2 by lia. reflexivity.
  - intro Hp. rewrite (sort_dates_of_perm _ _ Hp).
    + unfold DatesOnly.streakOfSorted, DatesOnly.countDays.
      replace (today - today) with 0 by lia.
      replace (today - (today - 1)) with 1 by lia.
      replace (today - 1 - (today - 3)) with 2 by lia.
      reflexivity.
    + repeat constructor; lia.
Qed.

Lemma getStreakCount_scenarios_witness :
  let entry (id : nat) (date : Z) :=
    MoodEntry.mk id "anonymous" "calm" [] 3 None [] (Z.of_nat id) date in
  MoodDashboard.getStreakCount 20268
    [entry 3%nat 20267; entry 2%nat 20268; entry 1%nat 20266] = 3%nat
  /\ MoodDashboard.getStreakCount 20268 [entry 1%nat 20266] = 0%nat
  /\ MoodDashboard.getStreakCount 20268
       [entry 3%nat 20265; entry 2%nat 20268; entry 1%nat 20267] = 2%nat.
Proof.
  intro entry. split; [|split].
  - apply (proj1 (getStreakCount_scenarios 20268 _)).
    cbn. apply perm_swap.
  - apply (proj1 (proj2 (getStreakCount_scenarios 20268 _))).
    reflexivity.
  - apply (proj2 (proj2 (getStreakCount_scenarios 20268 _))).
    cbn. eapply perm_trans; [apply perm_swap|]. apply perm_skip, perm_swap.
Defined.

(** C3 (what the code does): two entries on the same day count as two days.
    For two entries both dated today the walk meets a difference of 0 days
    twice and returns 2, while the entries cover one calendar day. *)
Theorem getStreakCount_same_day_entries (today : Z) :
  let first := MoodEntry.mk 1 "anonymous" "happy" [] 4 None [] 10 today in
  let second := MoodEntry.mk 2 "anonymous" "calm" [] 3 None [] 20 today in
  MoodDashboard.getStreakCount today [second; first] = 2%nat
  /\ List.length (MoodDashboard.distinctDays [second; first]) = 1%nat.
Proof.
  intros first second. split.
  - rewrite getStreakCount_dates.
    rewrite (sort_dates_of_perm _ [today; today]).
    + unfold DatesOnly.streakOfSorted, DatesOnly.countDays.
      rewrite Z.sub_diag. reflexivity.
    + reflexivity.
    + repeat constructor; lia.
  - unfold MoodDashboard.distinctDays. cbn.
    destruct (Z.eq_dec today today) as [_|Hne]; [reflexivity|congruence].
Qed.

(** ** Mood distribution *)

Section Distribution.
Import MoodService.

(** The mood categories are plain keys of a JavaScript object. *)
Lemma MOOD_TYPES_plain : forallb Spec.plainKey MOOD_TYPES = true.
Proof. vm_compute. reflexivity. Qed.

Lemma or_zero_Some (v : Z) : Js.or_zero (Some v) = v.
Proof. simpl. destruct (Z.eqb_spec v 0); congruence. Qed.

Lemma get_set (o : Js.Obj) (k0 k : string) (v : Z) :
  Js.get (Js.set o k0 v) k = if String.eqb k0 k then Some v else Js.get o k.
Proof.
  induction o as [|[k' v'] o IH]; simpl.
  - reflexivity.
  - destruct (String.eqb_spec k' k0) as [->|Hne]; simpl.
    + destruct (String.eqb k0 k); reflexivity.
    + rewrite IH. destruct (String.eqb_spec k' k) as [->|Hne'];
        [|reflexivity].
      destruct (String.eqb_spec k0 k); congruence.
Qed.

Lemma keys_set (o : Js.Obj) (k : string) (v : Z) :
  map fst (Js.set o k v)
  = if existsb (String.eqb k) (map fst o) then map fst o
    else map fst o ++ [k].
Proof.
  induction o as [|[k' v'] o IH]; simpl.
  - reflexivity.
  - rewrite (String.eqb_sym k k').
    destruct (String.eqb k' k); simpl; [reflexivity|].
    rewrite IH. destruct (existsb (String.eqb k) (map fst o)); reflexivity.
Qed.

Lemma sumCounts_set (o : Js.Obj) (k : string) :
  Spec.sumCounts (Js.set o k (Js.or_zero (Js.get o k) + 1))
  = Spec.sumCounts o + 1.
Proof.
  unfold Spec.sumCounts.
  induction o as [|[k' v'] o IH]; simpl.
  - reflexivity.
  - destruct (String.eqb k' k); simpl.
    + destruct (Z.eqb_spec v' 0); lia.
    + rewrite IH. lia.
Qed.

Lemma sumCounts_fold (entries : list MoodEntry.t) (o : Js.Obj) :
  Spec.sumCounts (fold_left countMood entries o)
  = Spec.sumCounts o + Z.of_nat (List.length entries).
Proof.
  revert o; induction entries as [|e es IH]; intro o.
  - simpl. lia.
  - cbn [fold_left List.length]. rewrite IH. unfold countMood.
    rewrite sumCounts_set. lia.
Qed.

(** After the loop the count read for a mood is the count before it plus
    the number of entries with that mood. *)
Lemma get_fold (entries : list MoodEntry.t) (o : Js.Obj) (k : string) :
  Js.or_zero (Js.get (fold_left countMood entries o) k)
  = Js.or_zero (Js.get o k) + Spec.occurrences k entries.
Proof.
  revert o; induction entries as [|e es IH]; intro o.
  - unfold Spec.occurrences. simpl. lia.
  - cbn [fold_left]. rewrite IH. unfold countMood. rewrite get_set.
    unfold Spec.occurrences, Spec.moods. cbn [map count_occ].
    destruct (String.eqb_spec (MoodEntry.mood_type e) k) as [->|Hne].
    + rewrite or_zero_Some.
      destruct (string_dec k k); [|congruence]. lia.
    + destruct (string_dec (MoodEntry.mood_type e) k); [congruence|]. lia.
Qed.

Lemma filter_filter_and {A : Type} (f g : A -> bool) (l : list A) :
  filter f (filter g l) = filter (fun x => (g x && f x)%bool) l.
Proof.
  induction l as [|x l IH]; simpl; [reflexivity|].
  destruct (g x); simpl; [destruct (f x)|]; now rewrite IH.
Qed.

Lemma existsb_snoc (k k0 : string) (ks : list string) :
  existsb (String.eqb k) (ks ++ [k0])
  = (existsb (String.eqb k) ks || String.eqb k0 k)%bool.
Proof.
  rewrite existsb_app. simpl. rewrite orb_false_r.
  now rewrite (String.eqb_sym k k0).
Qed.

(** The keys after the loop: those present before it, then the new moods
    in the order they are first met. *)
Lemma keys_fold (entries : list MoodEntry.t) (o : Js.Obj) :
  map fst (fold_left countMood entries o)
  = map fst o
    ++ filter (fun k => negb (existsb (String.eqb k) (map fst o)))
         (Spec.firstSeen (Spec.moods entries)).
Proof.
  revert o; induction entries as [|e es IH]; intro o.
  - simpl. now rewrite app_nil_r.
  - cbn [fold_left]. rewrite IH. unfold countMood at 1 2. rewrite keys_set.
    set (k0 := MoodEntry.mood_type e).
    unfold Spec.moods. cbn [map Spec.firstSeen]. fold k0.
    fold (Spec.moods es).
    cbn [filter].
    destruct (existsb (String.eqb k0) (map fst o)) eqn:Hin; cbn [negb].
    + f_equal. rewrite filter_filter_and. apply filter_ext_in.
      intros k _.
      destruct (String.eqb_spec k0 k) as [<-|Hne]; simpl.
      * now rewrite Hin.
      * reflexivity.
    + rewrite <- app_assoc. cbn [app]. do 2 f_equal.
      rewrite filter_filter_and. apply filter_ext.
      intro k. rewrite existsb_snoc, negb_orb. apply andb_comm.
Qed.

Lemma keys_distribution (entries : list MoodEntry.t) :
  map fst (fold_left countMood entries []) = Spec.firstSeen (Spec.moods entries).
Proof.
  rewrite keys_fold. simpl.
  induction (Spec.firstSeen (Spec.moods entries)) as [|k ks IH]; simpl;
    [reflexivity|now rewrite IH].
Qed.

End Distribution.

Section FirstSeen.

Lemma firstSeen_In (k : string) (ms : list string) :
  In k (Spec.firstSeen ms) <-> In k ms.
Proof.
  induction ms as [|m ms IH]; simpl; [tauto|].
  rewrite filter_In, IH.
  destruct (String.eqb_spec m k) as [->|Hne]; simpl.
  - split; [tauto|]. intros _. now left.
  - split; [tauto|]. intros [H|H]; [congruence|]. right; auto.
Qed.

Lemma firstSeen_NoDup (ms : list string) : NoDup (Spec.firstSeen ms).
Proof.
  induction ms as [|m ms IH]; simpl; constructor.
  - rewrite filter_In. intros [_ H]. now rewrite String.eqb_refl in H.
  - now apply NoDup_filter.
Qed.

(** A split of a filtered list comes from a split of the list. *)
Lemma filter_split {A : Type} (f : A -> bool) (l a b : list A) (x : A) :
  filter f l = a ++ x :: b ->
  exists a' b', l = a' ++ x :: b' /\ filter f b' = b.
Proof.
  revert a; induction l as [|y l IH]; intros a H; simpl in H.
  - destruct a; discriminate.
  - destruct (f y) eqn:Hy.
    + destruct a as [|z a]; simpl in H; injection H as -> H.
      * exists [], l. split; [reflexivity|exact H].
      * destruct (IH _ H) as (a' & b' & -> & Hb).
        exists (z :: a'), b'. split; [reflexivity|exact Hb].
    + destruct (IH _ H) as (a' & b' & -> & Hb).
      exists (y :: a'), b'. split; [reflexivity|exact Hb].
Qed.

(** In [firstSeen ms] a mood stands before the moods first met after it. *)
Lemma firstSeen_order (ms a b : list string) (m m' : string) :
  Spec.firstSeen ms = a ++ m :: b -> In m' b ->
  (Spec.firstIndex m ms < Spec.firstIndex m' ms)%nat.
Proof.
  revert a b; induction ms as [|x ms IH]; intros a b H Hin; simpl in H.
  - destruct a; discriminate.
  - destruct a as [|y a]; simpl in H; injection H as -> H.
    + subst b. apply filter_In in Hin. destruct Hin as [_ Hne].
      simpl. rewrite String.eqb_refl.
      destruct (String.eqb m m'); [discriminate|lia].
    + destruct (filter_split _ _ _ _ _ H) as (a' & b' & Hfs & Hb).
      assert (Hm : In m (filter (fun k => negb (String.eqb y k))
                                (Spec.firstSeen ms)))
        by (rewrite H; apply in_or_app; right; now left).
      apply filter_In in Hm. destruct Hm as [_ Hm].
      subst b. apply filter_In in Hin. destruct Hin as [Hin Hm'].
      simpl. destruct (String.eqb y m); [discriminate|].
      destruct (String.eqb y m'); [discriminate|].
      apply -> Nat.succ_lt_mono. now apply (IH a' b').
Qed.

End FirstSeen.

Section MostCommon.

(** The head of a list sorted by decreasing count with a stable sort is the
    first element of the list whose count is maximal. *)
Lemma sort_by_count_head (l : list (string * Z)) (h : string * Z)
    (t : list (string * Z)) :
  Js.sort (fun a b => snd b - snd a) l = h :: t ->
  exists l1 l2,
    l = l1 ++ h :: l2
    /\ Forall (fun x => snd x < snd h) l1
    /\ Forall (fun x => snd x <= snd h) l2.
Proof.
  revert h t; induction l as [|x l IH]; intros h t H; simpl in H.
  - discriminate.
  - destruct (Js.sort (fun a b => snd b - snd a) l) as [|h' t'] eqn:Hs.
    + pose proof (sort_length (fun a b : string * Z => snd b - snd a) l) as Hl.
      rewrite Hs in Hl. destruct l; [|discriminate].
      simpl in H. injection H as <- <-.
      exists [], []. repeat split; constructor.
    + destruct (IH _ _ eq_refl) as (l1 & l2 & -> & H1 & H2).
      simpl in H. destruct (Z.gtb_spec (snd h' - snd x) 0) as [Hgt|Hle];
        injection H as <- <-.
      * exists (x :: l1), l2. repeat split; [|exact H2].
        constructor; [lia|exact H1].
      * exists [], (l1 ++ h' :: l2). repeat split; [constructor|].
        apply Forall_app. split; [|constructor].
        -- eapply Forall_impl; [|exact H1]. simpl; intros; lia.
        -- lia.
        -- eapply Forall_impl; [|exact H2]. simpl; intros; lia.
Qed.

Lemma get_of_In (o : Js.Obj) (k : string) (v : Z) :
  NoDup (map fst o) -> In (k, v) o -> Js.get o k = Some v.
Proof.
  induction o as [|[k' v'] o IH]; simpl; [tauto|].
  intros Hnd [H|H].
  - injection H as -> ->. now rewrite String.eqb_refl.
  - inversion Hnd as [|? ? Hnotin Hnd']; subst.
    destruct (String.eqb_spec k' k) as [->|Hne]; [|auto].
    exfalso. apply Hnotin. apply (in_map fst) in H. exact H.
Qed.

Lemma get_In (o : Js.Obj) (k : string) (v : Z) :
  Js.get o k = Some v -> In (k, v) o.
Proof.
  induction o as [|[k' v'] o IH]; simpl; [discriminate|].
  destruct (String.eqb_spec k' k) as [->|Hne].
  - intros [= ->]. now left.
  - intro H. right. auto.
Qed.

Lemma occurrences_pos (k : string) (entries : list MoodEntry.t) :
  In k (Spec.moods entries) <-> 1 <= Spec.occurrences k entries.
Proof.
  unfold Spec.occurrences.
  rewrite (count_occ_In string_dec). lia.
Qed.

(** The distribution holds, for each mood met, the number of its entries. *)
Lemma distribution_entry (entries : list MoodEntry.t) (k : string) (v : Z) :
  In (k, v) (fold_left MoodService.countMood entries []) <->
  In k (Spec.moods entries) /\ v = Spec.occurrences k entries.
Proof.
  pose proof (keys_distribution entries) as Hk.
  pose proof (get_fold entries [] k) as Hg. simpl in Hg.
  assert (Hnd : NoDup (map fst (fold_left MoodService.countMood entries [])))
    by (rewrite Hk; apply firstSeen_NoDup).
  split.
  - intro Hin. split.
    + apply firstSeen_In. rewrite <- Hk. apply (in_map fst) in Hin. exact Hin.
    + rewrite (get_of_In _ _ _ Hnd Hin), or_zero_Some in Hg. exact Hg.
  - intros [Hin ->].
    assert (Hkey : In k (map fst (fold_left MoodService.countMood entries [])))
      by (rewrite Hk; now apply firstSeen_In).
    apply in_map_iff in Hkey. destruct Hkey as ([k' v'] & Heq & Hin').
    simpl in Heq; subst k'.
    rewrite (get_of_In _ _ _ Hnd Hin'), or_zero_Some in Hg. now subst v'.
Qed.

End MostCommon.

Lemma stats_distribution (entries : list MoodEntry.t) :
  MoodService.MoodStats.moodDistribution (MoodService.statsOfEntries entries)
  = fold_left MoodService.countMood entries [].
Proof. destruct entries; reflexivity. Qed.

Lemma stats_totalEntries (entries : list MoodEntry.t) :
  MoodService.MoodStats.totalEntries (MoodService.statsOfEntries entries)
  = Z.of_nat (List.length entries).
Proof. destruct entries; reflexivity. Qed.

Lemma moodCategories_In (entries : list MoodEntry.t) (k : string) :
  Spec.moodCategories entries -> In k (Spec.moods entries) ->
  MoodService.is_MoodType k = true.
Proof.
  unfold Spec.moodCategories, Spec.moods. rewrite Forall_forall.
  intros H Hin. apply in_map_iff in Hin. destruct Hin as (e & <- & He). auto.
Qed.

(** C6: for every list of entries carrying mood categories, the counts of
    [moodDistribution] add up to [totalEntries]; every key of the
    distribution is a mood category that is the primary mood of at least one
    entry, and its count, at least 1, is the number of such entries; and
    every mood that occurs is a key, so exactly the categories that appear
    are listed. *)
Theorem moodDistribution_counts (entries : list MoodEntry.t) :
  Spec.moodCategories entries ->
  let stats := MoodService.statsOfEntries entries in
  let dist := MoodService.MoodStats.moodDistribution stats in
  Spec.sumCounts dist = MoodService.MoodStats.totalEntries stats
  /\ (forall k v, In (k, v) (Js.Object_entries dist) ->
        MoodService.is_MoodType k = true
        /\ (exists e, In e entries /\ MoodEntry.mood_type e = k)
        /\ v = Spec.occurrences k entries /\ 1 <= v)
  /\ (forall e, In e entries ->
        Js.get dist (MoodEntry.mood_type e)
        = Some (Spec.occurrences (MoodEntry.mood_type e) entries)).
Proof.
  intros Hcat stats dist. subst dist stats.
  rewrite stats_distribution, stats_totalEntries.
  split; [|split].
  - rewrite sumCounts_fold. reflexivity.
  - intros k v Hin. unfold Js.Object_entries in Hin.
    apply distribution_entry in Hin. destruct Hin as [Hin ->].
    split; [now apply (moodCategories_In entries)|].
    split; [|split; [reflexivity|now apply occurrences_pos]].
    unfold Spec.moods in Hin. apply in_map_iff in Hin.
    destruct Hin as (e & He & Hin). now exists e.
  - intros e He. apply get_of_In.
    + rewrite keys_distribution. apply firstSeen_NoDup.
    + apply distribution_entry. split; [|reflexivity].
      unfold Spec.moods. now apply in_map.
Qed.

Lemma moodDistribution_counts_witness :
  let entries :=
    [ MoodEntry.mk 1 "anonymous" "calm" [] 4 None [] 30 3;
      MoodEntry.mk 2 "anonymous" "happy" [] 3 None [] 20 2;
      MoodEntry.mk 3 "anonymous" "calm" [] 2 None [] 10 1 ] in
  Spec.moodCategories entries
  /\ Spec.sumCounts
       (MoodService.MoodStats.moodDistribution
          (MoodService.statsOfEntries entries)) = 3
  /\ MoodService.MoodStats.moodDistribution
       (MoodService.statsOfEntries entries) = [("calm", 2); ("happy", 1)].
Proof.
  intro entries.
  assert (Hcat : Spec.moodCategories entries)
    by (subst entries; repeat constructor).
  split; [exact Hcat|]. split.
  - exact (proj1 (moodDistribution_counts entries Hcat)).
  - reflexivity.
Defined.

(** C4: for a non-empty list of entries carrying mood categories,
    [mostCommonMood] is a mood category whose count in [moodDistribution]
    is maximal, and every other category with the same count is first met
    later than it when the entries are scanned in the given order. *)
Theorem mostCommonMood_first_maximal (entries : list MoodEntry.t) :
  entries <> [] ->
  Spec.moodCategories entries ->
  let stats := MoodService.statsOfEntries entries in
  let dist := MoodService.MoodStats.moodDistribution stats in
  let m := MoodService.MoodStats.mostCommonMood stats in
  MoodService.is_MoodType m = true
  /\ Js.get dist m = Some (Spec.occurrences m entries)
  /\ (forall k v, In (k, v) (Js.Object_entries dist) ->
        v <= Spec.occurrences m entries)
  /\ (forall k, k <> m ->
        Js.get dist k = Some (Spec.occurrences m entries) ->
        (Spec.firstIndex m (Spec.moods entries)
         < Spec.firstIndex k (Spec.moods entries))%nat).
Proof.
  intros Hne Hcat stats dist m. subst m dist stats.
  rewrite stats_distribution.
  destruct entries as [|e0 es]; [congruence|].
  set (entries := e0 :: es) in *.
  unfold MoodService.statsOfEntries. subst entries.
  cbv beta iota zeta. unfold MoodService.MoodStats.mostCommonMood.
  set (entries := e0 :: es) in *.
  set (d := fold_left MoodService.countMood entries []).
  unfold Js.Object_entries.
  assert (Hnd : NoDup (map fst d))
    by (subst d; rewrite keys_distribution; apply firstSeen_NoDup).
  destruct (Js.sort (fun a b => snd b - snd a) d) as [|[m c] t] eqn:Hs.
  { pose proof (sort_length (fun a b : string * Z => snd b - snd a) d) as Hl.
    rewrite Hs in Hl.
    assert (Hin : In (MoodEntry.mood_type e0, Spec.occurrences (MoodEntry.mood_type e0) entries) d).
    { apply distribution_entry. split; [now left|reflexivity]. }
    destruct d; [destruct Hin|discriminate]. }
  destruct (sort_by_count_head _ _ _ Hs) as (l1 & l2 & Hd & H1 & H2).
  simpl in H1, H2.
  assert (Hm : In (m, c) d) by (rewrite Hd; apply in_or_app; right; now left).
  pose proof Hm as Hm'. apply distribution_entry in Hm'.
  destruct Hm' as [Hmin Hc].
  rewrite Forall_forall in H1, H2.
  split; [now apply (moodCategories_In entries)|].
  split; [rewrite <- Hc; now apply get_of_In|].
  rewrite <- Hc. split.
  - intros k v Hin. rewrite Hd in Hin. apply in_app_or in Hin.
    destruct Hin as [Hin|[Hin|Hin]].
    + specialize (H1 _ Hin). simpl in H1. lia.
    + injection Hin as _ <-. lia.
    + specialize (H2 _ Hin). simpl in H2. lia.
  - intros k Hk Hget. apply get_In in Hget.
    rewrite Hd in Hget. apply in_app_or in Hget.
    destruct Hget as [Hin|[Hin|Hin]].
    + specialize (H1 _ Hin). simpl in H1. lia.
    + injection Hin as <-. congruence.
    + pose proof (keys_distribution entries) as Hkeys. fold d in Hkeys.
      rewrite Hd, map_app in Hkeys. cbn [map fst] in Hkeys.
      apply (firstSeen_order _ _ _ _ _ (eq_sym Hkeys)).
      apply (in_map fst) in Hin. exact Hin.
Qed.

Lemma mostCommonMood_first_maximal_witness :
  let entries :=
    [ MoodEntry.mk 1 "anonymous" "sad" [] 4 None [] 40 4;
      MoodEntry.mk 2 "anonymous" "calm" [] 4 None [] 30 3;
      MoodEntry.mk 3 "anonymous" "happy" [] 3 None [] 20 2;
      MoodEntry.mk 4 "anonymous" "happy" [] 3 None [] 15 2;
      MoodEntry.mk 5 "anonymous" "calm" [] 2 None [] 10 1 ] in
  entries <> []
  /\ Spec.moodCategories entries
  /\ MoodService.MoodStats.mostCommonMood (MoodService.statsOfEntries entries)
     = "calm"
  /\ Js.get (MoodService.MoodStats.moodDistribution
               (MoodService.statsOfEntries entries))
       (MoodService.MoodStats.mostCommonMood
          (MoodService.statsOfEntries entries))
     = Some (Spec.occurrences
               (MoodService.MoodStats.mostCommonMood
                  (MoodService.statsOfEntries entries)) entries).
Proof.
  intro entries.
  assert (Hne : entries <> []) by (subst entries; discriminate).
  assert (Hcat : Spec.moodCategories entries)
    by (subst entries; repeat constructor).
  split; [exact Hne|]. split; [exact Hcat|]. split; [reflexivity|].
  exact (proj1 (proj2 (mostCommonMood_first_maximal entries Hne Hcat))).
Defined.

(** ** Conversation titles *)

Section Titles.
Import ChatInterface.

Lemma string_length_append (s1 s2 : string) :
  String.length (s1 ++ s2)%string
  = (String.length s1 + String.length s2)%nat.
Proof. induction s1 as [|c s1 IH]; simpl; [reflexivity|now rewrite IH]. Qed.

(** The first [n] code units of a string at least [n] long. *)
Lemma substring_prefix (n : nat) (s : string) :
  (n <= String.length s)%nat ->
  String.length (String.substring 0 n s) = n
  /\ exists rest, s = (String.substring 0 n s ++ rest)%string.
Proof.
  revert s; induction n as [|n IH]; intros s Hn.
  - destruct s; simpl; (split; [reflexivity|]); eexists; reflexivity.
  - destruct s as [|c s]; simpl in Hn; [lia|].
    destruct (IH s) as (Hl & rest & Hr); [lia|].
    simpl. split; [now rewrite Hl|].
    exists rest. now rewrite <- Hr.
Qed.

Lemma has_conversation_find (db : Db) (cid : nat) :
  has_conversation db cid = true ->
  exists c, find (fun c => Nat.eqb (Conversation.id c) cid) (conversations db)
            = Some c.
Proof.
  unfold has_conversation. intro H.
  destruct (find _ (conversations db)) as [c|] eqn:Hf; [now exists c|].
  apply existsb_exists in H. destruct H as (c & Hin & Hc).
  pose proof (find_none _ _ Hf c Hin) as Hn. simpl in Hn. congruence.
Qed.

(** Updating the title of an existing conversation stores that title. *)
Lemma title_of_updateConversationTitle (db : Db) (cid : nat) (title : string) :
  online db = true -> has_conversation db cid = true ->
  title_of (fst (updateConversationTitle db cid title)) cid = Some title.
Proof.
  intros Hon Hhas. unfold updateConversationTitle. rewrite Hon.
  unfold title_of, update_conversation. cbn [fst conversations].
  destruct (has_conversation_find db cid Hhas) as (c & Hc).
  pose proof (find_some _ _ Hc) as [_ Hid]. simpl in Hid.
  induction (conversations db) as [|c' cs IH]; [discriminate|].
  simpl in Hc |- *.
  destruct (Nat.eqb (Conversation.id c') cid) eqn:Hc'; simpl.
  - rewrite Hc'. reflexivity.
  - rewrite Hc'. auto.
Qed.

Lemma addMessage_keeps (db : Db) (cid : nat) (role : Role) (content : string)
    (now : Z) :
  let db' := fst (addMessage db cid role content now) in
  online db' = online db
  /\ mood_entries db' = mood_entries db
  /\ has_conversation db' cid = has_conversation db cid.
Proof.
  unfold addMessage.
  destruct (online db && has_conversation db cid)%bool; cbn; auto.
  repeat split. unfold has_conversation, update_conversation. cbn.
  induction (conversations db) as [|c cs IH]; simpl; [reflexivity|].
  rewrite IH. destruct (Nat.eqb (Conversation.id c) cid) eqn:Hc; simpl;
    now rewrite Hc.
Qed.

End Titles.

(** The title rule of [saveMessageToDb], where its guard lets it apply: a
    user message saved while the component has a current conversation and
    shows no message gives the conversation a title derived from the
    content: the content itself when it has at most 50 characters,
    otherwise its first 50 characters followed by three dots, a title of 53
    characters (so for a message of 80 characters too). *)
Theorem first_user_message_title (st : ChatInterface.State) (db : Db)
    (now : Z) (cid : nat) (content : string) :
  ChatInterface.isSupabaseConnected st = true ->
  ChatInterface.currentConversationId st = Some cid ->
  ChatInterface.messages st = [] ->
  online db = true ->
  has_conversation db cid = true ->
  exists title,
    title_of (ChatInterface.saveMessageToDb st db now user content) cid
    = Some title
    /\ ((String.length content <= 50)%nat -> title = content)
    /\ ((50 < String.length content)%nat ->
        exists first50 rest,
          title = (first50 ++ "...")%string
          /\ content = (first50 ++ rest)%string
          /\ String.length first50 = 50%nat
          /\ String.length title = 53%nat).
Proof.
  intros Hconn Hcid Hmsgs Hon Hhas.
  unfold ChatInterface.saveMessageToDb. rewrite Hconn, Hcid, Hmsgs.
  cbn [Role_eqb List.length Nat.eqb andb].
  destruct (addMessage_keeps db cid user content now) as (Hon' & _ & Hhas').
  cbv zeta in Hon', Hhas'.
  eexists. split.
  - apply title_of_updateConversationTitle; congruence.
  - split.
    + intro Hle. destruct (Nat.ltb_spec 50 (String.length content)); [lia|].
      reflexivity.
    + intro Hlt. destruct (Nat.ltb_spec 50 (String.length content)); [|lia].
      destruct (substring_prefix 50 content) as (Hl & rest & Hr); [lia|].
      exists (String.substring 0 50 content), rest.
      split; [reflexivity|]. split; [exact Hr|]. split; [exact Hl|].
      change (Js.substring content 0 50) with (String.substring 0 50 content).
      rewrite string_length_append, Hl. reflexivity.
Qed.

Lemma first_user_message_title_witness :
  exists title,
    title_of (ChatInterface.saveMessageToDb (Sample.state "" false) Sample.db
                Sample.now user Sample.message80) 1
    = Some title
    /\ title
       = "01234567890123456789012345678901234567890123456789..."
    /\ String.length title = 53%nat.
Proof.
  destruct (first_user_message_title (Sample.state "" false) Sample.db
              Sample.now 1 Sample.message80
              eq_refl eq_refl eq_refl eq_refl eq_refl)
    as (title & Htitle & _ & Hlong).
  exists title. split; [exact Htitle|].
  assert (H80 : (50 < String.length Sample.message80)%nat)
    by (vm_compute; lia).
  destruct (Hlong H80) as (first50 & rest & _ & _ & _ & Hlen).
  split; [|exact Hlen].
  vm_compute in Htitle. injection Htitle as <-. reflexivity.
Defined.

(** C7: the component as it starts, connected and with no conversation
    yet.  The first turn opens conversation 3 and makes it the current one,
    but [saveMessageToDb] still reads the [currentConversationId] of the
    render the turn started in, which is [null]: nothing of the turn is
    stored.  The second turn stores its user message, of 80 characters, as
    the first message of the conversation; [saveMessageToDb] now reads a
    message list of length 2, so the title is not derived: it stays
    [New Conversation], where the comment of the code (update the title
    based on the first user message) and the claim have the first 50
    characters followed by three dots. *)
Theorem first_stored_message_keeps_default_title :
  let w := ChatInterface.mkWorld Sample.now Sample.endpointDown (1 # 2) in
  let fresh :=
    ChatInterface.mkState [] "Tell me about dragons" false None true
      "anonymous" HuggingFace.CHAT false in
  let first := ChatInterface.sendMessage fresh Sample.db w in
  let second :=
    ChatInterface.sendMessage
      (ChatActions.setInput (ChatInterface.state first) Sample.message80)
      (ChatInterface.database first) w in
  has_conversation Sample.db 3 = false
  /\ ChatInterface.currentConversationId (ChatInterface.state first)
     = Some 3%nat
  /\ map ChatInterface.Message.role
         (ChatInterface.messages (ChatInterface.state first))
     = [user; assistant]
  /\ MessageService.getMessages (ChatInterface.database first) 3 = []
  /\ title_of (ChatInterface.database first) 3 = Some "New Conversation"
  /\ ChatInterface.currentConversationId (ChatInterface.state second)
     = Some 3%nat
  /\ map (fun m => (Message.role m, Message.content m))
         (MessageService.getMessages (ChatInterface.database second) 3)
     = [(user, Sample.message80);
        (assistant, nth 2 HuggingFace.moodResponses "")]
  /\ title_of (ChatInterface.database second) 3 = Some "New Conversation"
  /\ title_of (ChatInterface.database second) 3
     <> Some "01234567890123456789012345678901234567890123456789...".
Proof.
  vm_compute. repeat split. discriminate.
Qed.

(** ** Chat turns *)

Section Turns.
Import ChatInterface HuggingFace.

Lemma getTodaysMoodEntry_ext (db db' : Db) (userId : string) (now : Z) :
  online db' = online db -> mood_entries db' = mood_entries db ->
  MoodService.getTodaysMoodEntry db' userId now
  = MoodService.getTodaysMoodEntry db userId now.
Proof.
  intros Hon Hme. unfold MoodService.getTodaysMoodEntry.
  now rewrite Hon, Hme.
Qed.

(** An entry of the user dated today makes the lookup return one. *)
Lemma getTodaysMoodEntry_found (db : Db) (userId : string) (now : Z)
    (e : MoodEntry.t) :
  online db = true -> In e (mood_entries db) ->
  MoodEntry.user_id e = userId -> MoodEntry.date e = isoDate now ->
  exists m,
    MoodService.getTodaysMoodEntry db userId now = Some m
    /\ In m (mood_entries db)
    /\ MoodEntry.user_id m = userId /\ MoodEntry.date m = isoDate now.
Proof.
  intros Hon Hin Hu Hd. unfold MoodService.getTodaysMoodEntry. rewrite Hon.
  set (todays := filter _ (mood_entries db)).
  set (cmp := fun a b : MoodEntry.t =>
                MoodEntry.created_at b - MoodEntry.created_at a).
  assert (He : In e todays).
  { subst todays. apply filter_In. split; [exact Hin|].
    rewrite Hu, Hd, String.eqb_refl, Z.eqb_refl. reflexivity. }
  pose proof (sort_perm cmp todays) as Hp.
  destruct (Js.sort cmp todays) as [|m rest] eqn:Hs.
  - apply Permutation_nil in Hp. rewrite Hp in He. destruct He.
  - exists m. split; [reflexivity|].
    assert (Hm : In m todays) by (apply (Permutation_in _ Hp); now left).
    subst todays. apply filter_In in Hm. destruct Hm as [Hm Hf].
    apply andb_prop in Hf. destruct Hf as [Hf1 Hf2].
    apply String.eqb_eq in Hf1. apply Z.eqb_eq in Hf2. auto.
Qed.

Lemma updateConversationTitle_keeps (db : Db) (cid : nat) (title : string) :
  let db' := fst (updateConversationTitle db cid title) in
  online db' = online db /\ mood_entries db' = mood_entries db.
Proof.
  unfold updateConversationTitle.
  destruct (online db) eqn:Hon; cbn; rewrite ?Hon; auto.
Qed.

Lemma saveMessageToDb_keeps (st : State) (db : Db) (now : Z) (role : Role)
    (content : string) :
  let db' := saveMessageToDb st db now role content in
  online db' = online db /\ mood_entries db' = mood_entries db.
Proof.
  unfold saveMessageToDb.
  destruct (isSupabaseConnected st), (currentConversationId st) as [cid|];
    cbv zeta; auto.
  destruct (addMessage_keeps db cid role content now) as (H1 & H2 & _).
  cbv zeta in H1, H2.
  destruct (Role_eqb role user && Nat.eqb (List.length (messages st)) 0)%bool;
    [|auto].
  destruct (updateConversationTitle_keeps
              (fst (addMessage db cid role content now)) cid
              (if Nat.ltb 50 (String.length content)
               then (Js.substring content 0 50 ++ "...")%string
               else content)) as (H3 & H4).
  cbv zeta in H3, H4. split; congruence.
Qed.

Lemma createConversation_keeps (db : Db) (title : option string) :
  let db' := fst (createConversation db title) in
  online db' = online db /\ mood_entries db' = mood_entries db.
Proof.
  unfold createConversation.
  destruct (online db) eqn:Hon; cbn; rewrite ?Hon; auto.
Qed.

(** The assistant text of a turn, from the outcome of its request. *)
Lemma sendMessage_turn (st : State) (db : Db) (w : World) :
  Js.truthy (Js.trim (input st)) = true -> isLoading st = false ->
  exists db2 db3 conversationId,
    online db2 = online db /\ mood_entries db2 = mood_entries db
    /\ let currentInput := Js.trim (input st) in
       let chatMessages :=
         map (fun m => ChatMessage.mk (Message.role m) (Message.content m))
             (messages st)
         ++ [ChatMessage.mk user currentInput] in
       let call := generationCall st db2 (now w) currentInput chatMessages in
       let assistantContent :=
         match perform (endpoint w) call with
         | Returned text =>
             if Js.truthy (Js.trim text) then Js.trim text
             else generateFallbackResponse currentInput None (random w)
         | Threw =>
             generateFallbackResponse currentInput
               (option_map MoodEntry.mood_type
                  (if isSupabaseConnected st
                   then MoodService.getTodaysMoodEntry db2 (userId st) (now w)
                   else None))
               (random w)
         end in
       sendMessage st db w
       = mkTurn
           (mkState
              (messages st
               ++ [Message.mk (now w) user currentInput (now w);
                   Message.mk (now w + 1) assistant assistantContent (now w)])
              "" false conversationId (isSupabaseConnected st) (userId st)
              (aiModel st) (useAdvancedMode st))
           db3 (Some call).
Proof.
  intros Hin Hload. unfold sendMessage. rewrite Hin, Hload. cbn [negb orb].
  destruct (currentConversationId st) as [cid|] eqn:Hcid.
  - destruct (isSupabaseConnected st) eqn:Hconn; cbn [andb].
    + destruct (saveMessageToDb_keeps st db (now w) user (Js.trim (input st)))
        as (H1 & H2).
      do 3 eexists. split; [exact H1|]. split; [exact H2|]. reflexivity.
    + do 3 eexists. split; [reflexivity|]. split; reflexivity.
  - destruct (isSupabaseConnected st) eqn:Hconn; cbn [andb].
    + destruct (createConversation_keeps db None) as (H1 & H2).
      cbv zeta in H1, H2.
      destruct (createConversation db None) as [db' [c|]]; cbn [fst] in H1, H2.
      * destruct (saveMessageToDb_keeps st db' (now w) user
                    (Js.trim (input st))) as (H3 & H4).
        cbv zeta in H3, H4.
        do 3 eexists. split; [|split; [|reflexivity]]; congruence.
      * do 3 eexists. split; [exact H1|]. split; [exact H2|]. reflexivity.
    + do 3 eexists. split; [reflexivity|]. split; reflexivity.
Qed.

(** With advanced mode on, a mood entry of the user for today and a mood
    keyword in the input, the request of the turn is the supportive one. *)
Lemma sendMessage_supportive (st : State) (db : Db) (w : World)
    (e : MoodEntry.t) :
  useAdvancedMode st = true -> isSupabaseConnected st = true ->
  isLoading st = false -> online db = true ->
  In e (mood_entries db) -> MoodEntry.user_id e = userId st ->
  MoodEntry.date e = isoDate (now w) ->
  (Js.includes (Js.toLowerCase (Js.trim (input st))) "feel"
   || Js.includes (Js.toLowerCase (Js.trim (input st))) "mood")%bool = true ->
  exists m,
    In m (mood_entries db) /\ MoodEntry.user_id m = userId st
    /\ MoodEntry.date m = isoDate (now w)
    /\ requested (sendMessage st db w)
       = Some (generateSupportiveResponse (Js.trim (input st))
                 (MoodEntry.mood_type m) (MoodEntry.intensity m)).
Proof.
  intros Hadv Hconn Hload Hon Hin Hu Hd Hkey.
  assert (Htr : Js.truthy (Js.trim (input st)) = true).
  { unfold Js.truthy. destruct (String.eqb_spec (Js.trim (input st)) "") as [E|];
      [|reflexivity].
    rewrite E in Hkey. discriminate. }
  destruct (sendMessage_turn st db w Htr Hload)
    as (db2 & db3 & cid & Hon2 & Hme2 & Hturn).
  cbv zeta in Hturn. rewrite Hturn. cbn [requested].
  destruct (getTodaysMoodEntry_found db (userId st) (now w) e Hon Hin Hu Hd)
    as (m & Hm & Hmin & Hmu & Hmd).
  exists m. repeat (split; [assumption|]).
  unfold generationCall. rewrite Hadv, Hconn.
  rewrite (getTodaysMoodEntry_ext db db2 _ _ Hon2 Hme2), Hm.
  cbv zeta. rewrite Hkey. reflexivity.
Qed.

End Turns.

(** C8: with advanced mode on, a mood entry of the user recorded for the
    current day and an input containing a mood keyword ("feel" or "mood",
    in any letter case), the request of the turn is the supportive one,
    carrying the mood and intensity of an entry of today, whatever story,
    script or narration keyword the input also contains; in particular for
    the input "I feel overwhelmed", which contains none of them. *)
Theorem supportive_path_precedence (st : ChatInterface.State) (db : Db)
    (w : ChatInterface.World) (e : MoodEntry.t) :
  ChatInterface.useAdvancedMode st = true ->
  ChatInterface.isSupabaseConnected st = true ->
  ChatInterface.isLoading st = false ->
  online db = true ->
  In e (mood_entries db) ->
  MoodEntry.user_id e = ChatInterface.userId st ->
  MoodEntry.date e = isoDate (ChatInterface.now w) ->
  let currentInput := Js.trim (ChatInterface.input st) in
  let supportive :=
    exists m,
      In m (mood_entries db)
      /\ MoodEntry.user_id m = ChatInterface.userId st
      /\ MoodEntry.date m = isoDate (ChatInterface.now w)
      /\ ChatInterface.requested (ChatInterface.sendMessage st db w)
         = Some (HuggingFace.generateSupportiveResponse currentInput
                   (MoodEntry.mood_type m) (MoodEntry.intensity m)) in
  ((Js.includes (Js.toLowerCase currentInput) "feel"
    || Js.includes (Js.toLowerCase currentInput) "mood")%bool = true ->
   supportive)
  /\ (currentInput = "I feel overwhelmed" ->
      supportive
      /\ (Js.includes (Js.toLowerCase currentInput) "story"
          || Js.includes (Js.toLowerCase currentInput) "script"
          || Js.includes (Js.toLowerCase currentInput) "narrat")%bool = false).
Proof.
  intros Hadv Hconn Hload Hon Hin Hu Hd currentInput supportive.
  subst supportive currentInput. split.
  - intro Hkey. now apply (sendMessage_supportive st db w e).
  - intro Hinput. split.
    + apply (sendMessage_supportive st db w e); auto.
      rewrite Hinput. reflexivity.
    + rewrite Hinput. reflexivity.
Qed.

Lemma supportive_path_precedence_witness :
  let st := Sample.state "  I FEEL like writing a story " true in
  let w := ChatInterface.mkWorld Sample.now Sample.endpointDown 0 in
  ChatInterface.requested (ChatInterface.sendMessage st Sample.db w)
  = Some (HuggingFace.generateSupportiveResponse
            "I FEEL like writing a story" "anxious" 4)
  /\ ChatInterface.requested
       (ChatInterface.sendMessage (Sample.state "I feel overwhelmed" true)
          Sample.db w)
     = Some (HuggingFace.generateSupportiveResponse
               "I feel overwhelmed" "anxious" 4).
Proof.
  intros st w.
  pose proof (supportive_path_precedence st Sample.db w
                (MoodEntry.mk 2 "anonymous" "anxious" [] 4 None []
                   1751155200000 20268)
                eq_refl eq_refl eq_refl eq_refl (or_introl eq_refl)
                eq_refl eq_refl) as [H _].
  destruct (H eq_refl) as (m & Hm & _ & _ & Hreq).
  split; [|reflexivity].
  destruct Hm as [<-|[]]. exact Hreq.
Defined.

(** ** Fallback texts *)

Section Fallback.
Import HuggingFace.

Lemma pick_In (random : Q) (responses : list string) :
  (0 <= random < 1)%Q -> responses <> [] ->
  In (pick random responses) responses.
Proof.
  intros [Hlo Hhi] Hne. unfold pick, Js.Math_floor.
  set (n := Z.of_nat (List.length responses)).
  assert (Hn : 0 < n) by (subst n; destruct responses; [congruence|simpl; lia]).
  assert (Hq : (0 < inject_Z n)%Q)
    by (change 0%Q with (inject_Z 0); rewrite <- Zlt_Qlt; exact Hn).
  set (x := (random * inject_Z n)%Q).
  assert (Hx0 : (0 <= x)%Q) by (apply Qmult_le_0_compat; [exact Hlo|lra]).
  assert (Hx1 : (x < inject_Z n)%Q).
  { subst x. rewrite <- (Qmult_1_l (inject_Z n)) at 2.
    apply Qmult_lt_compat_r; assumption. }
  assert (Hi0 : 0 <= Qfloor x).
  { change 0 with (Qfloor (inject_Z 0)). apply Qfloor_resp_le. exact Hx0. }
  assert (Hi1 : Qfloor x < n).
  { rewrite Zlt_Qlt. apply Qle_lt_trans with x; [apply Qfloor_le|exact Hx1]. }
  destruct (Z.ltb_spec (Qfloor x) 0); [lia|].
  apply nth_In. subst n. lia.
Qed.

Lemma fallbackTexts_non_empty :
  forallb Js.truthy fallbackTexts = true.
Proof. vm_compute. reflexivity. Qed.

(** The fallback answers with a text of one of its topic buckets. *)
Lemma generateFallbackResponse_In (userInput : string) (mood : option string)
    (random : Q) :
  (0 <= random < 1)%Q ->
  In (generateFallbackResponse userInput mood random) fallbackTexts.
Proof.
  intro Hr. unfold generateFallbackResponse, fallbackTexts.
  repeat match goal with
         | |- context [if ?c then _ else _] => destruct c
         end;
    repeat rewrite in_app_iff;
    try (left; apply pick_In; [exact Hr|discriminate]);
    try (right; left; apply pick_In; [exact Hr|discriminate]);
    try (do 2 right; left; apply pick_In; [exact Hr|discriminate]);
    try (do 3 right; left; apply pick_In; [exact Hr|discriminate]);
    try (do 4 right; left; now left);
    try (do 5 right; apply pick_In; [exact Hr|discriminate]).
Qed.

(** The fallback answers from the bucket its keyword matching selects. *)
Lemma generateFallbackResponse_bucket (userInput : string)
    (mood : option string) (random : Q) :
  (0 <= random < 1)%Q ->
  In (generateFallbackResponse userInput mood random)
     (Spec.topicBucket (Js.toLowerCase userInput) (mood_given mood)).
Proof.
  intro Hr. unfold generateFallbackResponse, Spec.topicBucket, Spec.mentions.
  cbn [existsb]. cbv zeta.
  repeat match goal with
         | |- context [Js.includes ?a ?b] =>
             destruct (Js.includes a b); cbn [orb]
         | |- context [mood_given ?m] => destruct (mood_given m); cbn [orb]
         end;
    solve [ apply pick_In; [exact Hr|discriminate] | now left ].
Qed.

Lemma generateFallbackResponse_truthy (userInput : string)
    (mood : option string) (random : Q) :
  (0 <= random < 1)%Q ->
  Js.truthy (generateFallbackResponse userInput mood random) = true.
Proof.
  intro Hr. pose proof fallbackTexts_non_empty as H.
  rewrite forallb_forall in H. apply H.
  now apply generateFallbackResponse_In.
Qed.

Lemma assistantReply_appended (st : ChatInterface.State)
    (t : ChatInterface.Turn) (u a : ChatInterface.Message.t) :
  ChatInterface.messages (ChatInterface.state t)
  = ChatInterface.messages st ++ [u; a] ->
  ChatInterface.assistantReply st t = Some a.
Proof.
  intro H. unfold ChatInterface.assistantReply. rewrite H.
  rewrite skipn_app, skipn_all, Nat.sub_diag. reflexivity.
Qed.

End Fallback.

(** C9: a turn that is sent (non-blank input, no turn pending) always ends
    with an assistant message whose text is not empty; and when the
    generation path fails, by a rejected request, a reply that is not a
    success, or a text that is empty once trimmed, that text is the one
    [generateFallbackResponse] gives for the input: a text of the topic
    bucket that the keywords of the lower-cased input select, in the order
    mood and feelings, story, narration and voice, content creation, help,
    general.  The mood of today, when the component is connected and the
    request was rejected or not a success, selects the mood bucket whatever
    the input; after an empty text no mood is passed.  The turn is a total
    function of its inputs: no outcome of the endpoint makes it end without
    that message. *)
Theorem generation_failure_fallback (st : ChatInterface.State) (db : Db)
    (w : ChatInterface.World) :
  Js.truthy (Js.trim (ChatInterface.input st)) = true ->
  ChatInterface.isLoading st = false ->
  (0 <= ChatInterface.random w < 1)%Q ->
  let lower := Js.toLowerCase (Js.trim (ChatInterface.input st)) in
  let todaysMood :=
    if ChatInterface.isSupabaseConnected st
    then option_map MoodEntry.mood_type
           (MoodService.getTodaysMoodEntry db (ChatInterface.userId st)
              (ChatInterface.now w))
    else None in
  exists call reply,
    ChatInterface.requested (ChatInterface.sendMessage st db w) = Some call
    /\ ChatInterface.assistantReply st (ChatInterface.sendMessage st db w)
       = Some reply
    /\ ChatInterface.Message.role reply = assistant
    /\ Js.truthy (ChatInterface.Message.content reply) = true
    /\ (generationFailed (ChatInterface.endpoint w) call ->
        let mood :=
          match HuggingFace.perform (ChatInterface.endpoint w) call with
          | HuggingFace.Threw => todaysMood
          | HuggingFace.Returned _ => None
          end in
        ChatInterface.Message.content reply
        = HuggingFace.generateFallbackResponse
            (Js.trim (ChatInterface.input st)) mood (ChatInterface.random w)
        /\ In (ChatInterface.Message.content reply)
              (Spec.topicBucket lower (HuggingFace.mood_given mood))
        /\ In (ChatInterface.Message.content reply) HuggingFace.fallbackTexts).
Proof.
  intros Hin Hload Hr lower todaysMood.
  destruct (sendMessage_turn st db w Hin Hload)
    as (db2 & db3 & cid & Hon & Hme & Hturn).
  cbv zeta in Hturn.
  rewrite (getTodaysMoodEntry_ext db db2 _ _ Hon Hme) in Hturn.
  rewrite Hturn.
  do 2 eexists. split; [reflexivity|].
  split; [eapply assistantReply_appended; reflexivity|].
  split; [reflexivity|].
  cbn [ChatInterface.Message.content].
  assert (Hmood : option_map MoodEntry.mood_type
                    (if ChatInterface.isSupabaseConnected st
                     then MoodService.getTodaysMoodEntry db
                            (ChatInterface.userId st) (ChatInterface.now w)
                     else None) = todaysMood)
    by (subst todaysMood; destruct (ChatInterface.isSupabaseConnected st);
        reflexivity).
  rewrite Hmood.
  unfold generationFailed, HuggingFace.perform.
  destruct (ChatInterface.endpoint w _) as [|[|] body].
  - split; [now apply generateFallbackResponse_truthy|].
    intros _. cbv zeta. split; [reflexivity|].
    split; [now apply generateFallbackResponse_bucket
           |now apply generateFallbackResponse_In].
  - destruct (Js.truthy (Js.trim (HuggingFace.extractText _ body))) eqn:Ht.
    + split; [exact Ht|]. intro Hfail. rewrite Hfail in Ht. discriminate.
    + split; [now apply generateFallbackResponse_truthy|].
      intros _. cbv zeta. split; [reflexivity|].
      split; [now apply generateFallbackResponse_bucket
             |now apply generateFallbackResponse_In].
  - split; [now apply generateFallbackResponse_truthy|].
    intros _. cbv zeta. split; [reflexivity|].
    split; [now apply generateFallbackResponse_bucket
           |now apply generateFallbackResponse_In].
Qed.

Lemma generation_failure_fallback_witness :
  let local :=
    ChatInterface.mkState [] "Please write a story" false None false
      "anonymous" HuggingFace.CHAT true in
  let connected := Sample.state "Please write a story" true in
  let w := ChatInterface.mkWorld Sample.now Sample.endpointDown (1 # 2) in
  generationFailed Sample.endpointDown
    (HuggingFace.generateCreativeContent "Please write a story"
       HuggingFace.story)
  /\ (exists reply,
        ChatInterface.assistantReply local
          (ChatInterface.sendMessage local Sample.db w) = Some reply
        /\ In (ChatInterface.Message.content reply)
              HuggingFace.storyResponses)
  /\ (exists reply,
        ChatInterface.assistantReply connected
          (ChatInterface.sendMessage connected Sample.db w) = Some reply
        /\ In (ChatInterface.Message.content reply)
              HuggingFace.moodResponses).
Proof.
  intros local connected w. split; [exact I|].
  assert (Hr : (0 <= ChatInterface.random w < 1)%Q)
    by (split; [discriminate|reflexivity]).
  split.
  - destruct (generation_failure_fallback local Sample.db w eq_refl eq_refl Hr)
      as (call & reply & Hc & Hreply & _ & _ & Hfail).
    injection Hc as <-.
    destruct (Hfail I) as (_ & Hbucket & _).
    exists reply. split; [exact Hreply|exact Hbucket].
  - destruct (generation_failure_fallback connected Sample.db w eq_refl eq_refl
                Hr)
      as (call & reply & Hc & Hreply & _ & _ & Hfail).
    injection Hc as <-.
    destruct (Hfail I) as (_ & Hbucket & _).
    exists reply. split; [exact Hreply|exact Hbucket].
Defined.

(** C10 as the code has it: called with a mood that is a non-empty string,
    as every mood category is, [generateFallbackResponse] answers from the
    mood and feelings bucket whatever the input contains. *)
Theorem fallback_with_mood_is_mood_bucket (userInput mood : string)
    (random : Q) :
  Js.truthy mood = true ->
  (0 <= random < 1)%Q ->
  In (HuggingFace.generateFallbackResponse userInput (Some mood) random)
     HuggingFace.moodResponses.
Proof.
  intros Hm Hr. unfold HuggingFace.generateFallbackResponse.
  cbn [HuggingFace.mood_given]. rewrite Hm, orb_true_r.
  apply pick_In; [exact Hr|discriminate].
Qed.

Lemma fallback_with_mood_is_mood_bucket_witness :
  Js.truthy "anxious" = true
  /\ In (HuggingFace.generateFallbackResponse
           "write a story script for my content" (Some "anxious") (7 # 10))
        HuggingFace.moodResponses.
Proof.
  split; [reflexivity|].
  apply (fallback_with_mood_is_mood_bucket
           "write a story script for my content" "anxious" (7 # 10)).
  - reflexivity.
  - split; [discriminate|reflexivity].
Defined.

(** Every mood category is a non-empty string. *)
Lemma MOOD_TYPES_truthy : forallb Js.truthy MoodService.MOOD_TYPES = true.
Proof. vm_compute. reflexivity. Qed.

(** C10 as stated fails for a mood that is defined but empty: the empty
    string is falsy, the mood branch is not taken, and an input about a
    story is answered from the story bucket. *)
Lemma fallback_with_empty_mood_is_story_bucket :
  In (HuggingFace.generateFallbackResponse "tell me a story" (Some "") 0)
     HuggingFace.storyResponses
  /\ ~ In (HuggingFace.generateFallbackResponse "tell me a story" (Some "") 0)
          HuggingFace.moodResponses.
Proof.
  split.
  - vm_compute. left. reflexivity.
  - vm_compute. intuition discriminate.
Qed.

(** * Further properties *)

(** ** Streaks, in general *)

Section StreakFacts.
Import MoodDashboard DatesOnly.

Lemma countDays_lower (ds : list Z) (streak : nat) (cur : Z) :
  (streak <= countDays ds streak cur)%nat.
Proof.
  revert streak cur; induction ds as [|d ds IH]; intros streak cur; simpl.
  - lia.
  - destruct (cur - d <=? 1); [|lia].
    specialize (IH (S streak) d). lia.
Qed.

Lemma countDays_upper (ds : list Z) (streak : nat) (cur : Z) :
  (countDays ds streak cur <= streak + List.length ds)%nat.
Proof.
  revert streak cur; induction ds as [|d ds IH]; intros streak cur; simpl.
  - lia.
  - destruct (cur - d <=? 1); [|lia].
    specialize (IH (S streak) d). lia.
Qed.

Lemma countDays_shift (ds : list Z) (streak : nat) (cur : Z) :
  countDays ds streak cur = (streak + countDays ds 0 cur)%nat.
Proof.
  revert streak cur; induction ds as [|d ds IH]; intros streak cur; simpl.
  - lia.
  - destruct (cur - d <=? 1); [|lia].
    rewrite (IH (S streak)), (IH 1%nat). lia.
Qed.

(** The head of the sorted dates is the latest date. *)
Lemma sorted_dates_head (ds : list Z) (latest : Z) (rest : list Z) :
  Js.sort later_first ds = latest :: rest ->
  In latest ds /\ forall d, In d ds -> d <= latest.
Proof.
  intro Hs.
  pose proof (sort_perm later_first ds) as Hp.
  pose proof (sort_later_first_sorted ds) as Hsorted.
  rewrite Hs in Hp, Hsorted. split.
  - apply (Permutation_in _ Hp). now left.
  - intros d Hd. apply (Permutation_in _ (Permutation_sym Hp)) in Hd.
    inversion Hsorted as [|? ? _ Hall]; subst.
    destruct Hd as [<-|Hd]; [lia|].
    rewrite Forall_forall in Hall. specialize (Hall d Hd). lia.
Qed.

End StreakFacts.

(** X1: the streak depends on the dates of the entries only, not on the
    order the entries are held in nor on their other fields. *)
Theorem getStreakCount_order_independent (today : Z)
    (entries1 entries2 : list MoodEntry.t) :
  Permutation (map MoodEntry.date entries1) (map MoodEntry.date entries2) ->
  MoodDashboard.getStreakCount today entries1
  = MoodDashboard.getStreakCount today entries2.
Proof.
  intro Hp. rewrite !getStreakCount_dates. f_equal.
  apply sorted_ge_unique; try apply sort_later_first_sorted.
  rewrite !sort_perm. exact Hp.
Qed.

Lemma getStreakCount_order_independent_witness :
  let entry (id : nat) (mood : string) (date : Z) :=
    MoodEntry.mk id "anonymous" mood [] 3 None [] (Z.of_nat id) date in
  MoodDashboard.getStreakCount 20268
    [entry 1%nat "calm" 20266; entry 2%nat "sad" 20268; entry 3%nat "happy" 20267]
  = MoodDashboard.getStreakCount 20268
      [entry 7%nat "tired" 20268; entry 8%nat "calm" 20267; entry 9%nat "calm" 20266].
Proof.
  intro entry.
  apply (getStreakCount_order_independent 20268).
  cbn. eapply perm_trans; [apply perm_swap|]. apply perm_skip, perm_swap.
Defined.

(** X2: the streak never exceeds the number of entries. *)
Theorem getStreakCount_at_most_entries (today : Z)
    (entries : list MoodEntry.t) :
  (MoodDashboard.getStreakCount today entries <= List.length entries)%nat.
Proof.
  rewrite getStreakCount_dates.
  rewrite <- (length_map MoodEntry.date entries).
  rewrite <- (sort_length DatesOnly.later_first (map MoodEntry.date entries)).
  unfold DatesOnly.streakOfSorted.
  destruct (Js.sort _ _) as [|latest rest] eqn:Hs; [simpl; lia|].
  destruct (today - latest >? 1); [simpl; lia|].
  apply (countDays_upper (latest :: rest) 0 latest).
Qed.

(** X3: the streak is positive exactly when some entry is dated today,
    yesterday or later; otherwise, and for no entries at all, it is 0. *)
Theorem getStreakCount_positive_iff (today : Z) (entries : list MoodEntry.t) :
  (0 < MoodDashboard.getStreakCount today entries)%nat
  <-> exists e, In e entries /\ today - MoodEntry.date e <= 1.
Proof.
  rewrite getStreakCount_dates. unfold DatesOnly.streakOfSorted.
  destruct (Js.sort DatesOnly.later_first (map MoodEntry.date entries))
    as [|latest rest] eqn:Hs.
  - pose proof (sort_length DatesOnly.later_first (map MoodEntry.date entries))
      as Hl.
    rewrite Hs, length_map in Hl. destruct entries; [|discriminate].
    split; [lia|]. intros (e & [] & _).
  - destruct (sorted_dates_head _ _ _ Hs) as [Hin Hmax].
    destruct (Z.gtb_spec (today - latest) 1) as [Hgt|Hle].
    + split; [lia|]. intros (e & He & Hd). exfalso.
      specialize (Hmax _ (in_map MoodEntry.date _ _ He)). lia.
    + split.
      * intros _. apply in_map_iff in Hin. destruct Hin as (e & He & Hin).
        exists e. split; [exact Hin|]. lia.
      * intros _. cbn [DatesOnly.countDays].
        rewrite Z.sub_diag. cbn [Z.leb Z.compare].
        pose proof (countDays_lower rest 1 latest). lia.
Qed.

Section StreakRuns.
Import DatesOnly.

(** Below a cursor [cur], on dates strictly decreasing, the walk counts the
    days [cur - 1], [cur - 2], ... that are present, up to the first one
    that is missing. *)
Lemma countDays_run (ds : list Z) (cur : Z) :
  StronglySorted Z.gt ds -> Forall (fun d => d < cur) ds ->
  let n := Z.of_nat (countDays ds 0 cur) in
  (forall i, 1 <= i <= n -> In (cur - i) ds) /\ ~ In (cur - n - 1) ds.
Proof.
  intros Hs; revert cur; induction Hs as [|d ds Hs IH Hd]; intros cur Hlt n.
  - subst n. simpl. split; [intros; lia|tauto].
  - inversion Hlt as [|? ? Hdc Hrest]; subst. subst n.
    cbn [countDays]. rewrite Forall_forall in Hd.
    destruct (Z.leb_spec (cur - d) 1) as [Hle|Hgt].
    + assert (d = cur - 1) by lia. subst d.
      rewrite countDays_shift.
      assert (Hlt' : Forall (fun x => x < cur - 1) ds).
      { rewrite Forall_forall. intros x Hx. specialize (Hd x Hx).
        apply Z.gt_lt in Hd. lia. }
      destruct (IH (cur - 1) Hlt') as (Hin & Hout).
      set (m := Z.of_nat (countDays ds 0 (cur - 1))) in *.
      replace (Z.of_nat (1 + countDays ds 0 (cur - 1))) with (m + 1)
        by (subst m; lia).
      split.
      * intros i Hi. destruct (Z.eq_dec i 1) as [->|Hne]; [now left|].
        right. replace (cur - i) with (cur - 1 - (i - 1)) by lia.
        apply Hin. lia.
      * intros [Heq|Hin']; [subst m; lia|].
        apply Hout. replace (cur - 1 - m - 1) with (cur - (m + 1) - 1) by lia.
        exact Hin'.
    + simpl. split; [intros; lia|].
      intros [Heq|Hin]; [lia|]. specialize (Hd _ Hin).
      apply Z.gt_lt in Hd. lia.
Qed.

Lemma sorted_ge_NoDup_gt (ds : list Z) :
  StronglySorted Z.ge ds -> NoDup ds -> StronglySorted Z.gt ds.
Proof.
  induction 1 as [|d ds Hs IH Hd]; intro Hnd; constructor;
    inversion Hnd as [|? ? Hnotin Hnd']; subst.
  - auto.
  - rewrite Forall_forall in *. intros x Hx. specialize (Hd x Hx).
    assert (x <> d) by (intros ->; contradiction). lia.
Qed.

Lemma countDays_daysEnding (k : nat) (d cur : Z) (streak : nat) :
  cur - d <= 1 ->
  countDays (daysEnding d k) streak cur = (streak + k)%nat.
Proof.
  revert d cur streak; induction k as [|k IH]; intros d cur streak Hle; simpl.
  - lia.
  - destruct (Z.leb_spec (cur - d) 1); [|lia].
    rewrite IH by lia. lia.
Qed.

Lemma daysEnding_sorted (k : nat) (d : Z) :
  StronglySorted Z.ge (daysEnding d k)
  /\ Forall (fun x => x <= d) (daysEnding d k).
Proof.
  revert d; induction k as [|k IH]; intro d; simpl.
  - split; constructor.
  - destruct (IH (d - 1)) as [Hs Hall]. split.
    + constructor; [exact Hs|].
      eapply Forall_impl; [|exact Hall]. simpl; intros; lia.
    + constructor; [lia|].
      eapply Forall_impl; [|exact Hall]. simpl; intros; lia.
Qed.

End StreakRuns.

(** X4: with at most one entry per day and the latest entry dated today,
    yesterday or later, the streak [s] is the length of the run of
    consecutive days that ends with the latest entry: each of the [s] days
    [latest], [latest - 1], ..., [latest - s + 1] has an entry, and the day
    before them has none. *)
Theorem getStreakCount_run_of_days (today latest : Z)
    (entries : list MoodEntry.t) :
  NoDup (map MoodEntry.date entries) ->
  In latest (map MoodEntry.date entries) ->
  (forall d, In d (map MoodEntry.date entries) -> d <= latest) ->
  today - latest <= 1 ->
  let s := Z.of_nat (MoodDashboard.getStreakCount today entries) in
  (forall i, 0 <= i < s -> In (latest - i) (map MoodEntry.date entries))
  /\ ~ In (latest - s) (map MoodEntry.date entries).
Proof.
  intros Hnd Hin Hmax Hle s. subst s.
  rewrite getStreakCount_dates. set (dates := map MoodEntry.date entries) in *.
  pose proof (sort_perm DatesOnly.later_first dates) as Hp.
  pose proof (sort_later_first_sorted dates) as Hsorted.
  destruct (Js.sort DatesOnly.later_first dates) as [|l rest] eqn:Hs.
  { apply Permutation_nil in Hp. rewrite Hp in Hin. destruct Hin. }
  destruct (sorted_dates_head _ _ _ Hs) as [Hl Hlmax].
  assert (l = latest) by (specialize (Hmax _ Hl); specialize (Hlmax _ Hin); lia).
  subst l.
  assert (Hgt : StronglySorted Z.gt (latest :: rest)).
  { apply sorted_ge_NoDup_gt; [exact Hsorted|].
    apply (Permutation_NoDup (Permutation_sym Hp)). exact Hnd. }
  inversion Hgt as [|? ? Hgt' Hall]; subst.
  assert (Hlt : Forall (fun d => d < latest) rest).
  { eapply Forall_impl; [|exact Hall].
    intros a Ha. apply Z.gt_lt in Ha. exact Ha. }
  destruct (countDays_run rest latest Hgt' Hlt) as (Hrun & Hout).
  unfold DatesOnly.streakOfSorted.
  destruct (Z.gtb_spec (today - latest) 1); [lia|].
  cbn [DatesOnly.countDays]. rewrite Z.sub_diag. cbn [Z.leb Z.compare].
  rewrite countDays_shift.
  set (n := Z.of_nat (DatesOnly.countDays rest 0 latest)) in *.
  replace (Z.of_nat (1 + DatesOnly.countDays rest 0 latest)) with (n + 1)
    by (subst n; lia).
  split.
  - intros i Hi. destruct (Z.eq_dec i 0) as [->|Hne].
    + now rewrite Z.sub_0_r.
    + apply (Permutation_in _ Hp). right. apply Hrun. lia.
  - intro Hc. apply (Permutation_in _ (Permutation_sym Hp)) in Hc.
    destruct Hc as [Heq|Hc]; [subst n; lia|].
    apply Hout. replace (latest - n - 1) with (latest - (n + 1)) by lia.
    exact Hc.
Qed.

Lemma getStreakCount_run_of_days_witness :
  let entry (id : nat) (date : Z) :=
    MoodEntry.mk id "anonymous" "calm" [] 3 None [] (Z.of_nat id) date in
  let entries :=
    [entry 1%nat 20263; entry 2%nat 20267; entry 3%nat 20266;
     entry 4%nat 20265] in
  MoodDashboard.getStreakCount 20268 entries = 3%nat
  /\ ~ In (20267 - 3) (map MoodEntry.date entries).
Proof.
  intros entry entries. split; [reflexivity|].
  assert (Hnd : NoDup (map MoodEntry.date entries)).
  { subst entries; cbn. repeat constructor; simpl; intuition lia. }
  assert (Hin : In 20267 (map MoodEntry.date entries))
    by (subst entries; cbn; tauto).
  assert (Hmax : forall d, In d (map MoodEntry.date entries) -> d <= 20267)
    by (subst entries; cbn; intros d Hd; intuition lia).
  assert (Hle : 20268 - 20267 <= 1) by lia.
  exact (proj2 (getStreakCount_run_of_days 20268 20267 entries
                  Hnd Hin Hmax Hle)).
Defined.

(** X5: entries on each of the [k] consecutive days that end today or
    yesterday, one per day and in any order, give a streak of [k]. *)
Theorem getStreakCount_consecutive_days (today d : Z) (k : nat)
    (entries : list MoodEntry.t) :
  Permutation (map MoodEntry.date entries) (daysEnding d k) ->
  today - d <= 1 ->
  MoodDashboard.getStreakCount today entries = k.
Proof.
  intros Hp Hle. rewrite getStreakCount_dates.
  rewrite (sort_dates_of_perm _ _ Hp) by apply daysEnding_sorted.
  destruct k as [|k]; [reflexivity|].
  unfold DatesOnly.streakOfSorted. cbn [daysEnding].
  destruct (Z.gtb_spec (today - d) 1); [lia|].
  apply (countDays_daysEnding (S k) d d 0). lia.
Qed.

Lemma getStreakCount_consecutive_days_witness :
  let entry (id : nat) (date : Z) :=
    MoodEntry.mk id "anonymous" "calm" [] 3 None [] (Z.of_nat id) date in
  MoodDashboard.getStreakCount 20268
    [entry 1%nat 20265; entry 2%nat 20267; entry 3%nat 20264;
     entry 4%nat 20266] = 4%nat.
Proof.
  intro entry.
  apply (getStreakCount_consecutive_days 20268 20267 4).
  - cbn. eapply perm_trans; [apply perm_swap|]. apply perm_skip.
    eapply perm_trans; [apply perm_skip, perm_swap|]. apply perm_swap.
  - lia.
Defined.

(** ** Sorting by a key *)

Section SortByKey.
Context {A : Type} (key : A -> Z).

Lemma insert_desc_sorted (x : A) (l : list A) :
  StronglySorted (fun a b => key a >= key b) l ->
  StronglySorted (fun a b => key a >= key b)
    (Js.insert (fun a b => key b - key a) x l).
Proof.
  induction 1 as [|y l Hs IH Hy]; simpl.
  - repeat constructor.
  - destruct (Z.gtb_spec (key y - key x) 0) as [Hgt|Hle].
    + constructor; [exact IH|].
      rewrite Forall_forall in *. intros z Hz.
      apply (Permutation_in _ (insert_perm _ x l)) in Hz.
      destruct Hz as [<-|Hz]; [lia|auto].
    + constructor; [now constructor|].
      constructor; [lia|].
      rewrite Forall_forall in *. intros z Hz. specialize (Hy z Hz). lia.
Qed.

Lemma sort_desc_sorted (l : list A) :
  StronglySorted (fun a b => key a >= key b)
    (Js.sort (fun a b => key b - key a) l).
Proof.
  induction l as [|x l IH]; simpl; [constructor|].
  now apply insert_desc_sorted.
Qed.

(** The head of a list sorted by decreasing key has the largest key. *)
Lemma sort_desc_head (l : list A) (h : A) (t : list A) :
  Js.sort (fun a b => key b - key a) l = h :: t ->
  In h l /\ forall x, In x l -> key x <= key h.
Proof.
  intro Hs. pose proof (sort_perm (fun a b => key b - key a) l) as Hp.
  pose proof (sort_desc_sorted l) as Hsorted. rewrite Hs in Hp, Hsorted.
  split.
  - apply (Permutation_in _ Hp). now left.
  - intros x Hx. apply (Permutation_in _ (Permutation_sym Hp)) in Hx.
    inversion Hsorted as [|? ? _ Hall]; subst.
    destruct Hx as [<-|Hx]; [lia|].
    rewrite Forall_forall in Hall. specialize (Hall x Hx). lia.
Qed.

(** An element whose key is at least every key of the list is inserted in
    front. *)
Lemma insert_desc_front (x : A) (l : list A) :
  Forall (fun y => key y <= key x) l ->
  Js.insert (fun a b => key b - key a) x l = x :: l.
Proof.
  destruct 1 as [|y l Hy _]; simpl; [reflexivity|].
  destruct (Z.gtb_spec (key y - key x) 0); [lia|reflexivity].
Qed.

(** Filtering commutes with the insertion into a sorted list, hence with
    the sort. *)
Lemma insert_desc_filter (p : A -> bool) (x : A) (l : list A) :
  StronglySorted (fun a b => key a >= key b) l ->
  filter p (Js.insert (fun a b => key b - key a) x l)
  = if p x then Js.insert (fun a b => key b - key a) x (filter p l)
    else filter p l.
Proof.
  induction 1 as [|y l Hs IH Hy]; simpl.
  - destruct (p x); reflexivity.
  - destruct (Z.gtb_spec (key y - key x) 0) as [Hgt|Hle]; simpl.
    + rewrite IH. destruct (p y), (p x); simpl; try reflexivity.
      destruct (Z.gtb_spec (key y - key x) 0); [reflexivity|lia].
    + destruct (p x); [|reflexivity].
      rewrite insert_desc_front; [reflexivity|].
      assert (Hall : Forall (fun z => key z <= key x) (y :: l)).
      { constructor; [lia|]. eapply Forall_impl; [|exact Hy].
        simpl; intros; lia. }
      rewrite Forall_forall in *. intros z Hz.
      apply Hall. change (In z (filter p (y :: l))) in Hz.
      apply filter_In in Hz. tauto.
Qed.

Lemma sort_desc_filter (p : A -> bool) (l : list A) :
  filter p (Js.sort (fun a b => key b - key a) l)
  = Js.sort (fun a b => key b - key a) (filter p l).
Proof.
  induction l as [|x l IH]; simpl; [reflexivity|].
  rewrite insert_desc_filter by apply sort_desc_sorted.
  rewrite IH. destruct (p x); reflexivity.
Qed.

Lemma insert_asc_sorted (x : A) (l : list A) :
  StronglySorted (fun a b => key a <= key b) l ->
  StronglySorted (fun a b => key a <= key b)
    (Js.insert (fun a b => key a - key b) x l).
Proof.
  induction 1 as [|y l Hs IH Hy]; simpl.
  - repeat constructor.
  - destruct (Z.gtb_spec (key x - key y) 0) as [Hgt|Hle].
    + constructor; [exact IH|].
      rewrite Forall_forall in *. intros z Hz.
      apply (Permutation_in _ (insert_perm _ x l)) in Hz.
      destruct Hz as [<-|Hz]; [lia|auto].
    + constructor; [now constructor|].
      constructor; [lia|].
      rewrite Forall_forall in *. intros z Hz. specialize (Hy z Hz). lia.
Qed.

Lemma sort_asc_sorted (l : list A) :
  StronglySorted (fun a b => key a <= key b)
    (Js.sort (fun a b => key a - key b) l).
Proof.
  induction l as [|x l IH]; simpl; [constructor|].
  now apply insert_asc_sorted.
Qed.

(** Sorting by increasing key leaves a last element with the largest key
    in the last place. *)
Lemma insert_asc_snoc (y x : A) (l : list A) :
  key y <= key x ->
  Js.insert (fun a b => key a - key b) y (l ++ [x])
  = Js.insert (fun a b => key a - key b) y l ++ [x].
Proof.
  intro Hle. induction l as [|z l IH]; simpl.
  - destruct (Z.gtb_spec (key y - key x) 0); [lia|reflexivity].
  - destruct (key y - key z >? 0); simpl; [now rewrite IH|reflexivity].
Qed.

Lemma sort_asc_snoc (x : A) (l : list A) :
  Forall (fun y => key y <= key x) l ->
  Js.sort (fun a b => key a - key b) (l ++ [x])
  = Js.sort (fun a b => key a - key b) l ++ [x].
Proof.
  induction 1 as [|y l Hy _ IH]; simpl; [reflexivity|].
  rewrite IH. now apply insert_asc_snoc.
Qed.

End SortByKey.

Lemma StronglySorted_app_cross {A : Type} (R : A -> A -> Prop)
    (l1 l2 : list A) :
  StronglySorted R (l1 ++ l2) ->
  forall a b, In a l1 -> In b l2 -> R a b.
Proof.
  induction l1 as [|x l1 IH]; simpl; intros Hs a b Ha Hb; [tauto|].
  inversion Hs as [|? ? Hs' Hall]; subst.
  destruct Ha as [<-|Ha].
  - rewrite Forall_forall in Hall. apply Hall. apply in_or_app. now right.
  - now apply IH.
Qed.

Lemma StronglySorted_firstn {A : Type} (R : A -> A -> Prop) (n : nat)
    (l : list A) :
  StronglySorted R l -> StronglySorted R (firstn n l).
Proof.
  intro Hs. revert n; induction Hs as [|x l Hs IH Hall]; intro n.
  - rewrite firstn_nil. constructor.
  - destruct n; simpl; constructor; [apply IH|].
    rewrite Forall_forall in *. intros y Hy. apply Hall.
    rewrite <- (firstn_skipn n l). apply in_or_app. now left.
Qed.

(** ** Statistics over the store *)

Section StoreStatistics.
Import MoodService.

Lemma isoDate_days_before (now days : Z) :
  isoDate (now - days * 24 * 60 * 60 * 1000) = isoDate now - days.
Proof.
  unfold isoDate, msPerDay.
  replace (now - days * 24 * 60 * 60 * 1000)
    with (now + (- days) * (1000 * 60 * 60 * 24)) by lia.
  rewrite Z.div_add by lia. lia.
Qed.

Lemma get_absent (o : Js.Obj) (k : string) :
  ~ In k (map fst o) -> Js.get o k = None.
Proof.
  induction o as [|[k' v'] o IH]; simpl; [reflexivity|].
  intro H. destruct (String.eqb_spec k' k) as [->|Hne]; [tauto|].
  apply IH. tauto.
Qed.

(** The count read from the distribution for any key. *)
Lemma get_distribution (entries : list MoodEntry.t) (k : string) :
  Js.get (fold_left countMood entries []) k
  = if Spec.occurrences k entries =? 0 then None
    else Some (Spec.occurrences k entries).
Proof.
  destruct (in_dec string_dec k (Spec.moods entries)) as [Hin|Hnotin].
  - pose proof (proj1 (occurrences_pos k entries) Hin) as Hpos.
    destruct (Z.eqb_spec (Spec.occurrences k entries) 0); [lia|].
    apply get_of_In.
    + rewrite keys_distribution. apply firstSeen_NoDup.
    + apply distribution_entry. split; [exact Hin|reflexivity].
  - assert (Hz : Spec.occurrences k entries = 0).
    { pose proof (occurrences_pos k entries) as [_ H].
      unfold Spec.occurrences in *.
      destruct (count_occ string_dec (Spec.moods entries) k) eqn:Hc; [reflexivity|].
      exfalso. apply Hnotin. apply H. lia. }
    rewrite Hz. simpl. apply get_absent.
    rewrite keys_distribution, firstSeen_In. exact Hnotin.
Qed.

Lemma totalIntensity_perm (l1 l2 : list MoodEntry.t) :
  Permutation l1 l2 -> Spec.totalIntensity l1 = Spec.totalIntensity l2.
Proof.
  unfold Spec.totalIntensity.
  induction 1; simpl; lia.
Qed.

End StoreStatistics.

(** X6: [getMoodStats] counts exactly the entries of the user dated from
    [days] days before today up to today (UTC dates), whatever else the
    store holds, provided the store is reached and the instant [days] days
    before now is one a [Date] holds; otherwise the count is 0, and when
    that instant is out of the range of [Date] the result is the zero
    statistics even on a store full of entries.  The trend has at most 7
    points, all dated in the range. *)
Theorem getMoodStats_counts_range (db : Db) (userId : string) (days now : Z) :
  let today := isoDate now in
  let start := now - days * msPerDay in
  let inRange (e : MoodEntry.t) :=
    (String.eqb (MoodEntry.user_id e) userId
     && (today - days <=? MoodEntry.date e)
     && (MoodEntry.date e <=? today))%bool in
  let stats := MoodService.getMoodStats db userId days now in
  MoodService.MoodStats.totalEntries stats
  = (if (online db && isTimeValue start)%bool
     then Z.of_nat (List.length (filter inRange (mood_entries db))) else 0)
  /\ (List.length (MoodService.MoodStats.weeklyTrend stats) <= 7)%nat
  /\ (forall p, In p (MoodService.MoodStats.weeklyTrend stats) ->
        today - days <= MoodService.TrendPoint.date p <= today)
  /\ (isTimeValue start = false ->
      stats = MoodService.MoodStats.mk 0 0 "" [] []).
Proof.
  intros today start inRange stats. subst stats.
  unfold MoodService.getMoodStats. cbv zeta.
  replace (now - days * 24 * 60 * 60 * 1000) with start
    by (unfold start, msPerDay; lia).
  destruct (isTimeValue start) eqn:Hvalid.
  2:{ rewrite andb_false_r. simpl.
      split; [reflexivity|]. split; [lia|]. split; [intros p []|reflexivity]. }
  rewrite andb_true_r.
  replace (isoDate start) with (today - days).
  2:{ unfold start, today, msPerDay. rewrite <- isoDate_days_before.
      f_equal. lia. }
  fold today. unfold MoodService.getMoodEntriesInRange.
  destruct (online db).
  2:{ simpl. split; [reflexivity|]. split; [lia|].
      split; [intros p []|discriminate]. }
  fold inRange.
  set (cmp := fun a b : MoodEntry.t =>
                MoodEntry.created_at b - MoodEntry.created_at a).
  set (entries := Js.sort cmp (filter inRange (mood_entries db))).
  rewrite stats_totalEntries.
  split; [subst entries; now rewrite sort_length|].
  assert (Htrend : MoodService.MoodStats.weeklyTrend
                     (MoodService.statsOfEntries entries)
                   = map (fun entry =>
                            MoodService.TrendPoint.mk (MoodEntry.date entry)
                              (MoodEntry.mood_type entry)
                              (MoodEntry.intensity entry))
                         (firstn 7 entries))
    by (destruct entries; reflexivity).
  rewrite Htrend. split; [|split; [|discriminate]].
  - rewrite length_map. apply firstn_le_length.
  - intros p Hp. apply in_map_iff in Hp. destruct Hp as (e & <- & He).
    cbn [MoodService.TrendPoint.date].
    assert (Hin : In e entries)
      by (rewrite <- (firstn_skipn 7 entries); apply in_or_app; now left).
    subst entries. apply (Permutation_in _ (sort_perm cmp _)) in Hin.
    apply filter_In in Hin. destruct Hin as [_ Hr]. subst inRange.
    cbv beta in Hr. apply andb_prop in Hr. destruct Hr as [Hr H2].
    apply andb_prop in Hr. destruct Hr as [_ H1].
    apply Z.leb_le in H1, H2. lia.
Qed.

(** X7: [getMoodEntriesInRange] returns the entries of the user dated in
    the range, each once, the most recently created first, and nothing when
    the store cannot be reached. *)
Theorem getMoodEntriesInRange_sorted (db : Db) (userId : string)
    (startDate endDate : Z) :
  let result :=
    MoodService.getMoodEntriesInRange db userId startDate endDate in
  Permutation result
    (if online db
     then filter (fun e =>
                    (String.eqb (MoodEntry.user_id e) userId
                     && (startDate <=? MoodEntry.date e)
                     && (MoodEntry.date e <=? endDate))%bool)
                 (mood_entries db)
     else [])
  /\ StronglySorted
       (fun a b => MoodEntry.created_at a >= MoodEntry.created_at b) result.
Proof.
  intro result. subst result. unfold MoodService.getMoodEntriesInRange.
  destruct (online db).
  - split; [apply sort_perm|apply (sort_desc_sorted MoodEntry.created_at)].
  - split; constructor.
Qed.

(** X8: [getTodaysMoodEntry] returns an entry exactly when the store can be
    reached and holds an entry of the user dated today (UTC); the entry
    returned is one of those, and none of them was created later. *)
Theorem getTodaysMoodEntry_latest (db : Db) (userId : string) (now : Z) :
  match MoodService.getTodaysMoodEntry db userId now with
  | Some m =>
      online db = true /\ In m (mood_entries db)
      /\ MoodEntry.user_id m = userId /\ MoodEntry.date m = isoDate now
      /\ forall e, In e (mood_entries db) -> MoodEntry.user_id e = userId ->
           MoodEntry.date e = isoDate now ->
           MoodEntry.created_at e <= MoodEntry.created_at m
  | None =>
      online db = false
      \/ forall e, In e (mood_entries db) ->
           ~ (MoodEntry.user_id e = userId /\ MoodEntry.date e = isoDate now)
  end.
Proof.
  unfold MoodService.getTodaysMoodEntry.
  destruct (online db); [|now left].
  set (today := fun e => (String.eqb (MoodEntry.user_id e) userId
                          && (MoodEntry.date e =? isoDate now))%bool).
  assert (Htoday : forall e, In e (filter today (mood_entries db)) <->
                     In e (mood_entries db) /\ MoodEntry.user_id e = userId
                     /\ MoodEntry.date e = isoDate now).
  { intro e. rewrite filter_In. subst today. cbv beta.
    rewrite andb_true_iff, String.eqb_eq, Z.eqb_eq. tauto. }
  destruct (Js.sort _ (filter today (mood_entries db))) as [|m rest] eqn:Hs;
    cbn [firstn].
  - right. intros e He Hc.
    pose proof (sort_perm
                  (fun a b : MoodEntry.t =>
                     MoodEntry.created_at b - MoodEntry.created_at a)
                  (filter today (mood_entries db))) as Hp.
    rewrite Hs in Hp. apply Permutation_nil in Hp.
    assert (Hin : In e (filter today (mood_entries db)))
      by (apply Htoday; tauto).
    rewrite Hp in Hin. destruct Hin.
  - destruct (sort_desc_head MoodEntry.created_at _ _ _ Hs) as [Hin Hmax].
    apply Htoday in Hin. destruct Hin as (Hin & Hu & Hd).
    repeat (split; [assumption || reflexivity|]).
    intros e He Heu Hed. apply Hmax. apply Htoday. tauto.
Qed.

(** X9: the counts per mood, the total and the average do not depend on
    the order of the entries. *)
Theorem statistics_order_independent (entries1 entries2 : list MoodEntry.t) :
  Permutation entries1 entries2 ->
  let stats1 := MoodService.statsOfEntries entries1 in
  let stats2 := MoodService.statsOfEntries entries2 in
  (forall k, Js.get (MoodService.MoodStats.moodDistribution stats1) k
             = Js.get (MoodService.MoodStats.moodDistribution stats2) k)
  /\ MoodService.MoodStats.totalEntries stats1
     = MoodService.MoodStats.totalEntries stats2
  /\ MoodService.MoodStats.averageIntensity stats1
     = MoodService.MoodStats.averageIntensity stats2.
Proof.
  intros Hp stats1 stats2. subst stats1 stats2.
  assert (Hlen : List.length entries1 = List.length entries2)
    by now apply Permutation_length.
  split; [|split].
  - intro k. rewrite !stats_distribution, !get_distribution.
    assert (Hocc : Spec.occurrences k entries1 = Spec.occurrences k entries2).
    { unfold Spec.occurrences, Spec.moods. f_equal.
      apply Permutation_count_occ. now apply Permutation_map. }
    now rewrite Hocc.
  - rewrite !stats_totalEntries. now rewrite Hlen.
  - destruct entries1 as [|e1 es1], entries2 as [|e2 es2];
      try discriminate; [reflexivity|].
    unfold MoodService.statsOfEntries. cbv beta iota zeta.
    unfold MoodService.MoodStats.averageIntensity.
    rewrite !fold_left_intensity, (totalIntensity_perm _ _ Hp), Hlen.
    reflexivity.
Qed.

Lemma statistics_order_independent_witness :
  let a := MoodEntry.mk 1 "anonymous" "calm" [] 4 None [] 30 3 in
  let b := MoodEntry.mk 2 "anonymous" "happy" [] 1 None [] 20 2 in
  MoodService.MoodStats.averageIntensity (MoodService.statsOfEntries [a; b])
  = MoodService.MoodStats.averageIntensity (MoodService.statsOfEntries [b; a]).
Proof.
  intros a b.
  exact (proj2 (proj2 (statistics_order_independent [a; b] [b; a]
                         (perm_swap b a [])))).
Defined.

(** ** Mood entries in the store *)

(** X10: [getMoodEntries] returns at most [limit] entries, all of the user,
    the most recently created first; an entry of the user that is left out
    was created no later than any entry returned. *)
Theorem getMoodEntries_most_recent (db : Db) (userId : string) (limit : nat) :
  let result := MoodEntries.getMoodEntries db userId limit in
  (List.length result <= limit)%nat
  /\ (forall e, In e result ->
        In e (mood_entries db) /\ MoodEntry.user_id e = userId)
  /\ StronglySorted
       (fun a b => MoodEntry.created_at a >= MoodEntry.created_at b) result
  /\ (forall e e', In e result -> In e' (mood_entries db) ->
        MoodEntry.user_id e' = userId -> ~ In e' result ->
        online db = true /\ MoodEntry.created_at e' <= MoodEntry.created_at e).
Proof.
  intro result. subst result. unfold MoodEntries.getMoodEntries.
  destruct (online db).
  2:{ split; [simpl; lia|]. split; [intros e []|].
      split; [constructor|]. intros e e' []. }
  set (mine := filter (fun e => String.eqb (MoodEntry.user_id e) userId)
                      (mood_entries db)).
  set (cmp := fun a b : MoodEntry.t =>
                MoodEntry.created_at b - MoodEntry.created_at a).
  pose proof (sort_perm cmp mine) as Hp.
  pose proof (sort_desc_sorted MoodEntry.created_at mine) as Hsorted.
  fold cmp in Hsorted.
  split; [apply firstn_le_length|]. split; [|split].
  - intros e He.
    assert (Hin : In e (Js.sort cmp mine))
      by (rewrite <- (firstn_skipn limit (Js.sort cmp mine));
          apply in_or_app; now left).
    apply (Permutation_in _ Hp) in Hin. subst mine.
    apply filter_In in Hin. destruct Hin as [Hin Hu].
    apply String.eqb_eq in Hu. tauto.
  - now apply StronglySorted_firstn.
  - intros e e' He He' Hu' Hout. split; [reflexivity|].
    assert (Hin' : In e' (Js.sort cmp mine)).
    { apply (Permutation_in _ (Permutation_sym Hp)). subst mine.
      apply filter_In. split; [exact He'|]. now apply String.eqb_eq. }
    rewrite <- (firstn_skipn limit (Js.sort cmp mine)) in Hin', Hsorted.
    apply in_app_or in Hin'. destruct Hin' as [Hin'|Hin']; [contradiction|].
    pose proof (StronglySorted_app_cross _ _ _ Hsorted e e' He Hin') as H.
    simpl in H. lia.
Qed.

(** X11: the streak shown by the dashboard is computed from the 50 most
    recently created entries, so it never exceeds 50, however long the
    history of the user is. *)
Theorem dashboard_streak_at_most_50 (db : Db) (userId : string)
    (timeRange : DashboardData.TimeRange) (now : Z) :
  (DashboardData.streakCount db userId timeRange now <= 50)%nat.
Proof.
  unfold DashboardData.streakCount, DashboardData.loadMoodData. cbn [fst].
  set (entries := MoodEntries.getMoodEntries db userId 50).
  assert (Hlen : (List.length entries <= 50)%nat).
  { subst entries. unfold MoodEntries.getMoodEntries.
    destruct (online db); [apply firstn_le_length|simpl; lia]. }
  rewrite getStreakCount_dates.
  assert (Hs : (DatesOnly.streakOfSorted (isoDate now)
                  (Js.sort DatesOnly.later_first (map MoodEntry.date entries))
                <= List.length entries)%nat).
  { rewrite <- (length_map MoodEntry.date entries).
    rewrite <- (sort_length DatesOnly.later_first (map MoodEntry.date entries)).
    unfold DatesOnly.streakOfSorted.
    destruct (Js.sort _ _) as [|latest rest]; [simpl; lia|].
    destruct (isoDate now - latest >? 1); [simpl; lia|].
    apply (countDays_upper (latest :: rest) 0 latest). }
  lia.
Qed.

Section MoodEntryFacts.
Import MoodEntries.

Lemma addMoodEntry_accepted (db : Db) (userId moodType : string)
    (intensity : Z) (options : Options) :
  online db = true -> 1 <= intensity <= 5 ->
  addMoodEntry db userId moodType intensity options
  = (let e := MoodEntry.mk (next_id db) userId moodType
                (or_empty (secondaryMoods options)) intensity (notes options)
                (or_empty (triggers options)) (clock db) (isoDate (clock db)) in
     (mkDb (online db) (conversations db) (messages db)
           (mood_entries db ++ [e]) (S (next_id db)) (clock db), Some e)).
Proof.
  intros Hon [H1 H2]. unfold addMoodEntry. rewrite Hon.
  destruct (Z.leb_spec 1 intensity); [|lia].
  destruct (Z.leb_spec intensity 5); [|lia]. reflexivity.
Qed.

End MoodEntryFacts.

(** X12: a mood recorded with an intensity from 1 to 5, on a store that can
    be reached and whose entries were all created earlier, is the entry
    [getTodaysMoodEntry] returns for the rest of that UTC day, with the mood
    and intensity given. *)
Theorem addMoodEntry_then_today (db : Db) (userId moodType : string)
    (intensity : Z) (options : MoodEntries.Options) (now : Z) :
  online db = true ->
  1 <= intensity <= 5 ->
  isoDate now = isoDate (clock db) ->
  (forall e, In e (mood_entries db) -> MoodEntry.created_at e < clock db) ->
  exists e,
    snd (MoodEntries.addMoodEntry db userId moodType intensity options)
    = Some e
    /\ MoodService.getTodaysMoodEntry
         (fst (MoodEntries.addMoodEntry db userId moodType intensity options))
         userId now = Some e
    /\ MoodEntry.mood_type e = moodType
    /\ MoodEntry.intensity e = intensity.
Proof.
  intros Hon Hint Hday Hold.
  rewrite (addMoodEntry_accepted db userId moodType intensity options Hon Hint).
  cbv zeta. cbn [fst snd]. eexists. split; [reflexivity|].
  split; [|split; reflexivity].
  set (e := MoodEntry.mk _ _ _ _ _ _ _ _ _).
  unfold MoodService.getTodaysMoodEntry. cbn [online mood_entries].
  rewrite Hon.
  set (today := fun x => (String.eqb (MoodEntry.user_id x) userId
                          && (MoodEntry.date x =? isoDate now))%bool).
  assert (He : In e (filter today (mood_entries db ++ [e]))).
  { apply filter_In. split; [apply in_or_app; right; now left|].
    subst today e. cbn. rewrite String.eqb_refl, Hday, Z.eqb_refl.
    reflexivity. }
  destruct (Js.sort _ (filter today (mood_entries db ++ [e])))
    as [|m rest] eqn:Hs.
  - pose proof (sort_perm
                  (fun a b : MoodEntry.t =>
                     MoodEntry.created_at b - MoodEntry.created_at a)
                  (filter today (mood_entries db ++ [e]))) as Hp.
    rewrite Hs in Hp. apply Permutation_nil in Hp. rewrite Hp in He.
    destruct He.
  - cbn [firstn]. f_equal.
    destruct (sort_desc_head MoodEntry.created_at _ _ _ Hs) as [Hin Hmax].
    specialize (Hmax e He).
    apply filter_In in Hin. destruct Hin as [Hin _].
    apply in_app_or in Hin. destruct Hin as [Hin|[Hin|[]]]; [|now symmetry].
    specialize (Hold m Hin). subst e. cbn in Hmax. lia.
Qed.

Lemma addMoodEntry_then_today_witness :
  exists e,
    MoodService.getTodaysMoodEntry
      (fst (MoodEntries.addMoodEntry
              (mkDb true [] [] (mood_entries Sample.db) 3 1751160000000)
              "anonymous" "hopeful" 5
              (MoodEntries.mkOptions None (Some "better") None)))
      "anonymous" Sample.now = Some e
    /\ MoodEntry.mood_type e = "hopeful".
Proof.
  destruct (addMoodEntry_then_today
              (mkDb true [] [] (mood_entries Sample.db) 3 1751160000000)
              "anonymous" "hopeful" 5
              (MoodEntries.mkOptions None (Some "better") None) Sample.now)
    as (e & _ & Hget & Hmood & _).
  - reflexivity.
  - lia.
  - reflexivity.
  - intros e [<-|[]]. cbn. lia.
  - exists e. split; assumption.
Defined.

(** X13: on a store whose keys are fresh, deleting the entry that was just
    recorded restores the list of entries; an intensity outside 1 to 5 is
    refused and leaves the store as it was. *)
Theorem addMoodEntry_then_delete (db : Db) (userId moodType : string)
    (intensity : Z) (options : MoodEntries.Options) :
  Store.keysFresh db ->
  let added := MoodEntries.addMoodEntry db userId moodType intensity options in
  match snd added with
  | Some e =>
      1 <= intensity <= 5
      /\ mood_entries (fst (MoodEntries.deleteMoodEntry (fst added)
                              (MoodEntry.id e)))
         = mood_entries db
  | None => fst added = db
  end.
Proof.
  intros (_ & _ & Hfresh) added. subst added.
  unfold MoodEntries.addMoodEntry.
  destruct (online db) eqn:Hon; [|reflexivity].
  destruct (Z.leb_spec 1 intensity); [|reflexivity].
  destruct (Z.leb_spec intensity 5); [|reflexivity].
  cbn [andb fst snd]. split; [lia|].
  unfold MoodEntries.deleteMoodEntry. cbn [online mood_entries MoodEntry.id].
  rewrite ?Hon. cbn [fst mood_entries].
  rewrite filter_app. cbn [filter MoodEntry.id].
  rewrite Nat.eqb_refl. cbn [negb]. rewrite app_nil_r.
  rewrite Forall_forall in Hfresh.
  induction (mood_entries db) as [|e es IH]; [reflexivity|].
  cbn [filter].
  assert (Hlt : (MoodEntry.id e < next_id db)%nat) by (apply Hfresh; now left).
  destruct (Nat.eqb_spec (MoodEntry.id e) (next_id db)); [lia|].
  cbn [negb]. f_equal. apply IH. intros x Hx. apply Hfresh. now right.
Qed.

Lemma addMoodEntry_then_delete_witness :
  mood_entries
    (fst (MoodEntries.deleteMoodEntry
            (fst (MoodEntries.addMoodEntry Sample.db "anonymous" "calm" 2
                    (MoodEntries.mkOptions None None None))) 3))
  = mood_entries Sample.db
  /\ fst (MoodEntries.addMoodEntry Sample.db "anonymous" "calm" 6
            (MoodEntries.mkOptions None None None)) = Sample.db.
Proof.
  assert (Hfresh : Store.keysFresh Sample.db).
  { unfold Store.keysFresh, Sample.db. cbn.
    repeat split; repeat constructor. }
  split.
  - exact (proj2 (addMoodEntry_then_delete Sample.db "anonymous" "calm" 2
                    (MoodEntries.mkOptions None None None) Hfresh)).
  - exact (addMoodEntry_then_delete Sample.db "anonymous" "calm" 6
             (MoodEntries.mkOptions None None None) Hfresh).
Defined.

(** ** Consistency of the store *)

Section Consistency.
Import Store.

Lemma owned_more (cs cs' : list Conversation.t) (ms : list Message.t) :
  (forall x, existsb (fun c => Nat.eqb (Conversation.id c) x) cs = true ->
             existsb (fun c => Nat.eqb (Conversation.id c) x) cs' = true) ->
  Forall (fun m => existsb (fun c => Nat.eqb (Conversation.id c)
                                       (Message.conversation_id m)) cs = true)
         ms ->
  Forall (fun m => existsb (fun c => Nat.eqb (Conversation.id c)
                                       (Message.conversation_id m)) cs' = true)
         ms.
Proof. intros H. apply Forall_impl. intros m. apply H. Qed.

Lemma existsb_map_same_id (g : Conversation.t -> Conversation.t) (x : nat)
    (cs : list Conversation.t) :
  (forall c, Conversation.id (g c) = Conversation.id c) ->
  existsb (fun c => Nat.eqb (Conversation.id c) x) (map g cs)
  = existsb (fun c => Nat.eqb (Conversation.id c) x) cs.
Proof.
  intro Hid. induction cs as [|c cs IH]; simpl; [reflexivity|].
  now rewrite Hid, IH.
Qed.

(** The rewriting of one conversation row keeps every key. *)
Lemma update_row_id (f : Conversation.t -> Conversation.t) (clk : Z)
    (cid : nat) :
  (forall c, Conversation.id (f c) = Conversation.id c) ->
  forall c,
    Conversation.id
      (if Nat.eqb (Conversation.id c) cid
       then Conversation.mk (Conversation.id (f c)) (Conversation.title (f c))
              (Conversation.created_at (f c)) clk (Conversation.user_id (f c))
       else c)
    = Conversation.id c.
Proof.
  intros Hid c. destruct (Nat.eqb (Conversation.id c) cid); [|reflexivity].
  apply Hid.
Qed.

Lemma update_conversation_consistent (f : Conversation.t -> Conversation.t)
    (db : Db) (cid : nat) :
  (forall c, Conversation.id (f c) = Conversation.id c) ->
  consistent db -> consistent (update_conversation f db cid).
Proof.
  intros Hid (Hown & Hint & Hc & Hm & He).
  unfold consistent, messagesOwned, intensitiesChecked, keysFresh,
    has_conversation, update_conversation in *.
  cbn [conversations messages mood_entries next_id].
  split; [|split; [exact Hint|split; [|split; assumption]]].
  - eapply Forall_impl; [|exact Hown]. intros m Hmown.
    rewrite (existsb_map_same_id _ _ _ (update_row_id f (clock db) cid Hid)).
    exact Hmown.
  - rewrite Forall_map. eapply Forall_impl; [|exact Hc]. intros c Hlt.
    rewrite (update_row_id f (clock db) cid Hid). exact Hlt.
Qed.

Lemma createConversation_consistent (db : Db) (title : option string) :
  consistent db -> consistent (fst (createConversation db title)).
Proof.
  intros (Hown & Hint & Hc & Hm & He). unfold createConversation.
  destruct (online db); [|repeat split; assumption].
  unfold consistent, messagesOwned, intensitiesChecked, keysFresh,
    has_conversation in *.
  cbn [fst conversations messages mood_entries next_id].
  split; [|split; [exact Hint|split; [|split]]].
  - eapply owned_more; [|exact Hown]. intros x Hx.
    rewrite existsb_app, Hx. reflexivity.
  - apply Forall_app. split.
    + eapply Forall_impl; [|exact Hc]. simpl; intros; lia.
    + repeat constructor.
  - eapply Forall_impl; [|exact Hm]. simpl; intros; lia.
  - eapply Forall_impl; [|exact He]. simpl; intros; lia.
Qed.

Lemma updateConversationTitle_consistent (db : Db) (cid : nat)
    (title : string) :
  consistent db -> consistent (fst (updateConversationTitle db cid title)).
Proof.
  intro H. unfold updateConversationTitle.
  destruct (online db); [|exact H]. cbn [fst].
  apply update_conversation_consistent; [reflexivity|exact H].
Qed.

Lemma addMessage_consistent (db : Db) (cid : nat) (role : Role)
    (content : string) (now : Z) :
  consistent db -> consistent (fst (addMessage db cid role content now)).
Proof.
  intro H. unfold addMessage.
  destruct (online db); [|exact H].
  destruct (has_conversation db cid) eqn:Hhas; [|exact H].
  cbn [andb fst].
  apply update_conversation_consistent; [reflexivity|].
  destruct H as (Hown & Hint & Hc & Hm & He).
  unfold consistent, messagesOwned, intensitiesChecked, keysFresh,
    has_conversation in *.
  cbn [conversations messages mood_entries next_id].
  split; [|split; [exact Hint|split; [|split]]].
  - apply Forall_app. split; [exact Hown|].
    constructor; [exact Hhas|constructor].
  - eapply Forall_impl; [|exact Hc]. simpl; intros; lia.
  - apply Forall_app. split.
    + eapply Forall_impl; [|exact Hm]. simpl; intros; lia.
    + repeat constructor.
  - eapply Forall_impl; [|exact He]. simpl; intros; lia.
Qed.

Lemma Forall_filter {A : Type} (P : A -> Prop) (p : A -> bool) (l : list A) :
  Forall P l -> Forall P (filter p l).
Proof.
  rewrite !Forall_forall. intros H x Hx. apply filter_In in Hx. apply H. tauto.
Qed.

Lemma deleteConversation_consistent (db : Db) (cid : nat) :
  consistent db ->
  consistent (fst (ConversationService.deleteConversation db cid)).
Proof.
  intros (Hown & Hint & Hc & Hm & He).
  unfold ConversationService.deleteConversation.
  destruct (online db); [|repeat split; assumption].
  unfold consistent, messagesOwned, intensitiesChecked, keysFresh,
    has_conversation in *.
  cbn [fst conversations messages mood_entries next_id].
  split; [|split; [exact Hint|split; [|split]]];
    try (apply Forall_filter; assumption); try assumption.
  rewrite Forall_forall in *. intros m Hin. apply filter_In in Hin.
  destruct Hin as [Hin Hne]. specialize (Hown m Hin).
  apply existsb_exists in Hown. destruct Hown as (c & Hcin & Hceq).
  apply existsb_exists. exists c. split; [|exact Hceq].
  apply filter_In. split; [exact Hcin|].
  apply Nat.eqb_eq in Hceq. rewrite Hceq. exact Hne.
Qed.

Lemma deleteMessage_consistent (db : Db) (mid : nat) :
  consistent db -> consistent (fst (MessageService.deleteMessage db mid)).
Proof.
  intros (Hown & Hint & Hc & Hm & He). unfold MessageService.deleteMessage.
  destruct (online db); [|repeat split; assumption].
  unfold consistent, messagesOwned, intensitiesChecked, keysFresh in *.
  cbn [fst conversations messages mood_entries next_id].
  repeat split; try assumption; apply Forall_filter; assumption.
Qed.

Lemma addMoodEntry_consistent (db : Db) (userId moodType : string)
    (intensity : Z) (options : MoodEntries.Options) :
  consistent db ->
  consistent
    (fst (MoodEntries.addMoodEntry db userId moodType intensity options)).
Proof.
  intros (Hown & Hint & Hc & Hm & He). unfold MoodEntries.addMoodEntry.
  destruct (online db); [|repeat split; assumption].
  destruct (Z.leb_spec 1 intensity); [|repeat split; assumption].
  destruct (Z.leb_spec intensity 5); [|repeat split; assumption].
  unfold consistent, messagesOwned, intensitiesChecked, keysFresh in *.
  cbn [andb fst conversations messages mood_entries next_id].
  split; [exact Hown|]. split; [|split; [|split]].
  - apply Forall_app. split; [exact Hint|]. repeat constructor; simpl; lia.
  - eapply Forall_impl; [|exact Hc]. simpl; intros; lia.
  - eapply Forall_impl; [|exact Hm]. simpl; intros; lia.
  - apply Forall_app. split.
    + eapply Forall_impl; [|exact He]. simpl; intros; lia.
    + repeat constructor.
Qed.

Lemma deleteMoodEntry_consistent (db : Db) (eid : nat) :
  consistent db -> consistent (fst (MoodEntries.deleteMoodEntry db eid)).
Proof.
  intros (Hown & Hint & Hc & Hm & He). unfold MoodEntries.deleteMoodEntry.
  destruct (online db); [|repeat split; assumption].
  unfold consistent, messagesOwned, intensitiesChecked, keysFresh in *.
  cbn [fst conversations messages mood_entries next_id].
  repeat split; try assumption; apply Forall_filter; assumption.
Qed.

Lemma saveMessageToDb_consistent (st : ChatInterface.State) (db : Db)
    (now : Z) (role : Role) (content : string) :
  consistent db ->
  consistent (ChatInterface.saveMessageToDb st db now role content).
Proof.
  intro H. unfold ChatInterface.saveMessageToDb.
  destruct (ChatInterface.isSupabaseConnected st); [|exact H].
  destruct (ChatInterface.currentConversationId st) as [cid|]; [|exact H].
  cbv zeta.
  destruct (Role_eqb role user
            && Nat.eqb (List.length (ChatInterface.messages st)) 0)%bool.
  - apply updateConversationTitle_consistent, addMessage_consistent, H.
  - apply addMessage_consistent, H.
Qed.

Lemma sendMessage_consistent (st : ChatInterface.State) (db : Db)
    (w : ChatInterface.World) :
  consistent db ->
  consistent (ChatInterface.database (ChatInterface.sendMessage st db w)).
Proof.
  intro H. unfold ChatInterface.sendMessage.
  destruct (negb (Js.truthy (Js.trim (ChatInterface.input st)))
            || ChatInterface.isLoading st)%bool; [exact H|].
  destruct (ChatInterface.currentConversationId st) as [cid|].
  - cbn [ChatInterface.database].
    destruct (ChatInterface.isSupabaseConnected st); cbn [andb]; [|exact H].
    apply saveMessageToDb_consistent, saveMessageToDb_consistent, H.
  - destruct (ChatInterface.isSupabaseConnected st); cbn [andb].
    + pose proof (createConversation_consistent db None H) as Hc.
      destruct (createConversation db None) as [db' [c|]]; cbn [fst] in Hc;
        cbn [ChatInterface.database].
      * apply saveMessageToDb_consistent, saveMessageToDb_consistent, Hc.
      * exact Hc.
    + exact H.
Qed.

End Consistency.

(** X14: every operation of the conversation, message and mood services
    keeps the store consistent: each message belongs to a conversation of
    the store (also after a conversation is deleted, its messages going with
    it), each mood entry has an intensity from 1 to 5, and the keys in use
    stay below the next generated key. *)
Theorem services_keep_store_consistent (db : Db) :
  Store.consistent db ->
  (forall title, Store.consistent (fst (createConversation db title)))
  /\ (forall cid title,
        Store.consistent (fst (updateConversationTitle db cid title)))
  /\ (forall cid role content now,
        Store.consistent (fst (addMessage db cid role content now)))
  /\ (forall cid,
        Store.consistent (fst (ConversationService.deleteConversation db cid)))
  /\ (forall mid,
        Store.consistent (fst (MessageService.deleteMessage db mid)))
  /\ (forall userId moodType intensity options,
        Store.consistent
          (fst (MoodEntries.addMoodEntry db userId moodType intensity
                  options)))
  /\ (forall eid,
        Store.consistent (fst (MoodEntries.deleteMoodEntry db eid))).
Proof.
  intro H.
  split; [intros; now apply createConversation_consistent|].
  split; [intros; now apply updateConversationTitle_consistent|].
  split; [intros; now apply addMessage_consistent|].
  split; [intros; now apply deleteConversation_consistent|].
  split; [intros; now apply deleteMessage_consistent|].
  split; [intros; now apply addMoodEntry_consistent|].
  intros; now apply deleteMoodEntry_consistent.
Qed.

Section SampleStore.

Lemma Sample_db_consistent : Store.consistent Sample.db.
Proof.
  unfold Store.consistent, Store.messagesOwned, Store.intensitiesChecked,
    Store.keysFresh, Sample.db. cbn.
  split; [constructor|]. split; [|split; [|split]].
  - constructor; [split; intro Hc; discriminate Hc|constructor].
  - repeat constructor.
  - constructor.
  - repeat constructor.
Qed.

End SampleStore.

Lemma services_keep_store_consistent_witness :
  Store.consistent Sample.db
  /\ Store.consistent
       (fst (ConversationService.deleteConversation Sample.db 1)).
Proof.
  split; [exact Sample_db_consistent|].
  exact (proj1 (proj2 (proj2 (proj2
           (services_keep_store_consistent Sample.db Sample_db_consistent))))
           1%nat).
Defined.

(** X15: a chat turn keeps the store consistent, whatever the input, the
    state of the component and the outcome of the generation. *)
Theorem sendMessage_keeps_store_consistent (st : ChatInterface.State)
    (db : Db) (w : ChatInterface.World) :
  Store.consistent db ->
  Store.consistent (ChatInterface.database (ChatInterface.sendMessage st db w)).
Proof. apply sendMessage_consistent. Qed.

Lemma sendMessage_keeps_store_consistent_witness :
  Store.consistent
    (ChatInterface.database
       (ChatInterface.sendMessage (Sample.state "hello there" false) Sample.db
          (ChatInterface.mkWorld Sample.now Sample.endpointDown (1 # 3)))).
Proof.
  apply (sendMessage_keeps_store_consistent (Sample.state "hello there" false)
           Sample.db
           (ChatInterface.mkWorld Sample.now Sample.endpointDown (1 # 3))).
  exact Sample_db_consistent.
Defined.

(** X16: on a consistent store the statistics of any user and range are
    either those of no entry or have an average intensity from 1 to 5. *)
Theorem getMoodStats_average_in_range (db : Db) (userId : string)
    (days now : Z) :
  Store.consistent db ->
  let stats := MoodService.getMoodStats db userId days now in
  MoodService.MoodStats.totalEntries stats = 0
  \/ (1 <= MoodService.MoodStats.averageIntensity stats <= 5)%Q.
Proof.
  intros (_ & Hint & _) stats. subst stats.
  unfold MoodService.getMoodStats.
  destruct (isTimeValue _); [|now left].
  set (entries := MoodService.getMoodEntriesInRange db userId _ _).
  assert (Hr : Forall (fun e => 1 <= MoodEntry.intensity e <= 5) entries).
  { subst entries. unfold MoodService.getMoodEntriesInRange.
    destruct (online db); [|constructor].
    unfold Store.intensitiesChecked in Hint. rewrite Forall_forall in *.
    intros e He. apply (Permutation_in _ (sort_perm _ _)) in He.
    apply filter_In in He. apply Hint. tauto. }
  destruct entries as [|e es]; [now left|]. right.
  unfold MoodService.statsOfEntries. cbv beta iota zeta.
  unfold MoodService.MoodStats.averageIntensity.
  rewrite fold_left_intensity, Z.add_0_l.
  apply round_tenths. apply mean_bounds.
  - simpl List.length. lia.
  - apply totalIntensity_bounds. exact Hr.
Qed.

Lemma getMoodStats_average_in_range_witness :
  (1 <= MoodService.MoodStats.averageIntensity
          (MoodService.getMoodStats Sample.db "anonymous" 7 Sample.now) <= 5)%Q.
Proof.
  destruct (getMoodStats_average_in_range Sample.db "anonymous" 7 Sample.now
              Sample_db_consistent) as [H|H].
  - vm_compute in H. discriminate.
  - exact H.
Defined.

(** ** Conversations and messages in the store *)

Section ConversationFacts.

Lemma title_of_update_keep (f : Conversation.t -> Conversation.t) (db : Db)
    (cid x : nat) :
  (forall c, Conversation.id (f c) = Conversation.id c) ->
  (forall c, Conversation.title (f c) = Conversation.title c) ->
  title_of (update_conversation f db cid) x = title_of db x.
Proof.
  intros Hid Htitle. unfold title_of, update_conversation.
  cbn [conversations].
  induction (conversations db) as [|c cs IH]; [reflexivity|].
  cbn [map find].
  destruct (Nat.eqb (Conversation.id c) cid) eqn:Hc; cbn [Conversation.id].
  - rewrite Hid. destruct (Nat.eqb (Conversation.id c) x); [|exact IH].
    cbn. now rewrite Htitle.
  - destruct (Nat.eqb (Conversation.id c) x); [reflexivity|exact IH].
Qed.

Lemma title_of_addMessage (db : Db) (cid : nat) (role : Role)
    (content : string) (now : Z) (x : nat) :
  title_of (fst (addMessage db cid role content now)) x = title_of db x.
Proof.
  unfold addMessage.
  destruct (online db && has_conversation db cid)%bool; [|reflexivity].
  cbn [fst]. rewrite title_of_update_keep; reflexivity.
Qed.

Lemma addMessage_stored (db : Db) (cid : nat) (role : Role)
    (content : string) (now : Z) :
  online db = true -> has_conversation db cid = true ->
  let db' := fst (addMessage db cid role content now) in
  online db' = true
  /\ messages db'
     = messages db ++ [Message.mk (next_id db) cid role content now (clock db)]
  /\ next_id db' = S (next_id db)
  /\ clock db' = clock db
  /\ has_conversation db' cid = true.
Proof.
  intros Hon Hhas db'. subst db'.
  destruct (addMessage_keeps db cid role content now) as (H1 & _ & H3).
  cbv zeta in H1, H3. split; [congruence|].
  split; [|split; [|split; [|congruence]]];
    unfold addMessage; rewrite Hon, Hhas; reflexivity.
Qed.

Lemma filter_filter_same {A : Type} (p q : A -> bool) (l : list A) :
  (forall x, p x = true -> q x = true) ->
  filter p (filter q l) = filter p l.
Proof.
  intro H. induction l as [|x l IH]; simpl; [reflexivity|].
  destruct (q x) eqn:Hq; simpl.
  - destruct (p x); now rewrite IH.
  - destruct (p x) eqn:Hp; [|exact IH]. rewrite (H x Hp) in Hq. discriminate.
Qed.

Lemma filter_none {A : Type} (p : A -> bool) (l : list A) :
  (forall x, In x l -> p x = false) -> filter p l = [].
Proof.
  induction l as [|x l IH]; intro H; simpl; [reflexivity|].
  rewrite (H x) by now left. apply IH. intros y Hy. apply H. now right.
Qed.

Lemma find_filter_same {A : Type} (p q : A -> bool) (l : list A) :
  (forall x, p x = true -> q x = true) ->
  find p (filter q l) = find p l.
Proof.
  intro H. induction l as [|x l IH]; simpl; [reflexivity|].
  destruct (q x) eqn:Hq; simpl.
  - destruct (p x); [reflexivity|exact IH].
  - destruct (p x) eqn:Hp; [|exact IH]. rewrite (H x Hp) in Hq. discriminate.
Qed.

End ConversationFacts.

(** X17: [saveMessageToDb] leaves the title of every conversation as it is
    when the message is the assistant's or when the component already shows
    a message; only a user message sent on an empty list sets a title. *)
Theorem saveMessageToDb_keeps_title (st : ChatInterface.State) (db : Db)
    (now : Z) (role : Role) (content : string) (cid : nat) :
  role = assistant \/ ChatInterface.messages st <> [] ->
  title_of (ChatInterface.saveMessageToDb st db now role content) cid
  = title_of db cid.
Proof.
  intro H. unfold ChatInterface.saveMessageToDb.
  destruct (ChatInterface.isSupabaseConnected st); [|reflexivity].
  destruct (ChatInterface.currentConversationId st) as [c|]; [|reflexivity].
  cbv zeta.
  assert (Hguard : (Role_eqb role user
                    && Nat.eqb (List.length (ChatInterface.messages st)) 0)%bool
                   = false).
  { destruct H as [->|H]; [reflexivity|].
    destruct (ChatInterface.messages st); [congruence|].
    apply andb_false_r. }
  rewrite Hguard. apply title_of_addMessage.
Qed.

Lemma saveMessageToDb_keeps_title_witness :
  title_of
    (ChatInterface.saveMessageToDb
       (ChatInterface.mkState
          [ChatInterface.Message.mk 5 assistant "I see you're feeling calm" 5]
          "" false (Some 1%nat) true "anonymous" HuggingFace.CHAT false)
       Sample.db Sample.now user "My first words") 1
  = Some "New Conversation".
Proof.
  rewrite (saveMessageToDb_keeps_title _ Sample.db Sample.now user
             "My first words" 1).
  - reflexivity.
  - right. discriminate.
Defined.

(** X18: a message added to an existing conversation, with a timestamp
    later than those of its messages, is listed last by [getMessages], after
    the messages listed before; the lists of the other conversations do not
    change. *)
Theorem addMessage_then_getMessages (db : Db) (cid : nat) (role : Role)
    (content : string) (now : Z) :
  online db = true ->
  has_conversation db cid = true ->
  (forall m, In m (messages db) -> Message.conversation_id m = cid ->
             Message.timestamp m < now) ->
  let db' := fst (addMessage db cid role content now) in
  MessageService.getMessages db' cid
  = MessageService.getMessages db cid
    ++ [Message.mk (next_id db) cid role content now (clock db)]
  /\ forall other, other <> cid ->
       MessageService.getMessages db' other
       = MessageService.getMessages db other.
Proof.
  intros Hon Hhas Hts db'.
  destruct (addMessage_stored db cid role content now Hon Hhas)
    as (Hon' & Hmsgs & _).
  fold db' in Hon', Hmsgs.
  unfold MessageService.getMessages. rewrite Hon, Hon', Hmsgs.
  rewrite !filter_app. cbn [filter Message.conversation_id].
  split.
  - rewrite Nat.eqb_refl.
    apply (sort_asc_snoc Message.timestamp).
    rewrite Forall_forall. intros m Hm. apply filter_In in Hm.
    destruct Hm as [Hm Hc]. apply Nat.eqb_eq in Hc.
    specialize (Hts m Hm Hc). cbn. lia.
  - intros other Hne. rewrite filter_app.
    cbn [filter Message.conversation_id].
    destruct (Nat.eqb_spec cid other); [congruence|].
    now rewrite app_nil_r.
Qed.

Lemma addMessage_then_getMessages_witness :
  let db := fst (addMessage Sample.db 1 user "Hello world" Sample.now) in
  MessageService.getMessages db 1
  = [Message.mk 3 1 user "Hello world" Sample.now 1751155200000]
  /\ MessageService.getMessages
       (fst (addMessage db 1 assistant "Hello!" (Sample.now + 1))) 1
     = [Message.mk 3 1 user "Hello world" Sample.now 1751155200000;
        Message.mk 4 1 assistant "Hello!" (Sample.now + 1) 1751155200000].
Proof.
  intro db. split; [reflexivity|].
  refine (proj1 (addMessage_then_getMessages db 1 assistant "Hello!"
                   (Sample.now + 1) eq_refl eq_refl _)).
  intros m [<-|[]] _. reflexivity.
Defined.

(** X19: deleting a conversation removes it and every message of it, and
    nothing else: the other conversations keep their titles and their
    messages, and [getConversations] lists the same conversations as before
    without the deleted one, in the same order. *)
Theorem deleteConversation_cascades (db : Db) (cid : nat) :
  online db = true ->
  let db' := fst (ConversationService.deleteConversation db cid) in
  snd (ConversationService.deleteConversation db cid) = true
  /\ has_conversation db' cid = false
  /\ MessageService.getMessages db' cid = []
  /\ (forall other, other <> cid ->
        MessageService.getMessages db' other
        = MessageService.getMessages db other
        /\ title_of db' other = title_of db other)
  /\ ConversationService.getConversations db'
     = filter (fun c => negb (Nat.eqb (Conversation.id c) cid))
              (ConversationService.getConversations db).
Proof.
  intros Hon db'. subst db'.
  unfold ConversationService.deleteConversation. rewrite Hon. cbn [fst snd].
  split; [reflexivity|]. split; [|split; [|split]].
  - unfold has_conversation. cbn [conversations].
    destruct (existsb _ _) eqn:He; [|reflexivity].
    apply existsb_exists in He. destruct He as (c & Hin & Hc).
    apply filter_In in Hin. destruct Hin as [_ Hne].
    rewrite Hc in Hne. discriminate.
  - unfold MessageService.getMessages. cbn [online messages]. rewrite ?Hon.
    rewrite filter_none; [reflexivity|].
    intros m Hm. apply filter_In in Hm. destruct Hm as [_ Hne].
    destruct (Nat.eqb (Message.conversation_id m) cid); [discriminate|].
    reflexivity.
  - intros other Hne. split.
    + unfold MessageService.getMessages. cbn [online messages]. rewrite ?Hon.
      rewrite filter_filter_same; [reflexivity|].
      intros m Hm. apply Nat.eqb_eq in Hm. rewrite Hm.
      destruct (Nat.eqb_spec other cid); [congruence|reflexivity].
    + unfold title_of. cbn [conversations].
      rewrite find_filter_same; [reflexivity|].
      intros c Hc. apply Nat.eqb_eq in Hc. rewrite Hc.
      destruct (Nat.eqb_spec other cid); [congruence|reflexivity].
  - unfold ConversationService.getConversations. cbn [online conversations].
    rewrite ?Hon. symmetry. apply (sort_desc_filter Conversation.updated_at).
Qed.

Lemma deleteConversation_cascades_witness :
  let db := fst (addMessage Sample.db 1 user "Hello world" Sample.now) in
  MessageService.getMessages db 1 <> []
  /\ MessageService.getMessages
       (fst (ConversationService.deleteConversation db 1)) 1 = []
  /\ ConversationService.getConversations
       (fst (ConversationService.deleteConversation db 1)) = [].
Proof.
  intro db. split; [discriminate|].
  destruct (deleteConversation_cascades db 1 eq_refl)
    as (_ & _ & Hmsgs & _ & Hlist).
  split; [exact Hmsgs|]. rewrite Hlist. reflexivity.
Defined.

(** X20: a conversation that receives a message moves to the top of
    [getConversations] when every other conversation was updated before
    the server's current time. *)
Theorem addMessage_moves_conversation_up (db : Db) (cid : nat) (role : Role)
    (content : string) (now : Z) :
  online db = true ->
  has_conversation db cid = true ->
  (forall c, In c (conversations db) -> Conversation.id c <> cid ->
             Conversation.updated_at c < clock db) ->
  exists top rest,
    ConversationService.getConversations
      (fst (addMessage db cid role content now)) = top :: rest
    /\ Conversation.id top = cid
    /\ Conversation.updated_at top = clock db.
Proof.
  intros Hon Hhas Hold.
  unfold addMessage. rewrite Hon, Hhas. cbn [andb fst].
  unfold ConversationService.getConversations, update_conversation.
  cbn [online conversations clock]. rewrite ?Hon.
  set (rows := map _ (conversations db)).
  assert (Hrows : forall r, In r rows ->
            (Conversation.id r = cid /\ Conversation.updated_at r = clock db)
            \/ (Conversation.id r <> cid
                /\ Conversation.updated_at r < clock db)).
  { intros r Hr. subst rows. apply in_map_iff in Hr.
    destruct Hr as (c & <- & Hc).
    destruct (Nat.eqb_spec (Conversation.id c) cid) as [He|Hne].
    - left. cbn. split; [exact He|reflexivity].
    - right. split; [exact Hne|]. now apply Hold. }
  assert (Hmine : exists r, In r rows /\ Conversation.id r = cid
                            /\ Conversation.updated_at r = clock db).
  { destruct (has_conversation_find db cid Hhas) as (c & Hc).
    apply find_some in Hc. destruct Hc as [Hin Hid].
    apply Nat.eqb_eq in Hid.
    eexists. split; [subst rows; apply in_map; exact Hin|].
    rewrite <- Hid, Nat.eqb_refl. cbn. split; reflexivity. }
  destruct Hmine as (r & Hr & Hrid & Hrup).
  destruct (Js.sort _ rows) as [|top rest] eqn:Hs.
  - pose proof (sort_perm
                  (fun a b : Conversation.t =>
                     Conversation.updated_at b - Conversation.updated_at a)
                  rows) as Hp.
    rewrite Hs in Hp. apply Permutation_nil in Hp. rewrite Hp in Hr.
    destruct Hr.
  - exists top, rest. split; [reflexivity|].
    destruct (sort_desc_head Conversation.updated_at _ _ _ Hs) as [Hin Hmax].
    specialize (Hmax r Hr).
    destruct (Hrows top Hin) as [[H1 H2]|[H1 H2]]; [tauto|lia].
Qed.

Lemma addMessage_moves_conversation_up_witness :
  let db :=
    mkDb true
      [Conversation.mk 1 "Plans" 10 40 "anonymous";
       Conversation.mk 2 "Notes" 20 30 "anonymous"] [] [] 3 50 in
  exists top rest,
    ConversationService.getConversations
      (fst (addMessage db 2 user "more notes" 50)) = top :: rest
    /\ Conversation.id top = 2%nat.
Proof.
  intro db.
  destruct (addMessage_moves_conversation_up db 2 user "more notes" 50)
    as (top & rest & Hs & Hid & _).
  - reflexivity.
  - reflexivity.
  - intros c [<-|[<-|[]]] Hne; cbn; [lia|].
    exfalso. apply Hne. reflexivity.
  - exists top, rest. split; assumption.
Defined.

(** ** Chat turns, in general *)

(** X21: a turn with a blank input, or sent while another is pending, does
    nothing at all; any other turn asks for one generation and appends
    exactly two messages, the user's trimmed input and then the assistant's
    reply, clears the input box and the pending flag, and keeps the
    settings. *)
Theorem sendMessage_effect (st : ChatInterface.State) (db : Db)
    (w : ChatInterface.World) :
  let t := ChatInterface.sendMessage st db w in
  if (negb (Js.truthy (Js.trim (ChatInterface.input st)))
      || ChatInterface.isLoading st)%bool
  then t = ChatInterface.mkTurn st db None
  else
    exists call reply,
      ChatInterface.requested t = Some call
      /\ ChatInterface.messages (ChatInterface.state t)
         = ChatInterface.messages st
           ++ [ChatInterface.Message.mk (ChatInterface.now w) user
                 (Js.trim (ChatInterface.input st)) (ChatInterface.now w);
               reply]
      /\ ChatInterface.Message.role reply = assistant
      /\ ChatInterface.input (ChatInterface.state t) = ""
      /\ ChatInterface.isLoading (ChatInterface.state t) = false
      /\ ChatInterface.useAdvancedMode (ChatInterface.state t)
         = ChatInterface.useAdvancedMode st
      /\ ChatInterface.aiModel (ChatInterface.state t)
         = ChatInterface.aiModel st
      /\ ChatInterface.userId (ChatInterface.state t)
         = ChatInterface.userId st.
Proof.
  intro t. subst t.
  destruct (Js.truthy (Js.trim (ChatInterface.input st))) eqn:Hin;
    cbn [negb orb].
  - destruct (ChatInterface.isLoading st) eqn:Hload.
    + unfold ChatInterface.sendMessage. rewrite Hin, Hload. reflexivity.
    + destruct (sendMessage_turn st db w Hin Hload)
        as (db2 & db3 & cid & _ & _ & Hturn).
      cbv zeta in Hturn. rewrite Hturn.
      do 2 eexists. cbn. repeat split; reflexivity.
  - unfold ChatInterface.sendMessage. rewrite Hin. reflexivity.
Qed.

(** X22: without a connection to the store (local mode) a turn leaves the
    store untouched and does not open a conversation. *)
Theorem sendMessage_local_mode (st : ChatInterface.State) (db : Db)
    (w : ChatInterface.World) :
  ChatInterface.isSupabaseConnected st = false ->
  ChatInterface.database (ChatInterface.sendMessage st db w) = db
  /\ ChatInterface.currentConversationId
       (ChatInterface.state (ChatInterface.sendMessage st db w))
     = ChatInterface.currentConversationId st.
Proof.
  intro Hconn. unfold ChatInterface.sendMessage.
  destruct (negb (Js.truthy (Js.trim (ChatInterface.input st)))
            || ChatInterface.isLoading st)%bool; [split; reflexivity|].
  rewrite Hconn.
  destruct (ChatInterface.currentConversationId st); split; reflexivity.
Qed.

Lemma sendMessage_local_mode_witness :
  let st :=
    ChatInterface.mkState [] "hi" false None false "anonymous"
      HuggingFace.CHAT true in
  ChatInterface.database
    (ChatInterface.sendMessage st Sample.db
       (ChatInterface.mkWorld Sample.now Sample.endpointDown 0)) = Sample.db.
Proof.
  intro st.
  exact (proj1 (sendMessage_local_mode st Sample.db
                  (ChatInterface.mkWorld Sample.now Sample.endpointDown 0)
                  eq_refl)).
Defined.

Section Routing.
Import ChatInterface HuggingFace.

(** The request of a turn when the supportive path is not taken. *)
Lemma generationCall_otherwise (st : State) (db : Db) (now : Z)
    (currentInput : string) (chatMessages : list ChatMessage.t) :
  useAdvancedMode st = true ->
  (Js.includes (Js.toLowerCase currentInput) "feel"
   || Js.includes (Js.toLowerCase currentInput) "mood")%bool = false
  \/ isSupabaseConnected st = false ->
  generationCall st db now currentInput chatMessages
  = let lower := Js.toLowerCase currentInput in
    if (Js.includes lower "story" || Js.includes lower "script"
        || Js.includes lower "narrat")%bool
    then generateCreativeContent currentInput
           (if Js.includes lower "script" then script
            else if Js.includes lower "narrat" then narration else story)
    else generateChatResponse chatMessages (aiModel st) (8 # 10) 1000.
Proof.
  intros Hadv H. unfold generationCall. rewrite Hadv.
  destruct H as [Hkey|Hconn].
  - cbv zeta. rewrite Hkey.
    destruct (if isSupabaseConnected st then _ else None); reflexivity.
  - rewrite Hconn. reflexivity.
Qed.

End Routing.

(** X23: how a sent turn is routed when the supportive path is not taken.
    With advanced mode off the request is always the general chat with the
    fixed model CHAT and temperature 0.7, whatever the input and the
    selected model.  With advanced mode on and no mood keyword in the input,
    or no connection to the store, an input containing "script" asks for a
    script, otherwise one containing "narrat" for a narration, otherwise one
    containing "story" for a story, and any other input goes to the general
    chat with the selected model and temperature 0.8. *)
Theorem sendMessage_routing (st : ChatInterface.State) (db : Db)
    (w : ChatInterface.World) :
  Js.truthy (Js.trim (ChatInterface.input st)) = true ->
  ChatInterface.isLoading st = false ->
  let currentInput := Js.trim (ChatInterface.input st) in
  let lower := Js.toLowerCase currentInput in
  let history :=
    map (fun m => HuggingFace.ChatMessage.mk (ChatInterface.Message.role m)
                    (ChatInterface.Message.content m))
        (ChatInterface.messages st)
    ++ [HuggingFace.ChatMessage.mk user currentInput] in
  let requested :=
    ChatInterface.requested (ChatInterface.sendMessage st db w) in
  (ChatInterface.useAdvancedMode st = false ->
   requested
   = Some (HuggingFace.generateChatResponse history HuggingFace.CHAT
             (7 # 10) 1000))
  /\ (ChatInterface.useAdvancedMode st = true ->
      (Js.includes lower "feel" || Js.includes lower "mood")%bool = false
      \/ ChatInterface.isSupabaseConnected st = false ->
      (Js.includes lower "script" = true ->
       requested
       = Some (HuggingFace.generateCreativeContent currentInput
                 HuggingFace.script))
      /\ (Js.includes lower "script" = false ->
          Js.includes lower "narrat" = true ->
          requested
          = Some (HuggingFace.generateCreativeContent currentInput
                    HuggingFace.narration))
      /\ (Js.includes lower "script" = false ->
          Js.includes lower "narrat" = false ->
          Js.includes lower "story" = true ->
          requested
          = Some (HuggingFace.generateCreativeContent currentInput
                    HuggingFace.story))
      /\ (Js.includes lower "script" = false ->
          Js.includes lower "narrat" = false ->
          Js.includes lower "story" = false ->
          requested
          = Some (HuggingFace.generateChatResponse history
                    (ChatInterface.aiModel st) (8 # 10) 1000))).
Proof.
  intros Hin Hload currentInput lower history requested.
  destruct (sendMessage_turn st db w Hin Hload)
    as (db2 & db3 & cid & _ & _ & Hturn).
  cbv zeta in Hturn. subst requested. rewrite Hturn.
  cbn [ChatInterface.requested]. fold currentInput. fold history.
  split.
  - intro Hadv. unfold ChatInterface.generationCall. rewrite Hadv.
    reflexivity.
  - intros Hadv Hno.
    rewrite (generationCall_otherwise st db2 (ChatInterface.now w)
               currentInput history Hadv Hno).
    cbv zeta. fold lower.
    split; [|split; [|split]].
    + intros ->. rewrite orb_true_r. reflexivity.
    + intros -> ->. rewrite orb_true_r. reflexivity.
    + intros -> -> ->. reflexivity.
    + intros -> -> ->. reflexivity.
Qed.

Lemma sendMessage_routing_witness :
  let w := ChatInterface.mkWorld Sample.now Sample.endpointDown 0 in
  ChatInterface.requested
    (ChatInterface.sendMessage
       (Sample.state "Narrate a story from my SCRIPT" true) Sample.db w)
  = Some (HuggingFace.generateCreativeContent
            "Narrate a story from my SCRIPT" HuggingFace.script)
  /\ ChatInterface.requested
       (ChatInterface.sendMessage
          (Sample.state "Narrate a story from my SCRIPT" false) Sample.db w)
     = Some (HuggingFace.generateChatResponse
               [HuggingFace.ChatMessage.mk user
                  "Narrate a story from my SCRIPT"]
               HuggingFace.CHAT (7 # 10) 1000).
Proof.
  intro w. split.
  - refine (proj1 (proj2 (sendMessage_routing
              (Sample.state "Narrate a story from my SCRIPT" true) Sample.db w
              eq_refl eq_refl) eq_refl (or_introl eq_refl)) eq_refl).
  - exact (proj1 (sendMessage_routing
              (Sample.state "Narrate a story from my SCRIPT" false) Sample.db
              w eq_refl eq_refl) eq_refl).
Defined.

Section Persistence.
Import ChatInterface.

Lemma has_conversation_update (f : Conversation.t -> Conversation.t)
    (db : Db) (cid x : nat) :
  (forall c, Conversation.id (f c) = Conversation.id c) ->
  has_conversation (update_conversation f db cid) x = has_conversation db x.
Proof.
  intro Hid. unfold has_conversation, update_conversation.
  cbn [conversations].
  apply existsb_map_same_id. apply update_row_id. exact Hid.
Qed.

(** What [saveMessageToDb] stores for the current conversation. *)
Lemma saveMessageToDb_stored (st : State) (db : Db) (now : Z) (role : Role)
    (content : string) (cid : nat) :
  isSupabaseConnected st = true -> currentConversationId st = Some cid ->
  online db = true -> has_conversation db cid = true ->
  let db' := saveMessageToDb st db now role content in
  online db' = true
  /\ has_conversation db' cid = true
  /\ Supabase.messages db'
     = Supabase.messages db
       ++ [Supabase.Message.mk (next_id db) cid role content now (clock db)]
  /\ next_id db' = S (next_id db)
  /\ clock db' = clock db.
Proof.
  intros Hconn Hcid Hon Hhas db'. subst db'.
  unfold saveMessageToDb. rewrite Hconn, Hcid. cbv zeta.
  destruct (addMessage_stored db cid role content now Hon Hhas)
    as (H1 & H2 & H3 & H4 & H5).
  cbv zeta in H1, H2, H3, H4, H5.
  destruct (Role_eqb role user
            && Nat.eqb (List.length (ChatInterface.messages st)) 0)%bool;
    [|repeat split; assumption].
  unfold updateConversationTitle. rewrite H1. cbn [fst].
  split; [exact H1|]. split; [|repeat split; assumption].
  rewrite has_conversation_update; [exact H5|reflexivity].
Qed.

End Persistence.

(** X24: a turn sent while no conversation is open, with the store
    reachable, creates a conversation titled "New Conversation" and makes
    it the current one, but stores no message in it: the save steps of that
    turn still see no current conversation. *)
Theorem sendMessage_opens_conversation (st : ChatInterface.State) (db : Db)
    (w : ChatInterface.World) :
  Js.truthy (Js.trim (ChatInterface.input st)) = true ->
  ChatInterface.isLoading st = false ->
  ChatInterface.isSupabaseConnected st = true ->
  ChatInterface.currentConversationId st = None ->
  online db = true ->
  let t := ChatInterface.sendMessage st db w in
  exists c,
    conversations (ChatInterface.database t) = conversations db ++ [c]
    /\ Conversation.id c = next_id db
    /\ Conversation.title c = "New Conversation"
    /\ ChatInterface.currentConversationId (ChatInterface.state t)
       = Some (Conversation.id c)
    /\ messages (ChatInterface.database t) = messages db.
Proof.
  intros Hin Hload Hconn Hcid Hon t. subst t.
  unfold ChatInterface.sendMessage. rewrite Hin, Hload, Hcid, Hconn.
  cbn [negb orb]. unfold createConversation. rewrite Hon.
  cbn [andb]. unfold ChatInterface.saveMessageToDb. rewrite Hconn, Hcid.
  cbn [ChatInterface.database ChatInterface.state
       ChatInterface.currentConversationId conversations messages].
  eexists. repeat split; reflexivity.
Qed.

Lemma sendMessage_opens_conversation_witness :
  let st :=
    ChatInterface.mkState [] "Hello world" false None true "anonymous"
      HuggingFace.CHAT false in
  let t :=
    ChatInterface.sendMessage st Sample.db
      (ChatInterface.mkWorld Sample.now Sample.endpointDown 0) in
  messages (ChatInterface.database t) = []
  /\ ChatInterface.currentConversationId (ChatInterface.state t)
     = Some 3%nat.
Proof.
  intros st t.
  destruct (sendMessage_opens_conversation st Sample.db
              (ChatInterface.mkWorld Sample.now Sample.endpointDown 0)
              eq_refl eq_refl eq_refl eq_refl eq_refl)
    as (c & _ & Hid & _ & Hcur & Hmsgs).
  split; [exact Hmsgs|]. fold t in Hcur. rewrite Hcur, Hid. reflexivity.
Defined.

(** X25: a turn sent in an open conversation that exists in a reachable
    store appends two rows to the messages of the store, in this order: the
    user's trimmed input and the assistant's reply exactly as it is shown,
    both for that conversation. *)
Theorem sendMessage_persists_turn (st : ChatInterface.State) (db : Db)
    (w : ChatInterface.World) (cid : nat) :
  Js.truthy (Js.trim (ChatInterface.input st)) = true ->
  ChatInterface.isLoading st = false ->
  ChatInterface.isSupabaseConnected st = true ->
  ChatInterface.currentConversationId st = Some cid ->
  online db = true ->
  has_conversation db cid = true ->
  let t := ChatInterface.sendMessage st db w in
  exists reply,
    ChatInterface.assistantReply st t = Some reply
    /\ messages (ChatInterface.database t)
       = messages db
         ++ [Message.mk (next_id db) cid user
               (Js.trim (ChatInterface.input st)) (ChatInterface.now w)
               (clock db);
             Message.mk (S (next_id db)) cid assistant
               (ChatInterface.Message.content reply) (ChatInterface.now w)
               (clock db)].
Proof.
  intros Hin Hload Hconn Hcid Hon Hhas t. subst t.
  unfold ChatInterface.sendMessage. rewrite Hin, Hload, Hcid, Hconn.
  cbn [negb orb andb].
  destruct (saveMessageToDb_stored st db (ChatInterface.now w) user
              (Js.trim (ChatInterface.input st)) cid Hconn Hcid Hon Hhas)
    as (Hon2 & Hhas2 & Hm2 & Hn2 & Hc2).
  cbv zeta in Hon2, Hhas2, Hm2, Hn2, Hc2.
  set (db2 := ChatInterface.saveMessageToDb st db (ChatInterface.now w) user
                (Js.trim (ChatInterface.input st))) in *.
  match goal with
  | |- context [ChatInterface.Message.mk (ChatInterface.now w + 1) assistant
                  ?content (ChatInterface.now w)] =>
      set (assistantContent := content)
  end.
  destruct (saveMessageToDb_stored st db2 (ChatInterface.now w) assistant
              assistantContent cid Hconn Hcid Hon2 Hhas2)
    as (_ & _ & Hm3 & _).
  cbv zeta in Hm3.
  eexists. split.
  - eapply assistantReply_appended. reflexivity.
  - cbn [ChatInterface.database ChatInterface.Message.content].
    rewrite Hm3, Hm2, Hn2, Hc2, <- app_assoc. reflexivity.
Qed.

Lemma sendMessage_persists_turn_witness :
  let t :=
    ChatInterface.sendMessage (Sample.state "  Hello world " false) Sample.db
      (ChatInterface.mkWorld Sample.now Sample.endpointDown 0) in
  map (fun m => (Message.role m, Message.content m))
      (messages (ChatInterface.database t))
  = [(user, "Hello world");
     (assistant, nth 0 HuggingFace.moodResponses "")]
  /\ title_of (ChatInterface.database t) 1 = Some "Hello world".
Proof.
  intro t.
  destruct (sendMessage_persists_turn (Sample.state "  Hello world " false)
              Sample.db
              (ChatInterface.mkWorld Sample.now Sample.endpointDown 0) 1
              eq_refl eq_refl eq_refl eq_refl eq_refl eq_refl)
    as (reply & Hreply & Hmsgs).
  fold t in Hreply, Hmsgs. split; [|reflexivity].
  rewrite Hmsgs. vm_compute in Hreply. injection Hreply as <-. reflexivity.
Defined.

(** X26: with advanced mode off, a successful reply whose body is an array
    of generations is not read by the conversational request: whatever the
    array holds, the turn answers with the fallback text for the input. *)
Theorem sendMessage_array_reply_falls_back (st : ChatInterface.State)
    (db : Db) (w : ChatInterface.World) (items : list (option string)) :
  Js.truthy (Js.trim (ChatInterface.input st)) = true ->
  ChatInterface.isLoading st = false ->
  ChatInterface.useAdvancedMode st = false ->
  (forall call,
     ChatInterface.endpoint w call
     = HuggingFace.Reply true (HuggingFace.Generations items)) ->
  exists reply,
    ChatInterface.assistantReply st (ChatInterface.sendMessage st db w)
    = Some reply
    /\ ChatInterface.Message.content reply
       = HuggingFace.generateFallbackResponse
           (Js.trim (ChatInterface.input st)) None (ChatInterface.random w).
Proof.
  intros Hin Hload Hadv Hreply.
  destruct (sendMessage_turn st db w Hin Hload)
    as (db2 & db3 & cid & _ & _ & Hturn).
  cbv zeta in Hturn. rewrite Hturn.
  eexists. split; [eapply assistantReply_appended; reflexivity|].
  cbn [ChatInterface.Message.content].
  unfold HuggingFace.perform. rewrite Hreply.
  unfold ChatInterface.generationCall. rewrite Hadv.
  reflexivity.
Qed.

Lemma sendMessage_array_reply_falls_back_witness :
  exists reply,
    ChatInterface.assistantReply (Sample.state "tell me a plot" false)
      (ChatInterface.sendMessage (Sample.state "tell me a plot" false)
         Sample.db
         (ChatInterface.mkWorld Sample.now
            (fun _ => HuggingFace.Reply true
                        (HuggingFace.Generations [Some "Once upon a time"]))
            0))
    = Some reply
    /\ In (ChatInterface.Message.content reply) HuggingFace.storyResponses.
Proof.
  destruct (sendMessage_array_reply_falls_back
              (Sample.state "tell me a plot" false) Sample.db
              (ChatInterface.mkWorld Sample.now
                 (fun _ => HuggingFace.Reply true
                             (HuggingFace.Generations
                                [Some "Once upon a time"]))
                 0)
              [Some "Once upon a time"] eq_refl eq_refl eq_refl
              (fun _ => eq_refl))
    as (reply & Hreply & Hcontent).
  exists reply. split; [exact Hreply|].
  rewrite Hcontent. vm_compute. left. reflexivity.
Defined.

Lemma saveMessageToDb_assistant_title (st : ChatInterface.State) (db : Db)
    (now : Z) (content : string) (x : nat) :
  title_of (ChatInterface.saveMessageToDb st db now assistant content) x
  = title_of db x.
Proof.
  unfold ChatInterface.saveMessageToDb.
  destruct (ChatInterface.isSupabaseConnected st); [|reflexivity].
  destruct (ChatInterface.currentConversationId st) as [c|]; [|reflexivity].
  cbv zeta. cbn [Role_eqb andb]. apply title_of_addMessage.
Qed.

(** On a consistent store no message belongs to the conversation that will
    be created next. *)
Lemma no_message_of_next_conversation (db : Db) (m : Message.t) :
  Store.consistent db -> In m (messages db) ->
  Message.conversation_id m <> next_id db.
Proof.
  intros (Hown & _ & Hc & _) Hm Heq.
  unfold Store.messagesOwned in Hown. rewrite Forall_forall in Hown, Hc.
  specialize (Hown m Hm). unfold has_conversation in Hown.
  apply existsb_exists in Hown. destruct Hown as (c & Hcin & Hceq).
  apply Nat.eqb_eq in Hceq. specialize (Hc c Hcin). lia.
Qed.

Lemma createNewConversation_opened (st : ChatInterface.State) (db : Db) :
  ChatInterface.isSupabaseConnected st = true -> online db = true ->
  ChatActions.createNewConversation st db
  = (ChatInterface.mkState [] (ChatInterface.input st)
       (ChatInterface.isLoading st) (Some (next_id db))
       (ChatInterface.isSupabaseConnected st) (ChatInterface.userId st)
       (ChatInterface.aiModel st) (ChatInterface.useAdvancedMode st),
     mkDb (online db)
       (conversations db
        ++ [Conversation.mk (next_id db) "New Conversation" (clock db)
              (clock db) "anonymous"])
       (messages db) (mood_entries db) (S (next_id db)) (clock db)).
Proof.
  intros Hconn Hon. unfold ChatActions.createNewConversation.
  rewrite Hconn. cbn [negb]. unfold createConversation. rewrite Hon.
  reflexivity.
Qed.

(** X27: after "new conversation" on a reachable, consistent store, the
    first turn sent is stored in the new conversation, the user's message then the reply,
    and the conversation is titled after the message: the trimmed input
    itself when it has at most 50 characters, its first 50 characters and
    three dots otherwise. *)
Theorem createNewConversation_then_sendMessage (st : ChatInterface.State)
    (db : Db) (w : ChatInterface.World) :
  Js.truthy (Js.trim (ChatInterface.input st)) = true ->
  ChatInterface.isLoading st = false ->
  ChatInterface.isSupabaseConnected st = true ->
  online db = true ->
  Store.consistent db ->
  let opened := ChatActions.createNewConversation st db in
  let t := ChatInterface.sendMessage (fst opened) (snd opened) w in
  let cid := next_id db in
  let currentInput := Js.trim (ChatInterface.input st) in
  ChatInterface.currentConversationId (ChatInterface.state t) = Some cid
  /\ title_of (ChatInterface.database t) cid
     = Some (if Nat.ltb 50 (String.length currentInput)
             then (String.substring 0 50 currentInput ++ "...")%string
             else currentInput)
  /\ exists reply,
       ChatInterface.messages (ChatInterface.state t)
       = [ChatInterface.Message.mk (ChatInterface.now w) user currentInput
            (ChatInterface.now w); reply]
       /\ map (fun m => (Message.role m, Message.content m))
              (Store.messagesOf (ChatInterface.database t) cid)
          = [(user, currentInput);
             (assistant, ChatInterface.Message.content reply)].
Proof.
  intros Hin Hload Hconn Hon Hcons. cbv zeta.
  rewrite (createNewConversation_opened st db Hconn Hon). cbn [fst snd].
  set (currentInput := Js.trim (ChatInterface.input st)) in *.
  set (c := Conversation.mk (next_id db) "New Conversation" (clock db)
              (clock db) "anonymous").
  set (db1 := mkDb (online db) (conversations db ++ [c]) (messages db)
                (mood_entries db) (S (next_id db)) (clock db)).
  set (st1 := ChatInterface.mkState [] (ChatInterface.input st)
                (ChatInterface.isLoading st) (Some (next_id db))
                (ChatInterface.isSupabaseConnected st)
                (ChatInterface.userId st) (ChatInterface.aiModel st)
                (ChatInterface.useAdvancedMode st)).
  assert (Hon1 : online db1 = true) by exact Hon.
  assert (Hhas1 : has_conversation db1 (next_id db) = true).
  { unfold has_conversation. subst db1. cbn [conversations].
    rewrite existsb_app. cbn. rewrite Nat.eqb_refl.
    apply orb_true_r. }
  unfold ChatInterface.sendMessage.
  change (ChatInterface.input st1) with (ChatInterface.input st).
  change (ChatInterface.isLoading st1) with (ChatInterface.isLoading st).
  change (ChatInterface.isSupabaseConnected st1)
    with (ChatInterface.isSupabaseConnected st).
  change (ChatInterface.currentConversationId st1) with (Some (next_id db)).
  change (ChatInterface.messages st1) with (@nil ChatInterface.Message.t).
  fold currentInput.
  rewrite Hin, Hload, Hconn. cbn [negb orb andb map app].
  set (db2 := ChatInterface.saveMessageToDb st1 db1 (ChatInterface.now w)
                user currentInput).
  destruct (saveMessageToDb_stored st1 db1 (ChatInterface.now w) user
              currentInput (next_id db) Hconn eq_refl Hon1 Hhas1)
    as (Hon2 & Hhas2 & Hm2 & Hn2 & Hc2).
  cbv zeta in Hon2, Hhas2, Hm2, Hn2, Hc2. fold db2 in Hon2, Hhas2, Hm2, Hn2, Hc2.
  match goal with
  | |- context [ChatInterface.Message.mk (ChatInterface.now w + 1) assistant
                  ?content (ChatInterface.now w)] =>
      set (assistantContent := content)
  end.
  set (db3 := ChatInterface.saveMessageToDb st1 db2 (ChatInterface.now w)
                assistant assistantContent).
  destruct (saveMessageToDb_stored st1 db2 (ChatInterface.now w) assistant
              assistantContent (next_id db) Hconn eq_refl Hon2 Hhas2)
    as (_ & _ & Hm3 & _).
  cbv zeta in Hm3. fold db3 in Hm3.
  cbn [ChatInterface.state ChatInterface.database
       ChatInterface.currentConversationId ChatInterface.messages].
  split; [reflexivity|]. split.
  - subst db3.
    rewrite (saveMessageToDb_assistant_title st1 db2 (ChatInterface.now w)
               assistantContent (next_id db)).
    subst db2. unfold ChatInterface.saveMessageToDb.
    change (ChatInterface.isSupabaseConnected st1)
      with (ChatInterface.isSupabaseConnected st).
    change (ChatInterface.currentConversationId st1) with (Some (next_id db)).
    change (ChatInterface.messages st1) with (@nil ChatInterface.Message.t).
    rewrite Hconn. cbn [Role_eqb List.length Nat.eqb andb].
    destruct (addMessage_keeps db1 (next_id db) user currentInput (ChatInterface.now w))
      as (Ha & _ & Hb).
    cbv zeta in Ha, Hb.
    apply title_of_updateConversationTitle; congruence.
  - eexists. split; [reflexivity|].
    unfold Store.messagesOf. rewrite Hm3, Hm2.
    cbn [ChatInterface.Message.content].
    rewrite <- app_assoc, filter_app.
    assert (Hnone : filter (fun m => Nat.eqb (Message.conversation_id m) (next_id db))
                           (messages db1) = []).
    { apply filter_none. intros m Hm. apply Nat.eqb_neq.
      now apply no_message_of_next_conversation. }
    rewrite Hnone. cbn [app filter Message.conversation_id].
    rewrite Nat.eqb_refl. reflexivity.
Qed.

Lemma createNewConversation_then_sendMessage_witness :
  let st :=
    ChatInterface.mkState [] "Hello world" false None true "anonymous"
      HuggingFace.CHAT false in
  let opened := ChatActions.createNewConversation st Sample.db in
  let t :=
    ChatInterface.sendMessage (fst opened) (snd opened)
      (ChatInterface.mkWorld Sample.now Sample.endpointDown 0) in
  title_of (ChatInterface.database t) 3 = Some "Hello world".
Proof.
  intros st opened t.
  exact (proj1 (proj2 (createNewConversation_then_sendMessage st Sample.db
                         (ChatInterface.mkWorld Sample.now Sample.endpointDown 0)
                         eq_refl eq_refl eq_refl eq_refl
                         Sample_db_consistent))).
Defined.

(** ** Mood selector and sidebar *)

Section Toggles.
Import MoodSelector.

Lemma existsb_eqb_In (x : string) (l : list string) :
  existsb (String.eqb x) l = true <-> In x l.
Proof.
  rewrite existsb_exists. split.
  - intros (y & Hy & He). apply String.eqb_eq in He. now subst.
  - intro H. exists x. split; [exact H|apply String.eqb_refl].
Qed.

Lemma toggleTrigger_In (t x : string) (prev : list string) :
  In x (toggleTrigger t prev)
  <-> (x = t /\ ~ In t prev) \/ (x <> t /\ In x prev).
Proof.
  unfold toggleTrigger.
  destruct (existsb (String.eqb t) prev) eqn:He.
  - apply existsb_eqb_In in He. rewrite filter_In.
    destruct (String.eqb_spec x t) as [->|Hne]; simpl.
    + split; [intros [_ H]; discriminate|]. intros [[_ H]|[H _]]; tauto.
    + split; [intros [H _]; right; tauto|]. intros [[H _]|[_ H]]; tauto.
  - assert (Hnot : ~ In t prev).
    { intro H. apply existsb_eqb_In in H. congruence. }
    rewrite in_app_iff. simpl.
    destruct (string_dec x t) as [->|Hne].
    + split; [intros _; left; tauto|]. intros _. right. now left.
    + split.
      * intros [H|[H|[]]]; [right; tauto|congruence].
      * intros [[H _]|[_ H]]; [congruence|now left].
Qed.

Lemma toggleTrigger_NoDup (t : string) (prev : list string) :
  NoDup prev -> NoDup (toggleTrigger t prev).
Proof.
  intro Hnd. unfold toggleTrigger.
  destruct (existsb (String.eqb t) prev) eqn:He.
  - now apply NoDup_filter.
  - apply NoDup_app; [exact Hnd|repeat constructor; simpl; tauto|].
    intros x Hx [<-|[]]. apply existsb_eqb_In in Hx. congruence.
Qed.

Lemma toggleTrigger_twice (t : string) (prev : list string) :
  ~ In t prev -> toggleTrigger t (toggleTrigger t prev) = prev.
Proof.
  intro Hnot. unfold toggleTrigger at 2.
  destruct (existsb (String.eqb t) prev) eqn:He.
  { apply existsb_eqb_In in He. contradiction. }
  unfold toggleTrigger.
  rewrite existsb_app. simpl. rewrite String.eqb_refl, orb_true_r.
  rewrite filter_app. simpl. rewrite String.eqb_refl. simpl.
  rewrite app_nil_r.
  induction prev as [|y prev IH]; [reflexivity|]. simpl.
  destruct (String.eqb_spec y t) as [->|Hne]; simpl.
  - exfalso. apply Hnot. now left.
  - f_equal. apply IH.
    + intro H. apply Hnot. now right.
    + simpl in He. apply orb_false_elim in He. tauto.
Qed.

End Toggles.

(** X28: toggling a trigger (and, by the same update, a secondary mood)
    flips its membership in the selection and leaves every other item as it
    was; a selection without repetition stays without repetition; and
    toggling an item that was not selected twice gives back the selection
    itself. *)
Theorem toggle_selection (t : string) (prev : list string) :
  (forall x, In x (MoodSelector.toggleTrigger t prev)
             <-> (x = t /\ ~ In t prev) \/ (x <> t /\ In x prev))
  /\ (NoDup prev -> NoDup (MoodSelector.toggleTrigger t prev))
  /\ (~ In t prev ->
      MoodSelector.toggleTrigger t (MoodSelector.toggleTrigger t prev) = prev)
  /\ MoodSelector.toggleSecondaryMood t prev
     = MoodSelector.toggleTrigger t prev.
Proof.
  split; [intro x; apply toggleTrigger_In|].
  split; [apply toggleTrigger_NoDup|].
  split; [apply toggleTrigger_twice|reflexivity].
Qed.

Lemma toggle_selection_witness :
  MoodSelector.toggleTrigger "Sleep"
    (MoodSelector.toggleTrigger "Sleep" ["Work/Career"; "Health"])
  = ["Work/Career"; "Health"]
  /\ NoDup (MoodSelector.toggleTrigger "Health" ["Work/Career"; "Health"]).
Proof.
  split.
  - apply (proj1 (proj2 (proj2 (toggle_selection "Sleep"
                                  ["Work/Career"; "Health"])))).
    simpl. intros [H|[H|[]]]; discriminate.
  - apply (proj1 (proj2 (toggle_selection "Health"
                           ["Work/Career"; "Health"]))).
    repeat constructor; simpl; intuition discriminate.
Defined.

Lemma deleteConversation_cascades_aux (db : Db) (cid : nat) :
  online db = true ->
  snd (ConversationService.deleteConversation db cid) = true
  /\ has_conversation (fst (ConversationService.deleteConversation db cid)) cid
     = false
  /\ ConversationService.getConversations
       (fst (ConversationService.deleteConversation db cid))
     = filter (fun c => negb (Nat.eqb (Conversation.id c) cid))
              (ConversationService.getConversations db).
Proof.
  intro Hon. unfold ConversationService.deleteConversation. rewrite Hon.
  cbn [fst snd]. split; [reflexivity|]. split.
  - unfold has_conversation. cbn [conversations].
    destruct (existsb _ _) eqn:He; [|reflexivity].
    apply existsb_exists in He. destruct He as (c & Hin & Hc).
    apply filter_In in Hin. destruct Hin as [_ Hne].
    rewrite Hc in Hne. discriminate.
  - unfold ConversationService.getConversations. cbn [online conversations].
    rewrite ?Hon. symmetry. apply (sort_desc_filter Conversation.updated_at).
Qed.

(** X29: deleting a conversation from the sidebar of the connected chat
    component.  Without confirmation, or when the store cannot be reached,
    nothing changes.  Otherwise the conversation leaves the store and the
    list shown, which keeps its other conversations in their order.  When
    the conversation deleted is not the current one the chat component is
    left as it is, and a list that showed what [getConversations] returns
    still does.  When it is the current one, "new conversation" is run: the
    chat component is emptied and moves to a conversation just inserted,
    titled [New Conversation]; the sidebar does not show it, so a list that
    showed what [getConversations] returns is now one conversation
    short. *)
Theorem handleDeleteConversation_effect (chat : ChatInterface.State)
    (st : ConversationSidebar.State) (db : Db) (confirmed : bool) (cid : nat) :
  ChatInterface.isSupabaseConnected chat = true ->
  (cid < next_id db)%nat ->
  let result := ChatSidebar.handleDeleteConversation chat st db confirmed cid in
  let st' := fst (fst result) in
  let chat' := snd (fst result) in
  let db' := snd result in
  let created :=
    Conversation.mk (next_id db) "New Conversation" (clock db) (clock db)
      "anonymous" in
  if (confirmed && online db)%bool then
    has_conversation db' cid = false
    /\ MessageService.getMessages db' cid = []
    /\ ConversationSidebar.conversations st'
       = filter (fun c => negb (Nat.eqb (Conversation.id c) cid))
                (ConversationSidebar.conversations st)
    /\ (if match ChatInterface.currentConversationId chat with
           | Some current => Nat.eqb current cid
           | None => false
           end
        then
          ChatInterface.currentConversationId chat' = Some (next_id db)
          /\ ChatInterface.messages chat' = []
          /\ In created (conversations db')
          /\ (ConversationSidebar.conversations st
              = ConversationService.getConversations db ->
              Permutation (ConversationService.getConversations db')
                          (created :: ConversationSidebar.conversations st')
              /\ ConversationSidebar.conversations st'
                 <> ConversationService.getConversations db')
        else
          chat' = chat
          /\ (ConversationSidebar.conversations st
              = ConversationService.getConversations db ->
              ConversationSidebar.conversations st'
              = ConversationService.getConversations db'))
  else result = (st, chat, db).
Proof.
  intros Hconn Hfresh result st' chat' db' created.
  subst st' chat' db' result.
  unfold ChatSidebar.handleDeleteConversation,
    ConversationSidebar.handleDeleteConversation.
  destruct confirmed; cbn [andb]; [|reflexivity].
  destruct (online db) eqn:Hon.
  2:{ unfold ConversationService.deleteConversation. rewrite Hon.
      reflexivity. }
  destruct (deleteConversation_cascades_aux db cid Hon)
    as (Hsnd & Hhas & Hlist).
  assert (Hmsgs : MessageService.getMessages
                    (fst (ConversationService.deleteConversation db cid)) cid
                  = []).
  { unfold ConversationService.deleteConversation, MessageService.getMessages.
    rewrite Hon. cbn [fst online messages]. rewrite ?Hon.
    rewrite filter_none; [reflexivity|].
    intros m Hm. apply filter_In in Hm. destruct Hm as [_ Hne].
    destruct (Nat.eqb (Message.conversation_id m) cid);
      [discriminate|reflexivity]. }
  assert (Hkeep : online (fst (ConversationService.deleteConversation db cid))
                  = true
                  /\ next_id (fst (ConversationService.deleteConversation db cid))
                     = next_id db
                  /\ clock (fst (ConversationService.deleteConversation db cid))
                     = clock db).
  { unfold ConversationService.deleteConversation. rewrite Hon.
    cbn [fst online next_id clock]. auto. }
  destruct Hkeep as (Hon1 & Hnext & Hclock).
  destruct (ConversationService.deleteConversation db cid) as [db1 ok].
  cbn [fst snd] in *. subst ok.
  destruct (match ChatInterface.currentConversationId chat with
            | Some current => Nat.eqb current cid
            | None => false
            end).
  - rewrite (createNewConversation_opened chat db1 Hconn Hon1).
    rewrite Hnext, Hclock. fold created. cbn [fst snd].
    cbn [ChatInterface.currentConversationId ChatInterface.messages
         ConversationSidebar.conversations].
    split.
    { unfold has_conversation in *. cbn [conversations].
      rewrite existsb_app, Hhas. cbn [existsb Conversation.id created orb].
      subst created. cbn [Conversation.id].
      destruct (Nat.eqb_spec (next_id db) cid); [lia|reflexivity]. }
    split.
    { unfold MessageService.getMessages in *. cbn [online messages].
      rewrite ?Hon1 in *. exact Hmsgs. }
    split; [reflexivity|].
    split; [reflexivity|]. split; [reflexivity|].
    split; [cbn [conversations]; apply in_or_app; right; now left|].
    intro Hsync. rewrite Hsync, <- Hlist.
    assert (Hperm : Permutation
                      (ConversationService.getConversations
                         (mkDb (online db1) (conversations db1 ++ [created])
                            (messages db1) (mood_entries db1)
                            (S (next_id db)) (clock db)))
                      (created :: ConversationService.getConversations db1)).
    { unfold ConversationService.getConversations. cbn [online conversations].
      rewrite Hon1.
      etransitivity; [apply sort_perm|].
      etransitivity; [symmetry; apply Permutation_cons_append|].
      constructor. symmetry. apply sort_perm. }
    split; [exact Hperm|].
    intro Heq. apply Permutation_length in Hperm.
    rewrite <- Heq in Hperm. cbn [List.length] in Hperm. lia.
  - cbn [fst snd ConversationSidebar.conversations].
    split; [exact Hhas|]. split; [exact Hmsgs|]. split; [reflexivity|].
    split; [reflexivity|].
    intro Hsync. rewrite Hsync, Hlist. reflexivity.
Qed.

Lemma handleDeleteConversation_effect_witness :
  let db := fst (addMessage Sample.db 1 user "Hello world" Sample.now) in
  let chat := Sample.state "" false in
  let st :=
    ConversationSidebar.mkState (ConversationService.getConversations db)
      None "" false in
  let result := ChatSidebar.handleDeleteConversation chat st db true 1 in
  ConversationSidebar.conversations (fst (fst result)) = []
  /\ ChatInterface.currentConversationId (snd (fst result)) = Some 4%nat
  /\ Permutation (ConversationService.getConversations (snd result))
       [Conversation.mk 4 "New Conversation" 1751155200000 1751155200000
          "anonymous"].
Proof.
  intros db chat st result.
  assert (Hfresh : (1 < next_id db)%nat) by (vm_compute; lia).
  pose proof (handleDeleteConversation_effect chat st db true 1 eq_refl Hfresh)
    as H.
  cbv zeta in H. change (true && online db)%bool with true in H.
  cbv iota in H. destruct H as (_ & _ & Hlist & Hcurrent).
  change (match ChatInterface.currentConversationId chat with
          | Some current => Nat.eqb current 1
          | None => false
          end) with true in Hcurrent.
  cbv iota in Hcurrent.
  destruct Hcurrent as (Hid & _ & _ & Hsync).
  destruct (Hsync eq_refl) as (Hperm & _).
  split; [exact Hlist|]. split; [exact Hid|]. exact Hperm.
Defined.

Section Renaming.

Lemma title_of_update_other (f : Conversation.t -> Conversation.t) (db : Db)
    (cid x : nat) :
  (forall c, Conversation.id (f c) = Conversation.id c) ->
  x <> cid ->
  title_of (update_conversation f db cid) x = title_of db x.
Proof.
  intros Hid Hne. unfold title_of, update_conversation. cbn [conversations].
  induction (conversations db) as [|c cs IH]; [reflexivity|].
  cbn [map find].
  destruct (Nat.eqb_spec (Conversation.id c) cid) as [He|Hn];
    cbn [Conversation.id].
  - rewrite Hid, He.
    destruct (Nat.eqb_spec cid x); [congruence|exact IH].
  - destruct (Nat.eqb (Conversation.id c) x); [reflexivity|exact IH].
Qed.

End Renaming.

(** X30: saving a rename in the sidebar always ends the editing.  A title
    that is blank once trimmed is never stored: the list and the store stay
    as they are, as they do when nothing is being edited or the store cannot
    be reached.  Otherwise the trimmed title is stored for the conversation,
    if it exists, and shown for it in the list; the other conversations keep
    their titles and the list keeps its conversations and their order. *)
Theorem saveEdit_effect (st : ConversationSidebar.State) (db : Db) :
  let result := ConversationSidebar.saveEdit st db in
  let st' := fst result in
  let db' := snd result in
  ConversationSidebar.editingId st' = None
  /\ ConversationSidebar.editTitle st' = ""
  /\ match ConversationSidebar.editingId st with
     | Some eid =>
         let title := Js.trim (ConversationSidebar.editTitle st) in
         if (Js.truthy title && online db)%bool then
           (has_conversation db eid = true -> title_of db' eid = Some title)
           /\ (forall other, other <> eid ->
                 title_of db' other = title_of db other)
           /\ map Conversation.id (ConversationSidebar.conversations st')
              = map Conversation.id (ConversationSidebar.conversations st)
           /\ (forall c, In c (ConversationSidebar.conversations st') ->
                 Conversation.id c = eid -> Conversation.title c = title)
         else ConversationSidebar.conversations st'
              = ConversationSidebar.conversations st
              /\ db' = db
     | None =>
         ConversationSidebar.conversations st'
         = ConversationSidebar.conversations st
         /\ db' = db
     end.
Proof.
  intros result st' db'. subst st' db' result.
  unfold ConversationSidebar.saveEdit.
  destruct (ConversationSidebar.editingId st) as [eid|];
    [|repeat split; reflexivity].
  cbv zeta.
  destruct (Js.truthy (Js.trim (ConversationSidebar.editTitle st))) eqn:Ht;
    cbn [andb]; [|repeat split; reflexivity].
  destruct (online db) eqn:Hon.
  - pose proof (title_of_updateConversationTitle db eid
                  (Js.trim (ConversationSidebar.editTitle st)) Hon) as Htitle.
    unfold updateConversationTitle in *. rewrite Hon in *.
    cbn [fst snd ConversationSidebar.editingId ConversationSidebar.editTitle
         ConversationSidebar.conversations] in *.
    split; [reflexivity|]. split; [reflexivity|].
    split; [exact Htitle|]. split; [|split].
    + intros other Hne. apply title_of_update_other; [reflexivity|exact Hne].
    + rewrite map_map. apply map_ext. intro c.
      destruct (Nat.eqb (Conversation.id c) eid); reflexivity.
    + intros c Hc Hid. apply in_map_iff in Hc.
      destruct Hc as (c0 & <- & _).
      destruct (Nat.eqb_spec (Conversation.id c0) eid) as [He|Hn];
        [reflexivity|].
      congruence.
  - unfold updateConversationTitle. rewrite Hon.
    repeat split; reflexivity.
Qed.

Lemma saveEdit_effect_witness :
  let st :=
    ConversationSidebar.mkState (ConversationService.getConversations Sample.db)
      (Some 1%nat) "  Weekend plans " false in
  title_of (snd (ConversationSidebar.saveEdit st Sample.db)) 1
  = Some "Weekend plans"
  /\ map Conversation.title
         (ConversationSidebar.conversations
            (fst (ConversationSidebar.saveEdit st Sample.db)))
     = ["Weekend plans"].
Proof.
  intro st.
  pose proof (saveEdit_effect st Sample.db) as H.
  cbv zeta in H. destruct H as (_ & _ & H).
  change (ConversationSidebar.editingId st) with (Some 1%nat) in H.
  cbv iota beta in H.
  change (Js.truthy (Js.trim (ConversationSidebar.editTitle st))
          && online Sample.db)%bool with true in H.
  cbv iota in H. destruct H as (Htitle & _).
  split; [exact (Htitle eq_refl)|reflexivity].
Defined.
